(** * A shallow embedding of the aiomeshtastic session engine

    The development follows
    [custom_components/meshtastic/aiomeshtastic/interface.py]: the node and
    configuration store, the channel look-ups, the request/response
    correlator, the reconnection loop, the supervised activities and the
    session life cycle.  Python objects are records, dictionaries are finite
    maps, exceptions are an explicit outcome type and the awaits of the
    coroutines are answered by an explicit environment. *)

From Stdlib Require Import ZArith String Ascii List Lia Bool DecimalString.
From stdpp Require Import base gmap strings list.

Set Warnings "-register-all,-clear-no-such-hyp".

Open Scope string_scope.
Open Scope Z_scope.

(** ** Python values, exceptions and outcomes *)

(** The values that [MessageToDict] produces and that the node database
    stores: the JSON-like fragment of Python. *)
Inductive pyvalue : Type :=
| PyNone
| PyBool (b : bool)
| PyInt (z : Z)
| PyStr (s : string)
| PyDict (d : gmap string pyvalue).

(** [bool(v)], the truth value Python gives to a value. *)
Definition truthy (v : pyvalue) : bool :=
  match v with
  | PyNone => false
  | PyBool b => b
  | PyInt z => negb (z =? 0)
  | PyStr s => negb (String.eqb s "")
  | PyDict d => negb (bool_decide (d = ∅))
  end.

(** [d.get(key, default)] on a dictionary value. *)
Definition dict_get (d : gmap string pyvalue) (key : string) (default : pyvalue) : pyvalue :=
  match d !! key with
  | Some v => v
  | None => default
  end.

(** The exceptions the modelled code raises or lets through. *)
Inductive pyexn : Type :=
| ValueError (msg : string)
| IndexError
| TypeError
| AttributeError
| TimeoutError
| CancelledError
| MeshRoutingError (error_reason : Z)
| MeshInterfaceRequestError (msg : string) (seconds : Z)
| OtherException (name : string).

(** A call either returns or raises. *)
Inductive outcome (A : Type) : Type :=
| Return (a : A)
| Raise (e : pyexn).
Arguments Return {A} a.
Arguments Raise {A} e.

Definition bind {A B : Type} (m : outcome A) (k : A -> outcome B) : outcome B :=
  match m with
  | Return a => k a
  | Raise e => Raise e
  end.

Notation "'let*' x ':=' m 'in' k" := (bind m (fun x => k))
  (at level 10, x name, m at level 100, k at level 200).

(** ** Integer formatting and string slices *)

(** The digit characters of the [x] presentation type. *)
Definition hex_digit (d : Z) : ascii :=
  match d with
  | 0 => "0" | 1 => "1" | 2 => "2" | 3 => "3"
  | 4 => "4" | 5 => "5" | 6 => "6" | 7 => "7"
  | 8 => "8" | 9 => "9" | 10 => "a" | 11 => "b"
  | 12 => "c" | 13 => "d" | 14 => "e" | _ => "f"
  end%char.

(** The shortest lowercase hexadecimal numeral of a non-negative integer. *)
Fixpoint to_hex_fuel (fuel : nat) (n : Z) : string :=
  match fuel with
  | O => ""
  | S fuel' =>
      if n <? 16 then String (hex_digit n) ""
      else to_hex_fuel fuel' (n / 16) ++ String (hex_digit (n mod 16)) ""
  end.

Definition to_hex (n : Z) : string :=
  to_hex_fuel (S (Z.to_nat (Z.log2 n))) n.

Fixpoint zeros (k : nat) : string :=
  match k with
  | O => ""
  | S k' => String "0" (zeros k')
  end.

(** Left padding with ["0"] up to [width] characters. *)
Definition zero_pad (width : nat) (s : string) : string :=
  zeros (width - String.length s) ++ s.

(** [format(n, "08x")]: sign first, then zeros, then the digits; the sign
    counts towards the width. *)
Definition format_08x (n : Z) : string :=
  if n <? 0 then String "-" (zero_pad 7 (to_hex (- n)))
  else zero_pad 8 (to_hex n).

(** [s[-4:]]: the last four characters, the whole string when it is
    shorter. *)
Definition last4 (s : string) : string :=
  substring (String.length s - 4) 4 s.

(** ** Nodes *)

Record MeshNode : Type := {
  id : Z;
  user_id : string;
  short_name : string;
  long_name : string
}.

(** [MeshNode.stub_node] *)
Definition stub_node (node_id : Z) : MeshNode :=
  let user_id := String "!" (format_08x node_id) in
  {| id := node_id;
     user_id := user_id;
     short_name := last4 user_id;
     long_name := "Meshtastic " ++ last4 user_id |}.

Definition BROADCAST_NUM : Z := 0xFFFFFFFF.
Definition BROADCAST_ADDR : string := "^all".
Definition PKC_CHANNEL_INDEX : Z := 8.

(** [MeshInterface._get_or_create_node], on the node database alone: the
    returned mapping and the database after the call. *)
Definition _get_or_create_node (node_database : gmap Z (gmap string pyvalue)) (node_num : Z)
  : outcome (gmap string pyvalue * gmap Z (gmap string pyvalue)) :=
  if node_num =? BROADCAST_NUM then Raise (ValueError "Broadcast Num is no valid node num")
  else
    match node_database !! node_num with
    | Some n => Return (n, node_database)
    | None =>
        let presumptive_id := String "!" (format_08x node_num) in
        let n : gmap string pyvalue :=
          <["num" := PyInt node_num]>
          (<["user" := PyDict
               (<["id" := PyStr presumptive_id]>
               (<["longName" := PyStr ("Meshtastic " ++ last4 presumptive_id)]>
               (<["shortName" := PyStr (last4 presumptive_id)]>
               (<["hwModel" := PyStr "UNSET"]> ∅))))]> ∅) in
        Return (n, <[node_num := n]> node_database)
    end.


(** ** Protocol messages

    The generated protobuf classes are not part of the engine; they are
    represented by the fields the engine reads.  A sub-message that the
    engine only stores or copies is kept in its dictionary form. *)

Definition Message : Type := gmap string pyvalue.

Module channel_pb2.
Inductive Role : Type := DISABLED | PRIMARY | SECONDARY.

Definition Role_eqb (a b : Role) : bool :=
  match a, b with
  | DISABLED, DISABLED | PRIMARY, PRIMARY | SECONDARY, SECONDARY => true
  | _, _ => false
  end.

Record ChannelSettings : Type := {
  name : string;
  id : Z
}.

Record Channel : Type := {
  index : Z;
  settings : ChannelSettings;
  role : Role
}.
End channel_pb2.

Module mesh_pb2.
Record MyNodeInfo : Type := { my_node_num : Z }.
End mesh_pb2.

Module config_pb2.
(** [Config]: a present sub-message is [Some], [HasField] is [is_Some]. *)
Record Config : Type := {
  device : option Message;
  position : option Message;
  power : option Message;
  network : option Message;
  display : option Message;
  lora : option Message;
  bluetooth : option Message;
  security : option Message
}.
End config_pb2.

Module module_config_pb2.
Record ModuleConfig : Type := {
  mqtt : option Message;
  serial : option Message;
  external_notification : option Message;
  store_forward : option Message;
  range_test : option Message;
  telemetry : option Message;
  canned_message : option Message;
  audio : option Message;
  remote_hardware : option Message;
  neighbor_info : option Message;
  detection_sensor : option Message;
  ambient_lighting : option Message;
  paxcounter : option Message
}.
End module_config_pb2.

Module localonly_pb2.
Record LocalConfig : Type := {
  device : Message;
  position : Message;
  power : Message;
  network : Message;
  display : Message;
  lora : Message;
  bluetooth : Message;
  security : Message
}.

Record LocalModuleConfig : Type := {
  mqtt : Message;
  serial : Message;
  external_notification : Message;
  store_forward : Message;
  range_test : Message;
  telemetry : Message;
  canned_message : Message;
  audio : Message;
  remote_hardware : Message;
  neighbor_info : Message;
  detection_sensor : Message;
  ambient_lighting : Message;
  paxcounter : Message
}.
End localonly_pb2.

(** The variants of the [FromRadio] one-of that the engine inspects. *)
Inductive FromRadio : Type :=
| FR_rebooted (rebooted : bool)
| FR_my_info (my_info : mesh_pb2.MyNodeInfo)
| FR_metadata (metadata : Message)
| FR_channel (channel : channel_pb2.Channel)
| FR_queueStatus (queueStatus : Message)
| FR_log_record
| FR_config (config : config_pb2.Config)
| FR_moduleConfig (moduleConfig : module_config_pb2.ModuleConfig)
| FR_other.

Record MeshChannel : Type := {
  index : option Z;
  name : string
}.

(** ** The session object *)

Record MeshInterface : Type := {
  no_nodes : bool;
  _is_running : bool;
  _connected_node_info : option mesh_pb2.MyNodeInfo;
  _connected_node_metadata : option Message;
  _connected_node_channels : option (list channel_pb2.Channel);
  _connected_node_queue_status : option Message;
  _connected_node_local_config : localonly_pb2.LocalConfig;
  _connected_node_module_config : localonly_pb2.LocalModuleConfig;
  _connected_node_ready : bool;
  _heartbeat_interval_s : Z;
  _ack_timeout : Z;
  _response_timeout : Z;
  _node_database : gmap Z (gmap string pyvalue);
  _processing_tasks : gset nat;
  _background_tasks : gset nat;
  _packet_stream_listeners : list nat
}.

(** Attribute assignment: [self.<field> = v]. *)

Definition set_is_running (v : bool) (self : MeshInterface) : MeshInterface :=
  {| no_nodes := no_nodes self; _is_running := v;
     _connected_node_info := _connected_node_info self;
     _connected_node_metadata := _connected_node_metadata self;
     _connected_node_channels := _connected_node_channels self;
     _connected_node_queue_status := _connected_node_queue_status self;
     _connected_node_local_config := _connected_node_local_config self;
     _connected_node_module_config := _connected_node_module_config self;
     _connected_node_ready := _connected_node_ready self;
     _heartbeat_interval_s := _heartbeat_interval_s self; _ack_timeout := _ack_timeout self;
     _response_timeout := _response_timeout self; _node_database := _node_database self;
     _processing_tasks := _processing_tasks self; _background_tasks := _background_tasks self;
     _packet_stream_listeners := _packet_stream_listeners self |}.

Definition set_connected_node_info (v : option mesh_pb2.MyNodeInfo) (self : MeshInterface) : MeshInterface :=
  {| no_nodes := no_nodes self; _is_running := _is_running self; _connected_node_info := v;
     _connected_node_metadata := _connected_node_metadata self;
     _connected_node_channels := _connected_node_channels self;
     _connected_node_queue_status := _connected_node_queue_status self;
     _connected_node_local_config := _connected_node_local_config self;
     _connected_node_module_config := _connected_node_module_config self;
     _connected_node_ready := _connected_node_ready self;
     _heartbeat_interval_s := _heartbeat_interval_s self; _ack_timeout := _ack_timeout self;
     _response_timeout := _response_timeout self; _node_database := _node_database self;
     _processing_tasks := _processing_tasks self; _background_tasks := _background_tasks self;
     _packet_stream_listeners := _packet_stream_listeners self |}.

Definition set_connected_node_metadata (v : option Message) (self : MeshInterface) : MeshInterface :=
  {| no_nodes := no_nodes self; _is_running := _is_running self;
     _connected_node_info := _connected_node_info self; _connected_node_metadata := v;
     _connected_node_channels := _connected_node_channels self;
     _connected_node_queue_status := _connected_node_queue_status self;
     _connected_node_local_config := _connected_node_local_config self;
     _connected_node_module_config := _connected_node_module_config self;
     _connected_node_ready := _connected_node_ready self;
     _heartbeat_interval_s := _heartbeat_interval_s self; _ack_timeout := _ack_timeout self;
     _response_timeout := _response_timeout self; _node_database := _node_database self;
     _processing_tasks := _processing_tasks self; _background_tasks := _background_tasks self;
     _packet_stream_listeners := _packet_stream_listeners self |}.

Definition set_connected_node_channels (v : option (list channel_pb2.Channel)) (self : MeshInterface) : MeshInterface :=
  {| no_nodes := no_nodes self; _is_running := _is_running self;
     _connected_node_info := _connected_node_info self;
     _connected_node_metadata := _connected_node_metadata self; _connected_node_channels := v;
     _connected_node_queue_status := _connected_node_queue_status self;
     _connected_node_local_config := _connected_node_local_config self;
     _connected_node_module_config := _connected_node_module_config self;
     _connected_node_ready := _connected_node_ready self;
     _heartbeat_interval_s := _heartbeat_interval_s self; _ack_timeout := _ack_timeout self;
     _response_timeout := _response_timeout self; _node_database := _node_database self;
     _processing_tasks := _processing_tasks self; _background_tasks := _background_tasks self;
     _packet_stream_listeners := _packet_stream_listeners self |}.

Definition set_connected_node_queue_status (v : option Message) (self : MeshInterface) : MeshInterface :=
  {| no_nodes := no_nodes self; _is_running := _is_running self;
     _connected_node_info := _connected_node_info self;
     _connected_node_metadata := _connected_node_metadata self;
     _connected_node_channels := _connected_node_channels self;
     _connected_node_queue_status := v;
     _connected_node_local_config := _connected_node_local_config self;
     _connected_node_module_config := _connected_node_module_config self;
     _connected_node_ready := _connected_node_ready self;
     _heartbeat_interval_s := _heartbeat_interval_s self; _ack_timeout := _ack_timeout self;
     _response_timeout := _response_timeout self; _node_database := _node_database self;
     _processing_tasks := _processing_tasks self; _background_tasks := _background_tasks self;
     _packet_stream_listeners := _packet_stream_listeners self |}.

Definition set_connected_node_local_config (v : localonly_pb2.LocalConfig) (self : MeshInterface) : MeshInterface :=
  {| no_nodes := no_nodes self; _is_running := _is_running self;
     _connected_node_info := _connected_node_info self;
     _connected_node_metadata := _connected_node_metadata self;
     _connected_node_channels := _connected_node_channels self;
     _connected_node_queue_status := _connected_node_queue_status self;
     _connected_node_local_config := v;
     _connected_node_module_config := _connected_node_module_config self;
     _connected_node_ready := _connected_node_ready self;
     _heartbeat_interval_s := _heartbeat_interval_s self; _ack_timeout := _ack_timeout self;
     _response_timeout := _response_timeout self; _node_database := _node_database self;
     _processing_tasks := _processing_tasks self; _background_tasks := _background_tasks self;
     _packet_stream_listeners := _packet_stream_listeners self |}.

Definition set_connected_node_module_config (v : localonly_pb2.LocalModuleConfig) (self : MeshInterface) : MeshInterface :=
  {| no_nodes := no_nodes self; _is_running := _is_running self;
     _connected_node_info := _connected_node_info self;
     _connected_node_metadata := _connected_node_metadata self;
     _connected_node_channels := _connected_node_channels self;
     _connected_node_queue_status := _connected_node_queue_status self;
     _connected_node_local_config := _connected_node_local_config self;
     _connected_node_module_config := v; _connected_node_ready := _connected_node_ready self;
     _heartbeat_interval_s := _heartbeat_interval_s self; _ack_timeout := _ack_timeout self;
     _response_timeout := _response_timeout self; _node_database := _node_database self;
     _processing_tasks := _processing_tasks self; _background_tasks := _background_tasks self;
     _packet_stream_listeners := _packet_stream_listeners self |}.

Definition set_connected_node_ready (v : bool) (self : MeshInterface) : MeshInterface :=
  {| no_nodes := no_nodes self; _is_running := _is_running self;
     _connected_node_info := _connected_node_info self;
     _connected_node_metadata := _connected_node_metadata self;
     _connected_node_channels := _connected_node_channels self;
     _connected_node_queue_status := _connected_node_queue_status self;
     _connected_node_local_config := _connected_node_local_config self;
     _connected_node_module_config := _connected_node_module_config self;
     _connected_node_ready := v; _heartbeat_interval_s := _heartbeat_interval_s self;
     _ack_timeout := _ack_timeout self; _response_timeout := _response_timeout self;
     _node_database := _node_database self; _processing_tasks := _processing_tasks self;
     _background_tasks := _background_tasks self;
     _packet_stream_listeners := _packet_stream_listeners self |}.

Definition set_node_database (v : gmap Z (gmap string pyvalue)) (self : MeshInterface) : MeshInterface :=
  {| no_nodes := no_nodes self; _is_running := _is_running self;
     _connected_node_info := _connected_node_info self;
     _connected_node_metadata := _connected_node_metadata self;
     _connected_node_channels := _connected_node_channels self;
     _connected_node_queue_status := _connected_node_queue_status self;
     _connected_node_local_config := _connected_node_local_config self;
     _connected_node_module_config := _connected_node_module_config self;
     _connected_node_ready := _connected_node_ready self;
     _heartbeat_interval_s := _heartbeat_interval_s self; _ack_timeout := _ack_timeout self;
     _response_timeout := _response_timeout self; _node_database := v;
     _processing_tasks := _processing_tasks self; _background_tasks := _background_tasks self;
     _packet_stream_listeners := _packet_stream_listeners self |}.

Definition set_processing_tasks (v : gset nat) (self : MeshInterface) : MeshInterface :=
  {| no_nodes := no_nodes self; _is_running := _is_running self;
     _connected_node_info := _connected_node_info self;
     _connected_node_metadata := _connected_node_metadata self;
     _connected_node_channels := _connected_node_channels self;
     _connected_node_queue_status := _connected_node_queue_status self;
     _connected_node_local_config := _connected_node_local_config self;
     _connected_node_module_config := _connected_node_module_config self;
     _connected_node_ready := _connected_node_ready self;
     _heartbeat_interval_s := _heartbeat_interval_s self; _ack_timeout := _ack_timeout self;
     _response_timeout := _response_timeout self; _node_database := _node_database self;
     _processing_tasks := v; _background_tasks := _background_tasks self;
     _packet_stream_listeners := _packet_stream_listeners self |}.

Definition set_background_tasks (v : gset nat) (self : MeshInterface) : MeshInterface :=
  {| no_nodes := no_nodes self; _is_running := _is_running self;
     _connected_node_info := _connected_node_info self;
     _connected_node_metadata := _connected_node_metadata self;
     _connected_node_channels := _connected_node_channels self;
     _connected_node_queue_status := _connected_node_queue_status self;
     _connected_node_local_config := _connected_node_local_config self;
     _connected_node_module_config := _connected_node_module_config self;
     _connected_node_ready := _connected_node_ready self;
     _heartbeat_interval_s := _heartbeat_interval_s self; _ack_timeout := _ack_timeout self;
     _response_timeout := _response_timeout self; _node_database := _node_database self;
     _processing_tasks := _processing_tasks self; _background_tasks := v;
     _packet_stream_listeners := _packet_stream_listeners self |}.

Definition set_packet_stream_listeners (v : list nat) (self : MeshInterface) : MeshInterface :=
  {| no_nodes := no_nodes self; _is_running := _is_running self;
     _connected_node_info := _connected_node_info self;
     _connected_node_metadata := _connected_node_metadata self;
     _connected_node_channels := _connected_node_channels self;
     _connected_node_queue_status := _connected_node_queue_status self;
     _connected_node_local_config := _connected_node_local_config self;
     _connected_node_module_config := _connected_node_module_config self;
     _connected_node_ready := _connected_node_ready self;
     _heartbeat_interval_s := _heartbeat_interval_s self; _ack_timeout := _ack_timeout self;
     _response_timeout := _response_timeout self; _node_database := _node_database self;
     _processing_tasks := _processing_tasks self; _background_tasks := _background_tasks self;
     _packet_stream_listeners := v |}.

(** [LocalConfig()] and [LocalModuleConfig()]: every sub-message unset. *)
Definition LocalConfig_default : localonly_pb2.LocalConfig :=
  {| localonly_pb2.device := ∅; localonly_pb2.position := ∅; localonly_pb2.power := ∅;
     localonly_pb2.network := ∅; localonly_pb2.display := ∅; localonly_pb2.lora := ∅;
     localonly_pb2.bluetooth := ∅; localonly_pb2.security := ∅ |}.

Definition LocalModuleConfig_default : localonly_pb2.LocalModuleConfig :=
  {| localonly_pb2.mqtt := ∅; localonly_pb2.serial := ∅;
     localonly_pb2.external_notification := ∅; localonly_pb2.store_forward := ∅;
     localonly_pb2.range_test := ∅; localonly_pb2.telemetry := ∅;
     localonly_pb2.canned_message := ∅; localonly_pb2.audio := ∅;
     localonly_pb2.remote_hardware := ∅; localonly_pb2.neighbor_info := ∅;
     localonly_pb2.detection_sensor := ∅; localonly_pb2.ambient_lighting := ∅;
     localonly_pb2.paxcounter := ∅ |}.

(** [MeshInterface.__init__]; the durations are in seconds. *)
Definition MeshInterface_init (no_nodes : bool)
    (heartbeat_interval acknowledgement_timeout response_timeout : option Z) : MeshInterface :=
  {| no_nodes := no_nodes;
     _is_running := false;
     _connected_node_info := None;
     _connected_node_metadata := None;
     _connected_node_channels := None;
     _connected_node_queue_status := None;
     _connected_node_local_config := LocalConfig_default;
     _connected_node_module_config := LocalModuleConfig_default;
     _connected_node_ready := false;
     _heartbeat_interval_s := match heartbeat_interval with None => 600 | Some t => t end;
     _ack_timeout := match acknowledgement_timeout with None => 30 | Some t => t end;
     _response_timeout := match response_timeout with None => 60 | Some t => t end;
     _node_database := ∅;
     _processing_tasks := ∅;
     _background_tasks := ∅;
     _packet_stream_listeners := [] |}.

(** ** Public queries of the local device state *)

(** [MeshInterface.connected_node]; the read-only proxy is the mapping. *)
Definition connected_node (self : MeshInterface) : outcome (option (gmap string pyvalue)) :=
  if negb (_connected_node_ready self) then Return None
  else
    match _connected_node_info self with
    | None => Raise AttributeError
    | Some info => Return (_node_database self !! mesh_pb2.my_node_num info)
    end.

Definition connected_node_metadata (self : MeshInterface) : option Message :=
  if negb (_connected_node_ready self) then None
  else _connected_node_metadata self.

Definition connected_node_channels (self : MeshInterface) : option (list channel_pb2.Channel) :=
  if negb (_connected_node_ready self) then None
  else _connected_node_channels self.

Definition connected_node_local_config (self : MeshInterface) : option localonly_pb2.LocalConfig :=
  if negb (_connected_node_ready self) then None
  else Some (_connected_node_local_config self).

Definition connected_node_module_config (self : MeshInterface)
  : option localonly_pb2.LocalModuleConfig :=
  if negb (_connected_node_ready self) then None
  else Some (_connected_node_module_config self).

(** [MeshInterface._start_config] up to its await of [request_config]: the
    ready flag is cleared first, then the snapshot is reset. *)
Definition _start_config_reset (self : MeshInterface) : MeshInterface :=
  let self := set_connected_node_ready false self in
  let self := set_connected_node_info None self in
  let self := set_connected_node_metadata None self in
  let self := set_connected_node_channels (Some []) self in
  let self := set_connected_node_queue_status None self in
  set_node_database ∅ self.

(** [MeshInterface._start_config] after [request_config] has returned. *)
Definition _start_config_done (self : MeshInterface) : MeshInterface :=
  set_connected_node_ready true self.

(** ** Sequences *)

(** [len(x)] where [x] may be [None]. *)
Definition py_len {A : Type} (x : option (list A)) : outcome Z :=
  match x with
  | None => Raise TypeError
  | Some l => Return (Z.of_nat (length l))
  end.

(** [x[i]]: a negative index counts from the end, an index outside the
    list raises [IndexError], [None] is not subscriptable. *)
Definition py_getitem {A : Type} (x : option (list A)) (i : Z) : outcome A :=
  match x with
  | None => Raise TypeError
  | Some l =>
      let j := if i <? 0 then i + Z.of_nat (length l) else i in
      if j <? 0 then Raise IndexError
      else match l !! Z.to_nat j with
           | Some a => Return a
           | None => Raise IndexError
           end
  end.

(** ** Channel look-up *)

(** [next((c for c in channels if c.settings.name == name and
    c.role != DISABLED), None)] *)
Fixpoint first_enabled_named (name : string) (channels : list channel_pb2.Channel)
  : option channel_pb2.Channel :=
  match channels with
  | [] => None
  | channel_info :: channels' =>
      if String.eqb (channel_pb2.name (channel_pb2.settings channel_info)) name
         && negb (channel_pb2.Role_eqb (channel_pb2.role channel_info) channel_pb2.DISABLED)
      then Some channel_info
      else first_enabled_named name channels'
  end.

(** [MeshInterface.find_channel] *)
Definition find_channel (self : MeshInterface) (index : option Z) (name : option string)
  : outcome (option MeshChannel) :=
  match index, name with
  | None, None => Raise (ValueError "Most provide index or name")
  | Some i, _ =>
      match _connected_node_info self with
      | None => Return None
      | Some _ =>
          let* n := py_len (_connected_node_channels self) in
          if n <? i then Return None
          else
            let* channel := py_getitem (_connected_node_channels self) i in
            if channel_pb2.Role_eqb (channel_pb2.role channel) channel_pb2.DISABLED
            then Return None
            else if match name with
                    | Some nm => negb (String.eqb (channel_pb2.name (channel_pb2.settings channel)) nm)
                    | None => false
                    end
            then Return None
            else Return (Some {| index := index;
                                 name := channel_pb2.name (channel_pb2.settings channel) |})
      end
  | None, Some nm =>
      match _connected_node_info self with
      | None => Return None
      | Some _ =>
          match _connected_node_channels self with
          | None => Raise TypeError
          | Some channels =>
              match first_enabled_named nm channels with
              | None => Return None
              | Some channel =>
                  Return (Some {| index := index;
                                  name := channel_pb2.name (channel_pb2.settings channel) |})
              end
          end
      end
  end.

(** ** Admin channel selection *)

(** [str.lower] on the characters that matter for a comparison with an
    ASCII word: the ASCII capitals. *)
Definition ascii_lower (c : ascii) : ascii :=
  let n := nat_of_ascii c in
  if ((65 <=? n) && (n <=? 90))%nat then ascii_of_nat (n + 32) else c.

Fixpoint lower (s : string) : string :=
  match s with
  | EmptyString => EmptyString
  | String c s' => String (ascii_lower c) (lower s')
  end.

(** [self._node_database.get(node, {}).get("hasPKC", False)] as a truth
    value. *)
Definition has_pkc (node_database : gmap Z (gmap string pyvalue)) (node : Z) : bool :=
  truthy (dict_get (default ∅ (node_database !! node)) "hasPKC" (PyBool false)).

(** The [for c in ...: if ...: return c.index] loop of
    [_get_admin_channel_index]; a protobuf sub-message is always truthy. *)
Fixpoint first_admin_index (channels : list channel_pb2.Channel) : option Z :=
  match channels with
  | [] => None
  | c :: channels' =>
      if String.eqb (lower (channel_pb2.name (channel_pb2.settings c))) "admin"
      then Some (channel_pb2.index c)
      else first_admin_index channels'
  end.

(** [MeshInterface._get_admin_channel_index] *)
Definition _get_admin_channel_index (self : MeshInterface) (node : Z) : outcome Z :=
  match _connected_node_info self with
  | None => Raise AttributeError
  | Some info =>
      if node =? mesh_pb2.my_node_num info then Return 0
      else if has_pkc (_node_database self) (mesh_pb2.my_node_num info)
              && has_pkc (_node_database self) node
      then Return PKC_CHANNEL_INDEX
      else
        match first_admin_index (default [] (_connected_node_channels self)) with
        | Some i => Return i
        | None => Return 0
        end
  end.

(** ** Sending a text message *)

(** [str(n)] for an integer. *)
Definition decimal (n : Z) : string := NilZero.string_of_int (Z.to_int n).

Inductive PortNum : Type := TEXT_MESSAGE_APP | ADMIN_APP | TELEMETRY_APP.
Inductive Priority : Type := DEFAULT | RELIABLE.

(** The arguments of one call of [connection.send_mesh_packet]. *)
Record send_mesh_packet_call : Type := {
  call_channel_index : option Z;
  call_to_node : Z;
  call_message : string;
  call_port_num : PortNum;
  call_priority : Priority;
  call_want_response : bool;
  call_ack : bool;
  call_from_node : option Z
}.

(** The [destination] argument, by the [isinstance] tests made on it. *)
Inductive destination : Type :=
| DestMeshNode (n : MeshNode)
| DestMeshChannel (c : MeshChannel)
| DestStr (s : string)
| DestInt (i : Z)
| DestOther.

(** The first half of [send_text_message]: the node addressed and the
    channel index in force after the dispatch on [destination].
    [int_base16] stands for the builtin [int(s, 16)]. *)
Definition resolve_destination (int_base16 : string -> outcome Z)
    (dest : destination) (channel_index : option Z) : outcome (Z * option Z) :=
  match dest with
  | DestMeshNode n => Return (id n, None)
  | DestMeshChannel c => Return (BROADCAST_NUM, index c)
  | DestStr s =>
      if String.eqb s BROADCAST_ADDR then Return (BROADCAST_NUM, channel_index)
      else
        match s with
        | String "!" rest =>
            let* to_node := int_base16 rest in
            Return (to_node, channel_index)
        | _ => Raise (ValueError "Not a valid user id")
        end
  | DestInt i => Return (i, channel_index)
  | DestOther => Return (BROADCAST_NUM, channel_index)
  end.

(** [MeshInterface.send_text_message].  The coroutine ends by awaiting
    [connection.send_mesh_packet]; [Return call] is that submission, and an
    exception raised before it means that nothing was submitted.  The text
    is taken in its UTF-8 encoding. *)
Definition send_text_message (int_base16 : string -> outcome Z) (self : MeshInterface)
    (text : string) (dest : destination) (want_ack : bool) (channel_index : option Z)
  : outcome send_mesh_packet_call :=
  let* target := resolve_destination int_base16 dest channel_index in
  let to_node := fst target in
  let channel_index := snd target in
  let* _checked :=
    match channel_index with
    | Some i =>
        let* n := py_len (_connected_node_channels self) in
        if n <? i then Raise (ValueError "Unavailable channel index")
        else
          let* channel := py_getitem (_connected_node_channels self) i in
          if channel_pb2.Role_eqb (channel_pb2.role channel) channel_pb2.DISABLED
          then Raise (ValueError
                        ("Channel " ++ channel_pb2.name (channel_pb2.settings channel)
                         ++ " (" ++ decimal (channel_pb2.id (channel_pb2.settings channel))
                         ++ ") is disabled"))
          else Return tt
    | None => Return tt
    end in
  Return {| call_channel_index := channel_index;
            call_to_node := to_node;
            call_message := text;
            call_port_num := TEXT_MESSAGE_APP;
            call_priority := if want_ack then RELIABLE else DEFAULT;
            call_want_response := false;
            call_ack := want_ack;
            call_from_node := None |}.

(** ** Merging configuration frames *)

(** [target.<field>.CopyFrom(v)]: the sub-message is replaced by a copy of
    [v], the other sub-messages of [target] stay. *)
Definition CopyFrom_device (v : Message) (target : localonly_pb2.LocalConfig) : localonly_pb2.LocalConfig :=
  {| localonly_pb2.device := v; localonly_pb2.position := localonly_pb2.position target;
     localonly_pb2.power := localonly_pb2.power target;
     localonly_pb2.network := localonly_pb2.network target;
     localonly_pb2.display := localonly_pb2.display target;
     localonly_pb2.lora := localonly_pb2.lora target;
     localonly_pb2.bluetooth := localonly_pb2.bluetooth target;
     localonly_pb2.security := localonly_pb2.security target |}.

Definition CopyFrom_position (v : Message) (target : localonly_pb2.LocalConfig) : localonly_pb2.LocalConfig :=
  {| localonly_pb2.device := localonly_pb2.device target; localonly_pb2.position := v;
     localonly_pb2.power := localonly_pb2.power target;
     localonly_pb2.network := localonly_pb2.network target;
     localonly_pb2.display := localonly_pb2.display target;
     localonly_pb2.lora := localonly_pb2.lora target;
     localonly_pb2.bluetooth := localonly_pb2.bluetooth target;
     localonly_pb2.security := localonly_pb2.security target |}.

Definition CopyFrom_power (v : Message) (target : localonly_pb2.LocalConfig) : localonly_pb2.LocalConfig :=
  {| localonly_pb2.device := localonly_pb2.device target;
     localonly_pb2.position := localonly_pb2.position target; localonly_pb2.power := v;
     localonly_pb2.network := localonly_pb2.network target;
     localonly_pb2.display := localonly_pb2.display target;
     localonly_pb2.lora := localonly_pb2.lora target;
     localonly_pb2.bluetooth := localonly_pb2.bluetooth target;
     localonly_pb2.security := localonly_pb2.security target |}.

Definition CopyFrom_network (v : Message) (target : localonly_pb2.LocalConfig) : localonly_pb2.LocalConfig :=
  {| localonly_pb2.device := localonly_pb2.device target;
     localonly_pb2.position := localonly_pb2.position target;
     localonly_pb2.power := localonly_pb2.power target; localonly_pb2.network := v;
     localonly_pb2.display := localonly_pb2.display target;
     localonly_pb2.lora := localonly_pb2.lora target;
     localonly_pb2.bluetooth := localonly_pb2.bluetooth target;
     localonly_pb2.security := localonly_pb2.security target |}.

Definition CopyFrom_display (v : Message) (target : localonly_pb2.LocalConfig) : localonly_pb2.LocalConfig :=
  {| localonly_pb2.device := localonly_pb2.device target;
     localonly_pb2.position := localonly_pb2.position target;
     localonly_pb2.power := localonly_pb2.power target;
     localonly_pb2.network := localonly_pb2.network target; localonly_pb2.display := v;
     localonly_pb2.lora := localonly_pb2.lora target;
     localonly_pb2.bluetooth := localonly_pb2.bluetooth target;
     localonly_pb2.security := localonly_pb2.security target |}.

Definition CopyFrom_lora (v : Message) (target : localonly_pb2.LocalConfig) : localonly_pb2.LocalConfig :=
  {| localonly_pb2.device := localonly_pb2.device target;
     localonly_pb2.position := localonly_pb2.position target;
     localonly_pb2.power := localonly_pb2.power target;
     localonly_pb2.network := localonly_pb2.network target;
     localonly_pb2.display := localonly_pb2.display target; localonly_pb2.lora := v;
     localonly_pb2.bluetooth := localonly_pb2.bluetooth target;
     localonly_pb2.security := localonly_pb2.security target |}.

Definition CopyFrom_bluetooth (v : Message) (target : localonly_pb2.LocalConfig) : localonly_pb2.LocalConfig :=
  {| localonly_pb2.device := localonly_pb2.device target;
     localonly_pb2.position := localonly_pb2.position target;
     localonly_pb2.power := localonly_pb2.power target;
     localonly_pb2.network := localonly_pb2.network target;
     localonly_pb2.display := localonly_pb2.display target;
     localonly_pb2.lora := localonly_pb2.lora target; localonly_pb2.bluetooth := v;
     localonly_pb2.security := localonly_pb2.security target |}.

Definition CopyFrom_security (v : Message) (target : localonly_pb2.LocalConfig) : localonly_pb2.LocalConfig :=
  {| localonly_pb2.device := localonly_pb2.device target;
     localonly_pb2.position := localonly_pb2.position target;
     localonly_pb2.power := localonly_pb2.power target;
     localonly_pb2.network := localonly_pb2.network target;
     localonly_pb2.display := localonly_pb2.display target;
     localonly_pb2.lora := localonly_pb2.lora target;
     localonly_pb2.bluetooth := localonly_pb2.bluetooth target; localonly_pb2.security := v |}.

Definition CopyFrom_module_mqtt (v : Message) (target : localonly_pb2.LocalModuleConfig) : localonly_pb2.LocalModuleConfig :=
  {| localonly_pb2.mqtt := v; localonly_pb2.serial := localonly_pb2.serial target;
     localonly_pb2.external_notification := localonly_pb2.external_notification target;
     localonly_pb2.store_forward := localonly_pb2.store_forward target;
     localonly_pb2.range_test := localonly_pb2.range_test target;
     localonly_pb2.telemetry := localonly_pb2.telemetry target;
     localonly_pb2.canned_message := localonly_pb2.canned_message target;
     localonly_pb2.audio := localonly_pb2.audio target;
     localonly_pb2.remote_hardware := localonly_pb2.remote_hardware target;
     localonly_pb2.neighbor_info := localonly_pb2.neighbor_info target;
     localonly_pb2.detection_sensor := localonly_pb2.detection_sensor target;
     localonly_pb2.ambient_lighting := localonly_pb2.ambient_lighting target;
     localonly_pb2.paxcounter := localonly_pb2.paxcounter target |}.

Definition CopyFrom_module_serial (v : Message) (target : localonly_pb2.LocalModuleConfig) : localonly_pb2.LocalModuleConfig :=
  {| localonly_pb2.mqtt := localonly_pb2.mqtt target; localonly_pb2.serial := v;
     localonly_pb2.external_notification := localonly_pb2.external_notification target;
     localonly_pb2.store_forward := localonly_pb2.store_forward target;
     localonly_pb2.range_test := localonly_pb2.range_test target;
     localonly_pb2.telemetry := localonly_pb2.telemetry target;
     localonly_pb2.canned_message := localonly_pb2.canned_message target;
     localonly_pb2.audio := localonly_pb2.audio target;
     localonly_pb2.remote_hardware := localonly_pb2.remote_hardware target;
     localonly_pb2.neighbor_info := localonly_pb2.neighbor_info target;
     localonly_pb2.detection_sensor := localonly_pb2.detection_sensor target;
     localonly_pb2.ambient_lighting := localonly_pb2.ambient_lighting target;
     localonly_pb2.paxcounter := localonly_pb2.paxcounter target |}.

Definition CopyFrom_module_external_notification (v : Message) (target : localonly_pb2.LocalModuleConfig) : localonly_pb2.LocalModuleConfig :=
  {| localonly_pb2.mqtt := localonly_pb2.mqtt target;
     localonly_pb2.serial := localonly_pb2.serial target;
     localonly_pb2.external_notification := v;
     localonly_pb2.store_forward := localonly_pb2.store_forward target;
     localonly_pb2.range_test := localonly_pb2.range_test target;
     localonly_pb2.telemetry := localonly_pb2.telemetry target;
     localonly_pb2.canned_message := localonly_pb2.canned_message target;
     localonly_pb2.audio := localonly_pb2.audio target;
     localonly_pb2.remote_hardware := localonly_pb2.remote_hardware target;
     localonly_pb2.neighbor_info := localonly_pb2.neighbor_info target;
     localonly_pb2.detection_sensor := localonly_pb2.detection_sensor target;
     localonly_pb2.ambient_lighting := localonly_pb2.ambient_lighting target;
     localonly_pb2.paxcounter := localonly_pb2.paxcounter target |}.

Definition CopyFrom_module_store_forward (v : Message) (target : localonly_pb2.LocalModuleConfig) : localonly_pb2.LocalModuleConfig :=
  {| localonly_pb2.mqtt := localonly_pb2.mqtt target;
     localonly_pb2.serial := localonly_pb2.serial target;
     localonly_pb2.external_notification := localonly_pb2.external_notification target;
     localonly_pb2.store_forward := v;
     localonly_pb2.range_test := localonly_pb2.range_test target;
     localonly_pb2.telemetry := localonly_pb2.telemetry target;
     localonly_pb2.canned_message := localonly_pb2.canned_message target;
     localonly_pb2.audio := localonly_pb2.audio target;
     localonly_pb2.remote_hardware := localonly_pb2.remote_hardware target;
     localonly_pb2.neighbor_info := localonly_pb2.neighbor_info target;
     localonly_pb2.detection_sensor := localonly_pb2.detection_sensor target;
     localonly_pb2.ambient_lighting := localonly_pb2.ambient_lighting target;
     localonly_pb2.paxcounter := localonly_pb2.paxcounter target |}.

Definition CopyFrom_module_range_test (v : Message) (target : localonly_pb2.LocalModuleConfig) : localonly_pb2.LocalModuleConfig :=
  {| localonly_pb2.mqtt := localonly_pb2.mqtt target;
     localonly_pb2.serial := localonly_pb2.serial target;
     localonly_pb2.external_notification := localonly_pb2.external_notification target;
     localonly_pb2.store_forward := localonly_pb2.store_forward target;
     localonly_pb2.range_test := v; localonly_pb2.telemetry := localonly_pb2.telemetry target;
     localonly_pb2.canned_message := localonly_pb2.canned_message target;
     localonly_pb2.audio := localonly_pb2.audio target;
     localonly_pb2.remote_hardware := localonly_pb2.remote_hardware target;
     localonly_pb2.neighbor_info := localonly_pb2.neighbor_info target;
     localonly_pb2.detection_sensor := localonly_pb2.detection_sensor target;
     localonly_pb2.ambient_lighting := localonly_pb2.ambient_lighting target;
     localonly_pb2.paxcounter := localonly_pb2.paxcounter target |}.

Definition CopyFrom_module_telemetry (v : Message) (target : localonly_pb2.LocalModuleConfig) : localonly_pb2.LocalModuleConfig :=
  {| localonly_pb2.mqtt := localonly_pb2.mqtt target;
     localonly_pb2.serial := localonly_pb2.serial target;
     localonly_pb2.external_notification := localonly_pb2.external_notification target;
     localonly_pb2.store_forward := localonly_pb2.store_forward target;
     localonly_pb2.range_test := localonly_pb2.range_test target; localonly_pb2.telemetry := v;
     localonly_pb2.canned_message := localonly_pb2.canned_message target;
     localonly_pb2.audio := localonly_pb2.audio target;
     localonly_pb2.remote_hardware := localonly_pb2.remote_hardware target;
     localonly_pb2.neighbor_info := localonly_pb2.neighbor_info target;
     localonly_pb2.detection_sensor := localonly_pb2.detection_sensor target;
     localonly_pb2.ambient_lighting := localonly_pb2.ambient_lighting target;
     localonly_pb2.paxcounter := localonly_pb2.paxcounter target |}.

Definition CopyFrom_module_canned_message (v : Message) (target : localonly_pb2.LocalModuleConfig) : localonly_pb2.LocalModuleConfig :=
  {| localonly_pb2.mqtt := localonly_pb2.mqtt target;
     localonly_pb2.serial := localonly_pb2.serial target;
     localonly_pb2.external_notification := localonly_pb2.external_notification target;
     localonly_pb2.store_forward := localonly_pb2.store_forward target;
     localonly_pb2.range_test := localonly_pb2.range_test target;
     localonly_pb2.telemetry := localonly_pb2.telemetry target;
     localonly_pb2.canned_message := v; localonly_pb2.audio := localonly_pb2.audio target;
     localonly_pb2.remote_hardware := localonly_pb2.remote_hardware target;
     localonly_pb2.neighbor_info := localonly_pb2.neighbor_info target;
     localonly_pb2.detection_sensor := localonly_pb2.detection_sensor target;
     localonly_pb2.ambient_lighting := localonly_pb2.ambient_lighting target;
     localonly_pb2.paxcounter := localonly_pb2.paxcounter target |}.

Definition CopyFrom_module_audio (v : Message) (target : localonly_pb2.LocalModuleConfig) : localonly_pb2.LocalModuleConfig :=
  {| localonly_pb2.mqtt := localonly_pb2.mqtt target;
     localonly_pb2.serial := localonly_pb2.serial target;
     localonly_pb2.external_notification := localonly_pb2.external_notification target;
     localonly_pb2.store_forward := localonly_pb2.store_forward target;
     localonly_pb2.range_test := localonly_pb2.range_test target;
     localonly_pb2.telemetry := localonly_pb2.telemetry target;
     localonly_pb2.canned_message := localonly_pb2.canned_message target;
     localonly_pb2.audio := v;
     localonly_pb2.remote_hardware := localonly_pb2.remote_hardware target;
     localonly_pb2.neighbor_info := localonly_pb2.neighbor_info target;
     localonly_pb2.detection_sensor := localonly_pb2.detection_sensor target;
     localonly_pb2.ambient_lighting := localonly_pb2.ambient_lighting target;
     localonly_pb2.paxcounter := localonly_pb2.paxcounter target |}.

Definition CopyFrom_module_remote_hardware (v : Message) (target : localonly_pb2.LocalModuleConfig) : localonly_pb2.LocalModuleConfig :=
  {| localonly_pb2.mqtt := localonly_pb2.mqtt target;
     localonly_pb2.serial := localonly_pb2.serial target;
     localonly_pb2.external_notification := localonly_pb2.external_notification target;
     localonly_pb2.store_forward := localonly_pb2.store_forward target;
     localonly_pb2.range_test := localonly_pb2.range_test target;
     localonly_pb2.telemetry := localonly_pb2.telemetry target;
     localonly_pb2.canned_message := localonly_pb2.canned_message target;
     localonly_pb2.audio := localonly_pb2.audio target; localonly_pb2.remote_hardware := v;
     localonly_pb2.neighbor_info := localonly_pb2.neighbor_info target;
     localonly_pb2.detection_sensor := localonly_pb2.detection_sensor target;
     localonly_pb2.ambient_lighting := localonly_pb2.ambient_lighting target;
     localonly_pb2.paxcounter := localonly_pb2.paxcounter target |}.

Definition CopyFrom_module_neighbor_info (v : Message) (target : localonly_pb2.LocalModuleConfig) : localonly_pb2.LocalModuleConfig :=
  {| localonly_pb2.mqtt := localonly_pb2.mqtt target;
     localonly_pb2.serial := localonly_pb2.serial target;
     localonly_pb2.external_notification := localonly_pb2.external_notification target;
     localonly_pb2.store_forward := localonly_pb2.store_forward target;
     localonly_pb2.range_test := localonly_pb2.range_test target;
     localonly_pb2.telemetry := localonly_pb2.telemetry target;
     localonly_pb2.canned_message := localonly_pb2.canned_message target;
     localonly_pb2.audio := localonly_pb2.audio target;
     localonly_pb2.remote_hardware := localonly_pb2.remote_hardware target;
     localonly_pb2.neighbor_info := v;
     localonly_pb2.detection_sensor := localonly_pb2.detection_sensor target;
     localonly_pb2.ambient_lighting := localonly_pb2.ambient_lighting target;
     localonly_pb2.paxcounter := localonly_pb2.paxcounter target |}.

Definition CopyFrom_module_detection_sensor (v : Message) (target : localonly_pb2.LocalModuleConfig) : localonly_pb2.LocalModuleConfig :=
  {| localonly_pb2.mqtt := localonly_pb2.mqtt target;
     localonly_pb2.serial := localonly_pb2.serial target;
     localonly_pb2.external_notification := localonly_pb2.external_notification target;
     localonly_pb2.store_forward := localonly_pb2.store_forward target;
     localonly_pb2.range_test := localonly_pb2.range_test target;
     localonly_pb2.telemetry := localonly_pb2.telemetry target;
     localonly_pb2.canned_message := localonly_pb2.canned_message target;
     localonly_pb2.audio := localonly_pb2.audio target;
     localonly_pb2.remote_hardware := localonly_pb2.remote_hardware target;
     localonly_pb2.neighbor_info := localonly_pb2.neighbor_info target;
     localonly_pb2.detection_sensor := v;
     localonly_pb2.ambient_lighting := localonly_pb2.ambient_lighting target;
     localonly_pb2.paxcounter := localonly_pb2.paxcounter target |}.

Definition CopyFrom_module_ambient_lighting (v : Message) (target : localonly_pb2.LocalModuleConfig) : localonly_pb2.LocalModuleConfig :=
  {| localonly_pb2.mqtt := localonly_pb2.mqtt target;
     localonly_pb2.serial := localonly_pb2.serial target;
     localonly_pb2.external_notification := localonly_pb2.external_notification target;
     localonly_pb2.store_forward := localonly_pb2.store_forward target;
     localonly_pb2.range_test := localonly_pb2.range_test target;
     localonly_pb2.telemetry := localonly_pb2.telemetry target;
     localonly_pb2.canned_message := localonly_pb2.canned_message target;
     localonly_pb2.audio := localonly_pb2.audio target;
     localonly_pb2.remote_hardware := localonly_pb2.remote_hardware target;
     localonly_pb2.neighbor_info := localonly_pb2.neighbor_info target;
     localonly_pb2.detection_sensor := localonly_pb2.detection_sensor target;
     localonly_pb2.ambient_lighting := v;
     localonly_pb2.paxcounter := localonly_pb2.paxcounter target |}.

Definition CopyFrom_module_paxcounter (v : Message) (target : localonly_pb2.LocalModuleConfig) : localonly_pb2.LocalModuleConfig :=
  {| localonly_pb2.mqtt := localonly_pb2.mqtt target;
     localonly_pb2.serial := localonly_pb2.serial target;
     localonly_pb2.external_notification := localonly_pb2.external_notification target;
     localonly_pb2.store_forward := localonly_pb2.store_forward target;
     localonly_pb2.range_test := localonly_pb2.range_test target;
     localonly_pb2.telemetry := localonly_pb2.telemetry target;
     localonly_pb2.canned_message := localonly_pb2.canned_message target;
     localonly_pb2.audio := localonly_pb2.audio target;
     localonly_pb2.remote_hardware := localonly_pb2.remote_hardware target;
     localonly_pb2.neighbor_info := localonly_pb2.neighbor_info target;
     localonly_pb2.detection_sensor := localonly_pb2.detection_sensor target;
     localonly_pb2.ambient_lighting := localonly_pb2.ambient_lighting target;
     localonly_pb2.paxcounter := v |}.

(** [MeshInterface._process_connected_node_config] *)
Definition _process_connected_node_config (self : MeshInterface) (config : config_pb2.Config)
  : MeshInterface :=
  let local := _connected_node_local_config self in
  let local := match config_pb2.device config with
               | Some v => CopyFrom_device v local
               | None => local
               end in
  let local := match config_pb2.position config with
               | Some v => CopyFrom_position v local
               | None => local
               end in
  let local := match config_pb2.power config with
               | Some v => CopyFrom_power v local
               | None => local
               end in
  let local := match config_pb2.network config with
               | Some v => CopyFrom_network v local
               | None => local
               end in
  let local := match config_pb2.display config with
               | Some v => CopyFrom_display v local
               | None => local
               end in
  let local := match config_pb2.lora config with
               | Some v => CopyFrom_lora v local
               | None => local
               end in
  let local := match config_pb2.bluetooth config with
               | Some v => CopyFrom_bluetooth v local
               | None => local
               end in
  let local := match config_pb2.security config with
               | Some v => CopyFrom_security v local
               | None => local
               end in
  set_connected_node_local_config local self.

(** [MeshInterface._process_connected_node_module_config] *)
Definition _process_connected_node_module_config (self : MeshInterface)
    (module_config : module_config_pb2.ModuleConfig) : MeshInterface :=
  let local := _connected_node_module_config self in
  let local := match module_config_pb2.mqtt module_config with
               | Some v => CopyFrom_module_mqtt v local
               | None => local
               end in
  let local := match module_config_pb2.serial module_config with
               | Some v => CopyFrom_module_serial v local
               | None => local
               end in
  let local := match module_config_pb2.external_notification module_config with
               | Some v => CopyFrom_module_external_notification v local
               | None => local
               end in
  let local := match module_config_pb2.store_forward module_config with
               | Some v => CopyFrom_module_store_forward v local
               | None => local
               end in
  let local := match module_config_pb2.range_test module_config with
               | Some v => CopyFrom_module_range_test v local
               | None => local
               end in
  let local := match module_config_pb2.telemetry module_config with
               | Some v => CopyFrom_module_telemetry v local
               | None => local
               end in
  let local := match module_config_pb2.canned_message module_config with
               | Some v => CopyFrom_module_canned_message v local
               | None => local
               end in
  let local := match module_config_pb2.audio module_config with
               | Some v => CopyFrom_module_audio v local
               | None => local
               end in
  let local := match module_config_pb2.remote_hardware module_config with
               | Some v => CopyFrom_module_remote_hardware v local
               | None => local
               end in
  let local := match module_config_pb2.neighbor_info module_config with
               | Some v => CopyFrom_module_neighbor_info v local
               | None => local
               end in
  let local := match module_config_pb2.detection_sensor module_config with
               | Some v => CopyFrom_module_detection_sensor v local
               | None => local
               end in
  let local := match module_config_pb2.ambient_lighting module_config with
               | Some v => CopyFrom_module_ambient_lighting v local
               | None => local
               end in
  let local := match module_config_pb2.paxcounter module_config with
               | Some v => CopyFrom_module_paxcounter v local
               | None => local
               end in
  set_connected_node_module_config local self.

(** [MeshInterface._process_connected_node_packets].  The result is the
    session after the frame and the names of the background tasks the frame
    made the engine schedule. *)
Definition _process_connected_node_packets (self : MeshInterface) (packet : FromRadio)
  : outcome (MeshInterface * list string) :=
  match packet with
  | FR_rebooted true => Return (self, ["reconnect"])
  | FR_rebooted false => Return (self, [])
  | FR_my_info my_info => Return (set_connected_node_info (Some my_info) self, [])
  | FR_metadata metadata => Return (set_connected_node_metadata (Some metadata) self, [])
  | FR_channel channel =>
      match _connected_node_channels self with
      | None => Raise AttributeError
      | Some channels => Return (set_connected_node_channels (Some (channels ++ [channel])%list) self, [])
      end
  | FR_queueStatus queueStatus =>
      Return (set_connected_node_queue_status (Some queueStatus) self, [])
  | FR_log_record => Return (self, [])
  | FR_config config => Return (_process_connected_node_config self config, [])
  | FR_moduleConfig moduleConfig =>
      Return (_process_connected_node_module_config self moduleConfig, [])
  | FR_other => Return (self, [])
  end.

(** The ingestion loop applies [_process_connected_node_packets] to the
    frames in their order of arrival; a frame that makes it raise ends the
    run of the loop body. *)
Fixpoint process_frames (self : MeshInterface) (frames : list FromRadio) : outcome MeshInterface :=
  match frames with
  | [] => Return self
  | packet :: frames' =>
      let* r := _process_connected_node_packets self packet in
      process_frames (fst r) frames'
  end.

(** ** The request/response correlator *)

(** What the connection does with a submitted packet, as the correlator
    sees it: it invokes the acknowledgement callback, or its
    [send_mesh_packet] coroutine ends. *)
Inductive connection_event : Type :=
| AckCallback (error_reason : Z)
| SendReturns (response : Message)
| SendRaises (e : pyexn).

(** [mesh_pb2.Routing.Error.NONE] *)
Definition Routing_Error_NONE : Z := 0.

(** The state of the race when [asyncio.wait(..., timeout,
    return_when=FIRST_COMPLETED)] hands control back. *)
Record wait_result : Type := {
  done_abort_on_error_task : option pyexn;
  done_send_packet_task : option (outcome Message);
  ack_received : bool;
  elapsed : Z
}.

(** The wait against a timeline of connection events, each with the time
    at which it happens, counted from the submission.  Events at or after
    the deadline are not seen.  [on_ack] sets the flag and, for a reason
    other than [NONE], queues the error that completes the abort task. *)
Fixpoint wait_first_completed (timeout : Z) (ack_received : bool)
    (events : list (Z * connection_event)) : wait_result :=
  match events with
  | [] =>
      {| done_abort_on_error_task := None; done_send_packet_task := None;
         ack_received := ack_received; elapsed := timeout |}
  | (t, ev) :: events' =>
      if timeout <=? t then wait_first_completed timeout ack_received events'
      else
        match ev with
        | AckCallback error_reason =>
            if error_reason =? Routing_Error_NONE
            then wait_first_completed timeout true events'
            else {| done_abort_on_error_task := Some (MeshRoutingError error_reason);
                    done_send_packet_task := None;
                    ack_received := true; elapsed := t |}
        | SendReturns response =>
            {| done_abort_on_error_task := None;
               done_send_packet_task := Some (Return response);
               ack_received := ack_received; elapsed := t |}
        | SendRaises e =>
            {| done_abort_on_error_task := None;
               done_send_packet_task := Some (Raise e);
               ack_received := ack_received; elapsed := t |}
        end
  end.

(** The deadline of one exchange: the per-call [timeout] when it is given
    ([None] is [UNDEFINED]), else one of the two session timeouts. *)
Definition actual_timeout (self : MeshInterface) (timeout : option Z) (want_response : bool) : Z :=
  match timeout with
  | Some t => t
  | None => if want_response then _response_timeout self else _ack_timeout self
  end.

(** [MeshInterface._send_message_await_response]: the call submitted, the
    time after which the coroutine ends, and how it ends. *)
Definition _send_message_await_response (self : MeshInterface) (node : Z) (message : string)
    (port_num : PortNum) (channel_index from_node : option Z)
    (want_response : bool) (timeout : option Z)
    (events : list (Z * connection_event))
  : send_mesh_packet_call * Z * outcome Message :=
  let actual_timeout := actual_timeout self timeout want_response in
  let call :=
    {| call_channel_index := channel_index;
       call_to_node := node;
       call_message := message;
       call_port_num := port_num;
       call_priority := RELIABLE;
       call_want_response := want_response;
       call_ack := true;
       call_from_node := from_node |} in
  let w := wait_first_completed actual_timeout false events in
  (call, elapsed w,
   match done_abort_on_error_task w, done_send_packet_task w with
   | Some e, None => Raise e
   | None, Some result => result
   | _, _ =>
       if negb (ack_received w)
       then Raise (MeshInterfaceRequestError "No acknowledgement received within" actual_timeout)
       else Raise (MeshInterfaceRequestError "No response received within" actual_timeout)
   end).

(** ** Coroutines

    A coroutine is run against a script: the list of what its awaits hand
    back, in order, each with the session flags as the other activities
    left them meanwhile.  When the script is used up the coroutine is
    suspended in its next await. *)

Record resume : Type := {
  woke : outcome pyvalue;
  running_now : bool;
  ready_now : bool
}.

(** The operations a coroutine starts, in the order it starts them. *)
Inductive action : Type :=
| AcquireReconnectLock
| ReleaseReconnectLock
| Reconnect (force : bool) (timeout : Z)
| RequestConfig (minimal : bool) (timeout : Z)
| SetReady
| Sleep (seconds : Z)
| RequestConnectionStatus
| SendHeartbeat
| Body (name : string).

Record costate : Type := {
  self_ : MeshInterface;
  script : list resume;
  random_source : nat -> Z;
  draws : nat;
  trace : list action
}.

Inductive status (R : Type) : Type :=
| Returned (r : R)
| Raised (e : pyexn)
| Suspended
| OutOfFuel.
Arguments Returned {R} r.
Arguments Raised {R} e.
Arguments Suspended {R}.
Arguments OutOfFuel {R}.

Definition co (R : Type) : Type := costate -> status R * costate.

Definition co_ret {R : Type} (r : R) : co R := fun st => (Returned r, st).

Definition co_raise {R : Type} (e : pyexn) : co R := fun st => (Raised e, st).

Definition co_bind {A B : Type} (m : co A) (k : A -> co B) : co B :=
  fun st =>
    match m st with
    | (Returned a, st') => k a st'
    | (Raised e, st') => (Raised e, st')
    | (Suspended, st') => (Suspended, st')
    | (OutOfFuel, st') => (OutOfFuel, st')
    end.

Notation "'do' x '<-' m ';' k" := (co_bind m (fun x => k))
  (at level 10, x name, m at level 100, k at level 200).

(** [try: m except ...]: [handler e] is the body of the clause that
    catches [e], [None] when no clause does. *)
Definition co_try {R : Type} (m : co R) (handler : pyexn -> option (co R)) : co R :=
  fun st =>
    match m st with
    | (Raised e, st') =>
        match handler e with
        | Some h => h st'
        | None => (Raised e, st')
        end
    | r => r
    end.

(** [try: m finally: f] for an [f] that does not await. *)
Definition co_finally {R : Type} (m : co R) (f : costate -> costate) : co R :=
  fun st =>
    match m st with
    | (Returned r, st') => (Returned r, f st')
    | (Raised e, st') => (Raised e, f st')
    | r => r
    end.

Definition emit (a : action) (st : costate) : costate :=
  {| self_ := self_ st; script := script st; random_source := random_source st;
     draws := draws st; trace := trace st ++ [a] |}.

(** The state in which a coroutine finds itself when its await of [a] is
    answered by [r]: the flags are those the other activities left. *)
Definition resumed (a : action) (r : resume) (script' : list resume) (st : costate) : costate :=
  {| self_ := set_connected_node_ready (ready_now r)
                (set_is_running (running_now r) (self_ st));
     script := script';
     random_source := random_source st;
     draws := draws st;
     trace := trace st ++ [a] |}.

(** [await] of an operation: the operation is started; its answer is the
    next entry of the script. *)
Definition await (a : action) : co pyvalue :=
  fun st =>
    match script st with
    | [] => (Suspended, emit a st)
    | r :: script' =>
        match woke r with
        | Return v => (Returned v, resumed a r script' st)
        | Raise e => (Raised e, resumed a r script' st)
        end
    end.

Definition get_self : co MeshInterface := fun st => (Returned (self_ st), st).

(** [self._connected_node_ready.set()] *)
Definition set_ready : co unit :=
  fun st =>
    (Returned tt,
     {| self_ := set_connected_node_ready true (self_ st); script := script st;
        random_source := random_source st; draws := draws st;
        trace := trace st ++ [SetReady] |}).

(** [random.randint(a, b)]: an integer of [a..b] obtained from the next raw
    draw of the generator. *)
Definition randint (a b : Z) : co Z :=
  fun st =>
    (Returned (a + random_source st (draws st) mod (b - a + 1)),
     {| self_ := self_ st; script := script st; random_source := random_source st;
        draws := S (draws st); trace := trace st |}).

(** [except Exception] catches everything but a cancellation. *)
Definition is_Exception (e : pyexn) : bool :=
  match e with
  | CancelledError => false
  | _ => true
  end.

(** ** The reconnection loop *)

(** How one pass through the body of a [while] loop ends. *)
Inductive flow : Type :=
| Continue (force_reconnect : bool)
| Break
| ReturnNone.

(** [async with self._reconnect_lock: body] *)
Definition with_reconnect_lock {R : Type} (body : co R) : co R :=
  do _ <- await AcquireReconnectLock;
  co_finally body (emit ReleaseReconnectLock).

(** The [try] block of [_reconnect_while_running]. *)
Definition reconnect_attempt (force_reconnect : bool) : co flow :=
  with_reconnect_lock
    (do self <- get_self;
     do did_reconnect <-
       co_try
         (do r <- await (Reconnect force_reconnect 30); co_ret (Some r))
         (fun e => match e with
                   | TimeoutError => Some (co_ret None)
                   | _ => None
                   end);
     match did_reconnect with
     | None => co_ret (Continue force_reconnect)
     | Some did_reconnect =>
         if truthy did_reconnect then
           co_try
             (do _ <- await (RequestConfig (no_nodes self) 60);
              do self <- get_self;
              do _ <- (if negb (_connected_node_ready self) then set_ready else co_ret tt);
              co_ret ReturnNone)
             (fun e => match e with
                       | TimeoutError => Some (co_ret (Continue true))
                       | _ => None
                       end)
         else co_ret ReturnNone
     end).

(** One pass through the loop body: the [try] block and its two [except]
    clauses. *)
Definition reconnect_iteration (force_reconnect : bool) : co flow :=
  co_try (reconnect_attempt force_reconnect)
    (fun e => match e with
              | CancelledError => Some (co_ret Break)
              | _ =>
                  Some (do reconnect_delay <- randint 5 30;
                        do _ <- await (Sleep reconnect_delay);
                        co_ret (Continue force_reconnect))
              end).

(** [MeshInterface._reconnect_while_running] *)
Fixpoint _reconnect_while_running (fuel : nat) (force : bool) : co unit :=
  match fuel with
  | O => fun st => (OutOfFuel, st)
  | S fuel' =>
      do self <- get_self;
      if negb (_is_running self) then co_ret tt
      else
        do next <- reconnect_iteration force;
        match next with
        | Continue force_reconnect => _reconnect_while_running fuel' force_reconnect
        | Break => co_ret tt
        | ReturnNone => co_ret tt
        end
  end.

(** ** Supervised activities *)

(** The wrapper made by the decorator [process_while_running] around the
    coroutine function [f]. *)
Fixpoint process_while_running (fuel : nat) (f : co unit) : co unit :=
  match fuel with
  | O => fun st => (OutOfFuel, st)
  | S fuel' =>
      do self <- get_self;
      if negb (_is_running self) then co_ret tt
      else
        do next <-
          co_try
            (do _ <- f; co_ret (Continue false))
            (fun e => match e with
                      | CancelledError => None
                      | _ =>
                          Some (co_try
                                  (do _ <- await (Sleep 5); co_ret (Continue false))
                                  (fun e' => match e' with
                                             | CancelledError => Some (co_ret Break)
                                             | _ => None
                                             end))
                      end);
        match next with
        | Continue _ => process_while_running fuel' f
        | Break => co_ret tt
        | ReturnNone => co_ret tt
        end
  end.

(** The body of [MeshInterface._heartbeat_loop].  The status request stands
    for [request_connection_status] as a whole. *)
Fixpoint _heartbeat_loop (fuel : nat) : co unit :=
  match fuel with
  | O => fun st => (OutOfFuel, st)
  | S fuel' =>
      do self <- get_self;
      do _ <- await (Sleep (_heartbeat_interval_s self));
      do _ <-
        co_try
          (do self <- get_self;
           do _ <- (if _connected_node_ready self then await RequestConnectionStatus
                    else await SendHeartbeat);
           co_ret tt)
          (fun e => if is_Exception e then Some (_reconnect_while_running fuel' true)
                    else None);
      _heartbeat_loop fuel'
  end.

(** The heartbeat task of [start]: each pass of each loop awaits at least
    once, so the length of the script bounds the passes. *)
Definition heartbeat_task : co unit :=
  fun st =>
    process_while_running (S (length (script st)))
      (_heartbeat_loop (S (length (script st)))) st.

(** ** Tasks and the session life cycle *)

(** An [asyncio.Task]: its coroutine and the state it was started in, whose
    script holds what the coroutine has been resumed with so far. *)
Record Task : Type := {
  get_name : string;
  coro : co unit;
  started : costate
}.

Definition task_status (t : Task) : status unit := fst (coro t (started t)).

(** What the task has done so far. *)
Definition task_trace (t : Task) : list action := trace (snd (coro t (started t))).

(** [t.done()] *)
Definition task_done (t : Task) : bool :=
  match task_status t with
  | Returned _ | Raised _ => true
  | Suspended | OutOfFuel => false
  end.

(** The task is resumed with [r]. *)
Definition task_resume (r : resume) (t : Task) : Task :=
  {| get_name := get_name t;
     coro := coro t;
     started :=
       {| self_ := self_ (started t);
          script := script (started t) ++ [r];
          random_source := random_source (started t);
          draws := draws (started t);
          trace := trace (started t) |} |}.

(** The calls made on the connection. *)
Inductive connection_call : Type :=
| send_disconnect
| disconnect.

(** The session with the objects it shares with the event loop: the tasks,
    and the stream listeners with their closed flag. *)
Record World : Type := {
  session : MeshInterface;
  tasks : gmap nat Task;
  listeners : gmap nat bool;
  connection_calls : list connection_call
}.

Definition with_session (self : MeshInterface) (w : World) : World :=
  {| session := self; tasks := tasks w; listeners := listeners w;
     connection_calls := connection_calls w |}.

(** [MeshInterface._close_packet_streams] *)
Definition _close_packet_streams (w : World) : World :=
  match _packet_stream_listeners (session w) with
  | [] => w
  | ls =>
      {| session := set_packet_stream_listeners [] (session w);
         tasks := tasks w;
         listeners := fold_left (fun m listener => <[listener := true]> m) ls (listeners w);
         connection_calls := connection_calls w |}
  end.

(** [MeshInterface._cancel_task] applied to the task [t]: a pending task
    has [CancelledError] thrown into its await and finds the flags of the
    session as they are. *)
Definition _cancel_task (self : MeshInterface) (t : Task) : Task :=
  if task_done t then t
  else task_resume {| woke := Raise CancelledError;
                      running_now := _is_running self;
                      ready_now := _connected_node_ready self |} t.

(** The cancelling tasks created for [ts] all run. *)
Definition cancel_all (self : MeshInterface) (ts : list nat) (m : gmap nat Task) : gmap nat Task :=
  fold_left (fun m t => alter (_cancel_task self) t m) ts m.

(** The task [t] of the loop has not ended. *)
Definition task_pending (m : gmap nat Task) (t : nat) : bool :=
  match m !! t with
  | Some task => negb (task_done task)
  | None => false
  end.

(** A cancelling task ends when the task it awaits has ended. *)
Definition all_done (ts : list nat) (m : gmap nat Task) : bool :=
  forallb (fun t => negb (task_pending m t)) ts.

(** The done callback of a background task discards it from the set. *)
Definition discard_done (m : gmap nat Task) (background : gset nat) : gset nat :=
  filter (fun t => task_pending m t = true) background.

(** An await of [asyncio.wait] either comes back or stays blocked on the
    tasks that have not ended. *)
Inductive progress (A : Type) : Type :=
| Completed (a : A)
| Blocked (a : A).
Arguments Completed {A} a.
Arguments Blocked {A} a.

(** [MeshInterface._cancel_processing_tasks] *)
Definition _cancel_processing_tasks (w : World) : progress World :=
  if bool_decide (_processing_tasks (session w) = ∅) then Completed w
  else
    let ts := (elements (_processing_tasks (session w))
               ++ elements (_background_tasks (session w)))%list in
    let tasks' := cancel_all (session w) ts (tasks w) in
    let self' :=
      set_background_tasks (discard_done tasks' (_background_tasks (session w))) (session w) in
    if all_done ts tasks'
    then Completed {| session := set_processing_tasks ∅ self';
                      tasks := tasks'; listeners := listeners w;
                      connection_calls := connection_calls w |}
    else Blocked {| session := self'; tasks := tasks'; listeners := listeners w;
                    connection_calls := connection_calls w |}.

(** [MeshInterface._cancel_background_tasks] *)
Definition _cancel_background_tasks (w : World) : progress World :=
  if bool_decide (_background_tasks (session w) = ∅) then Completed w
  else
    let ts := elements (_background_tasks (session w)) in
    let tasks' := cancel_all (session w) ts (tasks w) in
    let w' :=
      {| session :=
           set_background_tasks (discard_done tasks' (_background_tasks (session w)))
             (session w);
         tasks := tasks'; listeners := listeners w;
         connection_calls := connection_calls w |} in
    if all_done ts tasks' then Completed w' else Blocked w'.

(** How a call of [stop] stands: it has returned or raised, or it is
    blocked in one of its awaits. *)
Inductive stop_result : Type :=
| StopEnded (r : outcome unit) (w : World)
| StopBlocked (w : World).

(** [MeshInterface.stop], called from outside the tracked tasks.  The two
    outcomes are those of [connection.send_disconnect] and
    [connection.disconnect]. *)
Definition stop (send_disconnect_result disconnect_result : outcome unit) (w : World)
  : stop_result :=
  if negb (_is_running (session w)) then StopEnded (Return tt) w
  else
    let w := with_session (set_is_running false (session w)) w in
    let w := with_session (set_connected_node_ready false (session w)) w in
    let w := _close_packet_streams w in
    match _cancel_processing_tasks w with
    | Blocked w => StopBlocked w
    | Completed w =>
        match _cancel_background_tasks w with
        | Blocked w => StopBlocked w
        | Completed w =>
            let w := {| session := session w; tasks := tasks w; listeners := listeners w;
                        connection_calls := connection_calls w ++ [send_disconnect] |} in
            match send_disconnect_result with
            | Raise CancelledError => StopEnded (Raise CancelledError) w
            | _ =>
                StopEnded disconnect_result
                  {| session := session w; tasks := tasks w; listeners := listeners w;
                     connection_calls := connection_calls w ++ [disconnect] |}
            end
        end
    end.

(** An activity that waits in one await until it is resumed, then ends the
    way it was resumed: it honours a cancellation. *)
Definition waiting_task (name : string) : co unit :=
  do _ <- await (Body name); co_ret tt.

(** ** Reference notions used in the statements *)

(** The sub-fields of the local configuration snapshot, and the view of a
    frame and of the snapshot at one sub-field. *)
Inductive config_field : Type :=
| cf_device
| cf_position
| cf_power
| cf_network
| cf_display
| cf_lora
| cf_bluetooth
| cf_security.

Inductive module_field : Type :=
| mf_mqtt
| mf_serial
| mf_external_notification
| mf_store_forward
| mf_range_test
| mf_telemetry
| mf_canned_message
| mf_audio
| mf_remote_hardware
| mf_neighbor_info
| mf_detection_sensor
| mf_ambient_lighting
| mf_paxcounter.

Definition config_sub (f : config_field) (c : config_pb2.Config) : option Message :=
  match f with
  | cf_device => config_pb2.device c
  | cf_position => config_pb2.position c
  | cf_power => config_pb2.power c
  | cf_network => config_pb2.network c
  | cf_display => config_pb2.display c
  | cf_lora => config_pb2.lora c
  | cf_bluetooth => config_pb2.bluetooth c
  | cf_security => config_pb2.security c
  end.

Definition local_sub (f : config_field) (l : localonly_pb2.LocalConfig) : Message :=
  match f with
  | cf_device => localonly_pb2.device l
  | cf_position => localonly_pb2.position l
  | cf_power => localonly_pb2.power l
  | cf_network => localonly_pb2.network l
  | cf_display => localonly_pb2.display l
  | cf_lora => localonly_pb2.lora l
  | cf_bluetooth => localonly_pb2.bluetooth l
  | cf_security => localonly_pb2.security l
  end.

Definition module_sub (f : module_field) (m : module_config_pb2.ModuleConfig) : option Message :=
  match f with
  | mf_mqtt => module_config_pb2.mqtt m
  | mf_serial => module_config_pb2.serial m
  | mf_external_notification => module_config_pb2.external_notification m
  | mf_store_forward => module_config_pb2.store_forward m
  | mf_range_test => module_config_pb2.range_test m
  | mf_telemetry => module_config_pb2.telemetry m
  | mf_canned_message => module_config_pb2.canned_message m
  | mf_audio => module_config_pb2.audio m
  | mf_remote_hardware => module_config_pb2.remote_hardware m
  | mf_neighbor_info => module_config_pb2.neighbor_info m
  | mf_detection_sensor => module_config_pb2.detection_sensor m
  | mf_ambient_lighting => module_config_pb2.ambient_lighting m
  | mf_paxcounter => module_config_pb2.paxcounter m
  end.

Definition local_module_sub (f : module_field) (l : localonly_pb2.LocalModuleConfig) : Message :=
  match f with
  | mf_mqtt => localonly_pb2.mqtt l
  | mf_serial => localonly_pb2.serial l
  | mf_external_notification => localonly_pb2.external_notification l
  | mf_store_forward => localonly_pb2.store_forward l
  | mf_range_test => localonly_pb2.range_test l
  | mf_telemetry => localonly_pb2.telemetry l
  | mf_canned_message => localonly_pb2.canned_message l
  | mf_audio => localonly_pb2.audio l
  | mf_remote_hardware => localonly_pb2.remote_hardware l
  | mf_neighbor_info => localonly_pb2.neighbor_info l
  | mf_detection_sensor => localonly_pb2.detection_sensor l
  | mf_ambient_lighting => localonly_pb2.ambient_lighting l
  | mf_paxcounter => localonly_pb2.paxcounter l
  end.

(** An inbound configuration sub-message of either kind, and its frame. *)
Definition config_message : Type := (config_pb2.Config + module_config_pb2.ModuleConfig)%type.

Definition frame_of (m : config_message) : FromRadio :=
  match m with
  | inl c => FR_config c
  | inr mc => FR_moduleConfig mc
  end.

Definition seen_config (f : config_field) (m : config_message) : option Message :=
  match m with
  | inl c => config_sub f c
  | inr _ => None
  end.

Definition seen_module (f : module_field) (m : config_message) : option Message :=
  match m with
  | inl _ => None
  | inr mc => module_sub f mc
  end.

(** What the ingestion of one configuration message does to the session. *)
Definition merge_message (self : MeshInterface) (m : config_message) : MeshInterface :=
  match m with
  | inl c => _process_connected_node_config self c
  | inr mc => _process_connected_node_module_config self mc
  end.

(** The value seen last for a sub-field in a sequence of messages, [init]
    when no message carried it. *)
Definition last_seen (seen : config_message -> option Message) (msgs : list config_message)
    (init : Message) : Message :=
  fold_left (fun acc m => match seen m with Some v => v | None => acc end) msgs init.

(** Two messages carry no sub-field in common. *)
Definition distinct_sub_fields (a b : config_message) : Prop :=
  (forall f, seen_config f a = None \/ seen_config f b = None) /\
  (forall f, seen_module f a = None \/ seen_module f b = None).


(** A failure that is neither a timeout nor a cancellation. *)
Definition other_failure (e : pyexn) : Prop := e <> TimeoutError /\ e <> CancelledError.


(** All the tracked activities of [w] end when they are cancelled. *)
Definition cooperative (w : World) : Prop :=
  forall t task,
    t ∈ _processing_tasks (session w) ∪ _background_tasks (session w) ->
    tasks w !! t = Some task ->
    task_done (_cancel_task (session w) task) = true.

(** The numeral with exactly [k] lowercase hexadecimal digits, most
    significant first: what "formatted as [k] hex digits" means. *)
Fixpoint hex_fixed (k : nat) (n : Z) : string :=
  match k with
  | O => ""
  | S k' => hex_fixed k' (n / 16) ++ String (hex_digit (n mod 16)) ""
  end.

(** ** Sample data *)

Definition sample_primary : channel_pb2.Channel :=
  {| channel_pb2.index := 0;
     channel_pb2.settings := {| channel_pb2.name := "LongFast"; channel_pb2.id := 1 |};
     channel_pb2.role := channel_pb2.PRIMARY |}.

Definition sample_disabled : channel_pb2.Channel :=
  {| channel_pb2.index := 1;
     channel_pb2.settings := {| channel_pb2.name := ""; channel_pb2.id := 0 |};
     channel_pb2.role := channel_pb2.DISABLED |}.

Definition sample_admin : channel_pb2.Channel :=
  {| channel_pb2.index := 2;
     channel_pb2.settings := {| channel_pb2.name := "Admin"; channel_pb2.id := 7 |};
     channel_pb2.role := channel_pb2.SECONDARY |}.

(** A session whose handshake has delivered the identity of the local
    device (node 0x0a0b0c0d) and three channels. *)
Definition sample_session : MeshInterface :=
  set_connected_node_channels (Some [sample_primary; sample_disabled; sample_admin])
    (set_connected_node_info (Some {| mesh_pb2.my_node_num := 0x0a0b0c0d |})
       (MeshInterface_init false None None None)).

(** A parser for [int(s, 16)] that knows no numeral. *)
Definition no_numeral (s : string) : outcome Z :=
  Raise (ValueError "invalid literal for int() with base 16").

(** The world a started session is in when its heartbeat has failed and the
    heartbeat task is reconnecting: the task has slept its interval, its
    status request has raised, it holds the reconnect lock and awaits
    [connection.reconnect].  The ingestion task waits for a frame, one
    listener is registered, one application callback runs in the
    background. *)
Definition reconnecting_session : MeshInterface :=
  set_background_tasks {[ 2%nat ]}
    (set_processing_tasks {[ 0%nat; 1%nat ]}
       (set_packet_stream_listeners [0%nat]
          (set_connected_node_ready true (set_is_running true sample_session)))).

Definition fresh_costate (self : MeshInterface) (script : list resume) : costate :=
  {| self_ := self; script := script; random_source := fun _ => 0; draws := 0; trace := [] |}.

Definition while_up (answer : outcome pyvalue) : resume :=
  {| woke := answer; running_now := true; ready_now := true |}.

Definition reconnecting_world : World :=
  {| session := reconnecting_session;
     tasks :=
       <[ 0%nat := {| get_name := "heartbeat"; coro := heartbeat_task;
                      started := fresh_costate reconnecting_session
                                   [ while_up (Return PyNone);
                                     while_up (Raise (OtherException "ClientApiNotConnectedError"));
                                     while_up (Return PyNone) ] |} ]>
       (<[ 1%nat := {| get_name := "process_from_radio_packets";
                       coro := waiting_task "process_from_radio_packets";
                       started := fresh_costate reconnecting_session [] |} ]>
       (<[ 2%nat := {| get_name := "app-listener-1";
                       coro := waiting_task "app-listener-1";
                       started := fresh_costate reconnecting_session [] |} ]> ∅));
     listeners := {[ 0%nat := false ]};
     connection_calls := [] |}.

(** The same session with the heartbeat task asleep between two beats. *)
Definition idle_world : World :=
  {| session := reconnecting_session;
     tasks :=
       <[ 0%nat := {| get_name := "heartbeat"; coro := heartbeat_task;
                      started := fresh_costate reconnecting_session [] |} ]>
       (tasks reconnecting_world);
     listeners := {[ 0%nat := false ]};
     connection_calls := [] |}.

(** What an await hands back once [stop] has cleared the flags. *)
Definition after_stop (answer : outcome pyvalue) : resume :=
  {| woke := answer; running_now := false; ready_now := false |}.

(** The script of the heartbeat task of [reconnecting_world] once [stop]
    has thrown the cancellation into it, followed by further beats: each
    interval sleep elapses and each [send_heartbeat] is answered by one of
    [beats]. *)
Definition script_after_stop (beats : list (outcome pyvalue)) : list resume :=
  ([ while_up (Return PyNone);
     while_up (Raise (OtherException "ClientApiNotConnectedError"));
     while_up (Return PyNone);
     after_stop (Raise CancelledError) ]
   ++ flat_map (fun answer => [after_stop (Return PyNone); after_stop answer]) beats)%list.

(** ** Node look-up *)

(** [d[key]] on a dictionary. *)
Definition dict_item (d : gmap string pyvalue) (key : string) : outcome pyvalue :=
  match d !! key with
  | Some v => Return v
  | None => Raise (OtherException "KeyError")
  end.

(** [v[key]] for a string key: only a dictionary can be subscripted so. *)
Definition py_subscript (v : pyvalue) (key : string) : outcome pyvalue :=
  match v with
  | PyDict d => dict_item d key
  | _ => Raise TypeError
  end.

(** [v == s] for a string [s]. *)
Definition py_eq_str (v : pyvalue) (s : string) : bool :=
  match v with
  | PyStr s' => String.eqb s' s
  | _ => false
  end.

(** [wanted is not None and node_info["user"][field] == wanted] *)
Definition user_field_is (node_info : gmap string pyvalue) (field : string)
    (wanted : option string) : outcome bool :=
  match wanted with
  | None => Return false
  | Some s =>
      let* user := dict_item node_info "user" in
      let* v := py_subscript user field in
      Return (py_eq_str v s)
  end.

(** The local function [matches] of [find_node]. *)
Definition matches (user_id short_name long_name : option string)
    (node_info : gmap string pyvalue) : outcome bool :=
  let* by_id := user_field_is node_info "id" user_id in
  if by_id then Return true
  else
    let* by_short := user_field_is node_info "shortName" short_name in
    if by_short then Return true
    else user_field_is node_info "longName" long_name.

(** [next((node_info for node_info in values if matches(node_info)),
    None)] *)
Fixpoint first_matching (user_id short_name long_name : option string)
    (values : list (gmap string pyvalue)) : outcome (option (gmap string pyvalue)) :=
  match values with
  | [] => Return None
  | node_info :: values' =>
      let* found := matches user_id short_name long_name node_info in
      if found then Return (Some node_info)
      else first_matching user_id short_name long_name values'
  end.

(** The fields of a [MeshNode] as [find_node] fills them: whatever the
    database entry holds. *)
Record MeshNode_fields : Type := {
  field_id : pyvalue;
  field_user_id : pyvalue;
  field_short_name : pyvalue;
  field_long_name : pyvalue
}.

Definition fields_of (n : MeshNode) : MeshNode_fields :=
  {| field_id := PyInt (id n); field_user_id := PyStr (user_id n);
     field_short_name := PyStr (short_name n); field_long_name := PyStr (long_name n) |}.

(** [self._node_database.values()]: a dictionary iterates in the order of
    insertion of its keys, which the finite map does not record and which
    is given here. *)
Definition values_in_order (node_database : gmap Z (gmap string pyvalue))
    (insertion_order : list Z) : list (gmap string pyvalue) :=
  omap (fun k => node_database !! k) insertion_order.

(** [MeshInterface.find_node] *)
Definition find_node (self : MeshInterface) (insertion_order : list Z)
    (node_id : option Z) (user_id short_name long_name : option string)
  : outcome (option MeshNode_fields) :=
  match node_id, user_id, short_name, long_name with
  | None, None, None, None =>
      Raise (ValueError "Most provide node_id, user_id, short_name or long_name")
  | _, _, _, _ =>
      let* node_info :=
        match node_id with
        | Some n => Return (_node_database self !! n)
        | None =>
            first_matching user_id short_name long_name
              (values_in_order (_node_database self) insertion_order)
        end in
      match node_info with
      | None => Return None
      | Some node_info =>
          let* num := dict_item node_info "num" in
          let* user := dict_item node_info "user" in
          let* uid := py_subscript user "id" in
          let* user := dict_item node_info "user" in
          let* short := py_subscript user "shortName" in
          let* user := dict_item node_info "user" in
          let* long := py_subscript user "longName" in
          Return (Some {| field_id := num; field_user_id := uid;
                          field_short_name := short; field_long_name := long |})
      end
  end.

(** ** Topology frames *)

(** [v * Decimal("1e-7")] turned into a float: defined on integers and
    booleans; [degrees n] stands for the float nearest to [n] times
    [1e-7]. *)
Definition scaled (degrees : Z -> pyvalue) (v : pyvalue) : outcome pyvalue :=
  match v with
  | PyInt n => Return (degrees n)
  | PyBool b => Return (degrees (if b then 1 else 0))
  | _ => Raise TypeError
  end.

(** [key in s] for two strings: [key] occurs in [s]. *)
Definition occurs_in (key s : string) : bool :=
  match String.index 0 key s with
  | Some _ => true
  | None => false
  end.

(** One [if key_i in position: position[key] = ...] statement of
    [_fixup_position]: the position as the statement leaves it, and whether
    the statement raised. *)
Definition fixup_one (degrees : Z -> pyvalue) (key_i key : string) (position : pyvalue)
  : pyvalue * outcome unit :=
  match position with
  | PyDict d =>
      match d !! key_i with
      | None => (position, Return tt)
      | Some v =>
          match scaled degrees v with
          | Return f => (PyDict (<[key := f]> d), Return tt)
          | Raise e => (position, Raise e)
          end
      end
  | PyStr s => (position, if occurs_in key_i s then Raise TypeError else Return tt)
  | _ => (position, Raise TypeError)
  end.

(** [MeshInterface._fixup_position]: the dictionary is changed in place, so
    what the first statement wrote stays when the second raises. *)
Definition _fixup_position (degrees : Z -> pyvalue) (position : pyvalue)
  : pyvalue * outcome unit :=
  match fixup_one degrees "latitudeI" "latitude" position with
  | (position, Return _) => fixup_one degrees "longitudeI" "longitude" position
  | (position, Raise e) => (position, Raise e)
  end.

(** [MeshInterface._process_node_info] on the node database.  The frame
    carries [node_info] when [Some], with its number and its dictionary
    form.  The entry is a shared dictionary: what [update] and
    [_fixup_position] wrote before an exception stays in the database, and
    the exception is logged and dropped. *)
Definition _process_node_info (degrees : Z -> pyvalue)
    (node_database : gmap Z (gmap string pyvalue))
    (node_info : option (Z * gmap string pyvalue)) : gmap Z (gmap string pyvalue) :=
  match node_info with
  | None => node_database
  | Some (num, node_info_dict) =>
      match _get_or_create_node node_database num with
      | Raise _ => node_database
      | Return (node, node_database) =>
          let node := node_info_dict ∪ node in
          match node !! "position" with
          | None => <[num := node]> node_database
          | Some position =>
              <[num := <["position" := fst (_fixup_position degrees position)]> node]>
                node_database
          end
      end
  end.


(** [self.find_node(node_id) or MeshNode.stub_node(node_id)]: a [MeshNode]
    is always truthy. *)
Definition listener_node (self : MeshInterface) (node_id : Z) : outcome MeshNode_fields :=
  let* found := find_node self [] (Some node_id) None None None in
  match found with
  | Some node => Return node
  | None => Return (fields_of (stub_node node_id))
  end.

(** ** Application listeners *)

(** The table [self._app_listeners]: for each port number the wrappers
    registered for it, each a function object known by its identity.  A
    port that was never touched reads as the empty list. *)
Definition listeners_of (app_listeners : gmap Z (list nat)) (packet_type : Z) : list nat :=
  default [] (app_listeners !! packet_type).

(** [MeshInterface.add_packet_app_listener], [wrapper] being the function
    object the call creates. *)
Definition add_packet_app_listener (app_listeners : gmap Z (list nat)) (packet_type : Z)
    (wrapper : nat) (as_dict as_packet : bool) : outcome (gmap Z (list nat)) :=
  if as_dict && as_packet
  then Raise (ValueError "as_dict and as_packet are mutually exclusive")
  else Return (<[packet_type := (listeners_of app_listeners packet_type ++ [wrapper])%list]>
                 app_listeners).

(** [l.remove(x)]: the first occurrence goes. *)
Fixpoint list_remove (x : nat) (l : list nat) : option (list nat) :=
  match l with
  | [] => None
  | y :: l' =>
      if Nat.eqb y x then Some l'
      else match list_remove x l' with
           | Some r => Some (y :: r)
           | None => None
           end
  end.

(** The function that [add_packet_app_listener] returns, called: the table
    after the call and how the call ended. *)
Definition remove_app_listener (app_listeners : gmap Z (list nat)) (packet_type : Z)
    (wrapper : nat) : gmap Z (list nat) * outcome unit :=
  match list_remove wrapper (listeners_of app_listeners packet_type) with
  | Some l => (<[packet_type := l]> app_listeners, Return tt)
  | None =>
      (<[packet_type := listeners_of app_listeners packet_type]> app_listeners,
       Raise (ValueError "list.remove(x): x not in list"))
  end.

(** ** Admin and telemetry requests *)

(** [MeshInterface.send_admin_message]: the submission made.  [message] is
    the admin message in its wire form. *)
Definition send_admin_message (self : MeshInterface) (node : Z) (message : string) (ack : bool)
  : outcome send_mesh_packet_call :=
  let* channel_index := _get_admin_channel_index self node in
  Return {| call_channel_index := Some channel_index;
            call_to_node := node;
            call_message := message;
            call_port_num := ADMIN_APP;
            call_priority := RELIABLE;
            call_want_response := ack;
            call_ack := ack;
            call_from_node := None |}.

(** [MeshInterface.send_admin_message_await_response] *)
Definition send_admin_message_await_response (self : MeshInterface) (node : option Z)
    (message : string) (timeout : option Z) (expect_response : bool)
    (events : list (Z * connection_event))
  : outcome (send_mesh_packet_call * Z * outcome Message) :=
  let* node :=
    match node with
    | Some n => Return n
    | None =>
        match _connected_node_info self with
        | Some info => Return (mesh_pb2.my_node_num info)
        | None => Raise AttributeError
        end
    end in
  let* channel_index := _get_admin_channel_index self node in
  Return (_send_message_await_response self node message ADMIN_APP (Some channel_index) None
            expect_response timeout events).









(** ** Reference notions for the further properties *)

(** The value of a lowercase hexadecimal digit, from its code point:
    [0..9] are the codes 48..57 and [a..f] the codes 97..102. *)
Definition hex_digit_value (c : ascii) : option Z :=
  let code := Z.of_N (N_of_ascii c) in
  if (48 <=? code) && (code <=? 57) then Some (code - 48)
  else if (97 <=? code) && (code <=? 102) then Some (code - 87)
  else None.

(** The number a string of lowercase hexadecimal digits denotes, read after
    the number [acc] of the digits before it. *)
Fixpoint hex_value_from (acc : Z) (s : string) : option Z :=
  match s with
  | EmptyString => Some acc
  | String c s' =>
      match hex_digit_value c with
      | Some d => hex_value_from (16 * acc + d) s'
      | None => None
      end
  end.

(** A parser that reads the non-empty strings of lowercase hexadecimal
    digits the way [int(s, 16)] does, and refuses the others. *)
Definition int_of_hex_digits (s : string) : outcome Z :=
  match s with
  | EmptyString => Raise (ValueError "invalid literal for int() with base 16")
  | _ =>
      match hex_value_from 0 s with
      | Some v => Return v
      | None => Raise (ValueError "invalid literal for int() with base 16")
      end
  end.





(** * Properties

    ** Worked values *)

Example stub_node_example :
  stub_node 0x12ab34cd =
  {| id := 0x12ab34cd; user_id := "!12ab34cd"; short_name := "34cd";
     long_name := "Meshtastic 34cd" |}.
Proof. reflexivity. Qed.

Example stub_node_small : user_id (stub_node 10) = "!0000000a".
Proof. reflexivity. Qed.

(** ** Strings *)

Lemma append_cons (c : ascii) (s t : string) : String c s ++ t = String c (s ++ t).
Proof. reflexivity. Qed.

Lemma append_nil_r (s : string) : s ++ "" = s.
Proof.
  induction s as [|c s IH]; [reflexivity |].
  now rewrite append_cons, IH.
Qed.

Lemma append_assoc (s1 s2 s3 : string) : (s1 ++ s2) ++ s3 = s1 ++ (s2 ++ s3).
Proof.
  induction s1 as [|c s1 IH]; [reflexivity |].
  now rewrite !append_cons, IH.
Qed.

Lemma length_append (s1 s2 : string) :
  String.length (s1 ++ s2) = (String.length s1 + String.length s2)%nat.
Proof.
  induction s1 as [|c s1 IH]; [reflexivity |].
  rewrite append_cons. cbn [String.length]. now rewrite IH.
Qed.

Lemma zeros_snoc (k : nat) : zeros k ++ "0" = zeros (S k).
Proof.
  induction k as [|k IH]; [reflexivity |].
  cbn [zeros] in *. now rewrite append_cons, IH.
Qed.

Lemma length_zeros (k : nat) : String.length (zeros k) = k.
Proof. induction k as [|k IH]; cbn [zeros String.length]; [reflexivity | now rewrite IH]. Qed.

(** ** Hexadecimal numerals *)

Lemma hex_fixed_0 (k : nat) : hex_fixed k 0 = zeros k.
Proof.
  induction k as [|k IH]; [reflexivity |].
  cbn [hex_fixed]. rewrite Zdiv_0_l, IH. apply zeros_snoc.
Qed.

Lemma hex_fixed_digit (k : nat) (n : Z) :
  0 <= n < 16 -> hex_fixed (S k) n = zeros k ++ String (hex_digit n) "".
Proof.
  intros Hn. cbn [hex_fixed].
  rewrite Z.div_small, Z.mod_small, hex_fixed_0 by lia. reflexivity.
Qed.

Lemma length_hex_fixed (k : nat) (n : Z) : String.length (hex_fixed k n) = k.
Proof.
  revert n. induction k as [|k IH]; intros n; [reflexivity |].
  cbn [hex_fixed]. rewrite length_append, IH. simpl. lia.
Qed.

(** The shortest numeral, padded to [k] characters, is the [k]-digit
    numeral as soon as the number fits in [k] digits. *)
Lemma to_hex_fuel_pad (fuel : nat) :
  forall (k : nat) (n : Z),
    0 <= n < 16 ^ Z.of_nat (S k) -> n < 16 ^ Z.of_nat fuel ->
    (String.length (to_hex_fuel fuel n) <= S k)%nat /\
    zero_pad (S k) (to_hex_fuel fuel n) = hex_fixed (S k) n.
Proof.
  induction fuel as [|fuel IH]; intros k n Hk Hf.
  - assert (n = 0) by (simpl in Hf; lia). subst n.
    cbn [to_hex_fuel]. split; [simpl; lia |].
    unfold zero_pad. rewrite append_nil_r, hex_fixed_0. reflexivity.
  - cbn [to_hex_fuel]. destruct (n <? 16) eqn:Hlt.
    + apply Z.ltb_lt in Hlt. split; [simpl; lia |].
      unfold zero_pad. rewrite hex_fixed_digit by lia.
      simpl String.length. now replace (S k - 1)%nat with k by lia.
    + apply Z.ltb_ge in Hlt.
      destruct k as [|k].
      { change (16 ^ Z.of_nat 1) with 16 in Hk. lia. }
      assert (Hq : 0 <= n / 16 < 16 ^ Z.of_nat (S k)).
      { split; [apply Z.div_pos; lia |].
        apply Z.div_lt_upper_bound; [lia |].
        replace (16 * 16 ^ Z.of_nat (S k)) with (16 ^ Z.of_nat (S (S k))); [lia |].
        rewrite (Nat2Z.inj_succ (S k)), Z.pow_succ_r by lia. reflexivity. }
      assert (Hqf : n / 16 < 16 ^ Z.of_nat fuel).
      { apply Z.div_lt_upper_bound; [lia |].
        replace (16 * 16 ^ Z.of_nat fuel) with (16 ^ Z.of_nat (S fuel)); [lia |].
        rewrite Nat2Z.inj_succ, Z.pow_succ_r by lia. reflexivity. }
      destruct (IH k (n / 16) Hq Hqf) as [Hlen Hpad].
      split.
      * rewrite length_append. simpl. lia.
      * cbn [hex_fixed] in *. rewrite <- Hpad. unfold zero_pad.
        rewrite length_append. simpl String.length.
        replace (S (S k) - (String.length (to_hex_fuel fuel (n / 16)) + 1))%nat
          with (S k - String.length (to_hex_fuel fuel (n / 16)))%nat by lia.
        now rewrite append_assoc.
Qed.

Lemma to_hex_fuel_enough (n : Z) :
  0 <= n -> n < 16 ^ Z.of_nat (S (Z.to_nat (Z.log2 n))).
Proof.
  intros Hn. destruct (Z.eq_dec n 0) as [-> | Hne].
  - reflexivity.
  - pose proof (Z.log2_spec n ltac:(lia)) as [_ Hup].
    pose proof (Z.log2_nonneg n) as Hl.
    rewrite Nat2Z.inj_succ, Z2Nat.id by lia.
    eapply Z.lt_le_trans; [exact Hup |].
    apply Z.pow_le_mono_l. lia.
Qed.

Lemma format_08x_fixed (n : Z) : 0 <= n < 2 ^ 32 -> format_08x n = hex_fixed 8 n.
Proof.
  intros Hn. unfold format_08x.
  destruct (n <? 0) eqn:Hneg; [apply Z.ltb_lt in Hneg; lia |].
  unfold to_hex.
  apply (to_hex_fuel_pad _ 7 n); [| apply to_hex_fuel_enough; lia].
  change (16 ^ Z.of_nat 8) with (2 ^ 32). exact Hn.
Qed.

Lemma last4_id (n : Z) : last4 (String "!" (hex_fixed 8 n)) = hex_fixed 4 n.
Proof. reflexivity. Qed.

Lemma hex_fixed_8_split (n : Z) :
  hex_fixed 8 n = hex_fixed 4 (n / 16 ^ 4) ++ hex_fixed 4 n.
Proof.
  replace (n / 16 ^ 4) with (n / 16 / 16 / 16 / 16).
  - reflexivity.
  - rewrite !Z.div_div by lia. reflexivity.
Qed.

(** ** Stub identities *)

(** C7. A record created as a stub for a node number (an unsigned 32-bit
    number) has the user id ["!"] followed by the number as eight lowercase
    hexadecimal digits, a short name equal to the last four characters of
    that id, which are the four low hexadecimal digits of the number, and the
    long name ["Meshtastic "] followed by those four characters; both
    [MeshNode.stub_node] and the entry that [_get_or_create_node] inserts
    for an unknown number are built this way. *)
Theorem stub_identity_deterministic (node_num : Z) :
  0 <= node_num < 2 ^ 32 ->
  let hex8 := hex_fixed 8 node_num in
  let hex4 := hex_fixed 4 node_num in
  stub_node node_num =
    {| id := node_num; user_id := String "!" hex8; short_name := hex4;
       long_name := "Meshtastic " ++ hex4 |}
  /\ String.length hex8 = 8%nat
  /\ last4 (String "!" hex8) = hex4
  /\ hex8 = hex_fixed 4 (node_num / 16 ^ 4) ++ hex4
  /\ forall node_database : gmap Z (gmap string pyvalue),
       node_num <> BROADCAST_NUM ->
       node_database !! node_num = None ->
       let user : gmap string pyvalue :=
         <["id" := PyStr (String "!" hex8)]>
         (<["longName" := PyStr ("Meshtastic " ++ hex4)]>
         (<["shortName" := PyStr hex4]>
         (<["hwModel" := PyStr "UNSET"]> ∅))) in
       let n : gmap string pyvalue :=
         <["num" := PyInt node_num]> (<["user" := PyDict user]> ∅) in
       _get_or_create_node node_database node_num =
         Return (n, <[node_num := n]> node_database).
Proof.
  intros Hrange hex8 hex4.
  assert (Hfmt : format_08x node_num = hex8) by now apply format_08x_fixed.
  assert (Hlast : last4 (String "!" hex8) = hex4) by apply last4_id.
  split; [| split; [| split; [| split]]].
  - unfold stub_node. rewrite Hfmt, Hlast. reflexivity.
  - apply length_hex_fixed.
  - exact Hlast.
  - apply hex_fixed_8_split.
  - intros node_database Hnb Hnone. unfold _get_or_create_node.
    destruct (node_num =? BROADCAST_NUM) eqn:Hb; [apply Z.eqb_eq in Hb; contradiction |].
    rewrite Hnone, Hfmt, Hlast. reflexivity.
Qed.

Lemma stub_identity_deterministic_witness :
  stub_node 0x12ab34cd =
    {| id := 0x12ab34cd; user_id := "!12ab34cd"; short_name := "34cd";
       long_name := "Meshtastic 34cd" |}.
Proof.
  exact (proj1 (stub_identity_deterministic 0x12ab34cd ltac:(lia))).
Defined.

(** ** Queries of the local device state *)

(** C9. While the ready flag is not set, the five public queries of the
    local device state (connected node, metadata, channel list, local
    configuration, module configuration) all return [None]. *)
Theorem queries_none_unless_ready (self : MeshInterface) :
  _connected_node_ready self = false ->
  connected_node self = Return None
  /\ connected_node_metadata self = None
  /\ connected_node_channels self = None
  /\ connected_node_local_config self = None
  /\ connected_node_module_config self = None.
Proof.
  intros Hready.
  unfold connected_node, connected_node_metadata, connected_node_channels,
    connected_node_local_config, connected_node_module_config.
  rewrite Hready. repeat split.
Qed.

(** A query that yields a value was made with the ready flag set. *)
Lemma queries_some_only_when_ready (self : MeshInterface) :
  (exists n, connected_node self = Return (Some n))
  \/ is_Some (connected_node_metadata self)
  \/ is_Some (connected_node_channels self)
  \/ is_Some (connected_node_local_config self)
  \/ is_Some (connected_node_module_config self) ->
  _connected_node_ready self = true.
Proof.
  destruct (_connected_node_ready self) eqn:Hready; [reflexivity |].
  destruct (queries_none_unless_ready self Hready) as (H1 & H2 & H3 & H4 & H5).
  rewrite H1, H2, H3, H4, H5.
  intros [[n Hn] | [[x Hx] | [[x Hx] | [[x Hx] | [x Hx]]]]]; discriminate.
Qed.

(** During the configuration handshake the snapshot is hidden: the flag is
    cleared before the snapshot is reset and set after the request. *)
Lemma start_config_hides_snapshot (self : MeshInterface) :
  _connected_node_ready (_start_config_reset self) = false
  /\ _connected_node_ready (_start_config_done (_start_config_reset self)) = true.
Proof. split; reflexivity. Qed.

(** ** Channel look-up by index *)

Lemma py_len_some {A : Type} (l : list A) : py_len (Some l) = Return (Z.of_nat (length l)).
Proof. reflexivity. Qed.

Lemma py_getitem_len {A : Type} (l : list A) :
  py_getitem (Some l) (Z.of_nat (length l)) = Raise IndexError.
Proof.
  unfold py_getitem.
  destruct (Z.of_nat (length l) <? 0) eqn:Hneg; [apply Z.ltb_lt in Hneg; lia |].
  rewrite Hneg, Nat2Z.id.
  rewrite (proj2 (lookup_ge_None l (length l))) by lia. reflexivity.
Qed.

Lemma py_getitem_in_range {A : Type} (l : list A) (i : Z) :
  0 <= i < Z.of_nat (length l) ->
  exists a, py_getitem (Some l) i = Return a /\ l !! Z.to_nat i = Some a.
Proof.
  intros Hi. unfold py_getitem.
  destruct (i <? 0) eqn:Hneg; [apply Z.ltb_lt in Hneg; lia |]. rewrite Hneg.
  destruct (l !! Z.to_nat i) as [a|] eqn:Hl; [eauto |].
  apply lookup_ge_None in Hl. lia.
Qed.

(** C10, at the index that equals the length of the channel list: the
    guard [len(channels) < index] lets it through and the subscript raises
    [IndexError]. *)
Theorem find_channel_index_len_raises (self : MeshInterface)
    (info : mesh_pb2.MyNodeInfo) (channels : list channel_pb2.Channel) (name : option string) :
  _connected_node_info self = Some info ->
  _connected_node_channels self = Some channels ->
  find_channel self (Some (Z.of_nat (length channels))) name = Raise IndexError.
Proof.
  intros Hinfo Hch. unfold find_channel. rewrite Hinfo, Hch, py_len_some.
  cbn [bind]. rewrite Z.ltb_irrefl, py_getitem_len. reflexivity.
Qed.

(** Beyond the length the look-up answers [None]. *)
Lemma find_channel_beyond_len (self : MeshInterface)
    (info : mesh_pb2.MyNodeInfo) (channels : list channel_pb2.Channel)
    (i : Z) (name : option string) :
  _connected_node_info self = Some info ->
  _connected_node_channels self = Some channels ->
  Z.of_nat (length channels) < i ->
  find_channel self (Some i) name = Return None.
Proof.
  intros Hinfo Hch Hi. unfold find_channel. rewrite Hinfo, Hch, py_len_some.
  cbn [bind]. now rewrite (proj2 (Z.ltb_lt _ _) Hi).
Qed.

(** Below the length the look-up returns, with a channel or with [None]. *)
Lemma find_channel_in_range (self : MeshInterface)
    (info : mesh_pb2.MyNodeInfo) (channels : list channel_pb2.Channel)
    (i : Z) (name : option string) :
  _connected_node_info self = Some info ->
  _connected_node_channels self = Some channels ->
  0 <= i < Z.of_nat (length channels) ->
  exists r, find_channel self (Some i) name = Return r.
Proof.
  intros Hinfo Hch Hi. unfold find_channel. rewrite Hinfo, Hch, py_len_some.
  cbn [bind]. destruct (Z.of_nat (length channels) <? i) eqn:Hlt; [eauto |].
  destruct (py_getitem_in_range channels i Hi) as (c & -> & _). cbn [bind].
  destruct (channel_pb2.Role_eqb _ _); [eauto |].
  destruct name as [nm|]; [destruct (negb _) |]; eauto.
Qed.

(** ** Admin channel selection *)

Lemma first_admin_index_found (pre post : list channel_pb2.Channel) (c : channel_pb2.Channel) :
  Forall (fun c' => lower (channel_pb2.name (channel_pb2.settings c')) <> "admin") pre ->
  lower (channel_pb2.name (channel_pb2.settings c)) = "admin" ->
  first_admin_index (pre ++ c :: post) = Some (channel_pb2.index c).
Proof.
  intros Hpre Hc. induction Hpre as [|c' pre Hc' _ IH]; cbn [app first_admin_index].
  - now rewrite (proj2 (String.eqb_eq _ _) Hc).
  - now rewrite (proj2 (String.eqb_neq _ _) Hc').
Qed.

Lemma first_admin_index_none (channels : list channel_pb2.Channel) :
  Forall (fun c => lower (channel_pb2.name (channel_pb2.settings c)) <> "admin") channels ->
  first_admin_index channels = None.
Proof.
  induction 1 as [|c channels Hc _ IH]; cbn [first_admin_index]; [reflexivity |].
  now rewrite (proj2 (String.eqb_neq _ _) Hc).
Qed.

Lemma first_admin_index_elem (channels : list channel_pb2.Channel) (i : Z) :
  first_admin_index channels = Some i ->
  Exists (fun c => channel_pb2.index c = i) channels.
Proof.
  induction channels as [|c channels IH]; cbn [first_admin_index]; [discriminate |].
  destruct (String.eqb _ _).
  - intros [= <-]. now left.
  - intros H. right. auto.
Qed.

(** C2. With the local device known: a request addressed to the local
    device goes to channel 0 whatever the channel list holds; for any other
    node the encrypted admin channel 8 is chosen when both the local device
    and the target carry a true [hasPKC]; failing that, the index of the
    first channel whose name is ["admin"] up to letter case; failing that,
    channel 0.  When no channel of the list has index 8 itself, the answer
    is 8 exactly when both devices carry [hasPKC]. *)
Theorem admin_channel_selection (self : MeshInterface) (info : mesh_pb2.MyNodeInfo) (node : Z) :
  _connected_node_info self = Some info ->
  let my_node_num := mesh_pb2.my_node_num info in
  let both_pkc :=
    has_pkc (_node_database self) my_node_num && has_pkc (_node_database self) node in
  let channels := default [] (_connected_node_channels self) in
  let named_admin (c : channel_pb2.Channel) :=
    lower (channel_pb2.name (channel_pb2.settings c)) = "admin" in
  (node = my_node_num -> _get_admin_channel_index self node = Return 0)
  /\ (node <> my_node_num -> both_pkc = true ->
      _get_admin_channel_index self node = Return 8)
  /\ (node <> my_node_num -> both_pkc = false ->
      forall pre c post,
        channels = (pre ++ c :: post)%list ->
        Forall (fun c' => ~ named_admin c') pre -> named_admin c ->
        _get_admin_channel_index self node = Return (channel_pb2.index c))
  /\ (node <> my_node_num -> both_pkc = false ->
      Forall (fun c => ~ named_admin c) channels ->
      _get_admin_channel_index self node = Return 0)
  /\ (node <> my_node_num ->
      Forall (fun c => channel_pb2.index c <> 8) channels ->
      (_get_admin_channel_index self node = Return 8 <-> both_pkc = true)).
Proof.
  intros Hinfo my_node_num both_pkc channels named_admin.
  unfold _get_admin_channel_index. rewrite Hinfo.
  fold my_node_num. fold both_pkc. fold channels.
  split; [| split; [| split; [| split]]].
  - intros ->. now rewrite Z.eqb_refl.
  - intros Hne Hboth. rewrite (proj2 (Z.eqb_neq _ _) Hne), Hboth. reflexivity.
  - intros Hne Hboth pre c post Hch Hpre Hc.
    rewrite (proj2 (Z.eqb_neq _ _) Hne), Hboth, Hch.
    now rewrite (first_admin_index_found pre post c Hpre Hc).
  - intros Hne Hboth Hnone.
    rewrite (proj2 (Z.eqb_neq _ _) Hne), Hboth.
    now rewrite (first_admin_index_none channels Hnone).
  - intros Hne Hidx. rewrite (proj2 (Z.eqb_neq _ _) Hne).
    destruct both_pkc; [split; reflexivity |].
    split; [| discriminate].
    destruct (first_admin_index channels) as [i|] eqn:Hfirst; [| discriminate].
    intros [= ->]. apply first_admin_index_elem in Hfirst.
    rewrite Forall_forall in Hidx. apply Exists_exists in Hfirst as (c & Hin & Hc).
    destruct (Hidx c Hin Hc).
Qed.

Lemma admin_channel_selection_witness :
  _get_admin_channel_index sample_session 0x0a0b0c0d = Return 0
  /\ _get_admin_channel_index sample_session 0x11223344 = Return 2.
Proof.
  split.
  - exact (proj1 (admin_channel_selection sample_session _ 0x0a0b0c0d eq_refl) eq_refl).
  - refine (proj1 (proj2 (proj2
      (admin_channel_selection sample_session _ 0x11223344 eq_refl))) _ _
      [sample_primary; sample_disabled] sample_admin [] eq_refl _ eq_refl).
    + discriminate.
    + reflexivity.
    + repeat constructor; discriminate.
Defined.

Lemma queries_none_unless_ready_witness :
  connected_node sample_session = Return None
  /\ connected_node_metadata sample_session = None
  /\ connected_node_channels sample_session = None
  /\ connected_node_local_config sample_session = None
  /\ connected_node_module_config sample_session = None.
Proof. exact (queries_none_unless_ready sample_session eq_refl). Defined.

Lemma find_channel_index_len_raises_witness :
  find_channel sample_session (Some 3) None = Raise IndexError.
Proof.
  exact (find_channel_index_len_raises sample_session _ _ None eq_refl eq_refl).
Defined.

(** ** Sending to a disabled channel *)







Example send_text_explicit_index_dropped :
  send_text_message no_numeral sample_session "hello"
    (DestMeshNode (stub_node 0x11223344)) false (Some 1)
  = Return {| call_channel_index := None; call_to_node := 0x11223344;
              call_message := "hello"; call_port_num := TEXT_MESSAGE_APP;
              call_priority := DEFAULT; call_want_response := false; call_ack := false;
              call_from_node := None |}.
Proof. reflexivity. Qed.

(** ** Merging configuration frames *)

(** A conditional [CopyFrom] seen through a sub-field it does not write,
    and through the sub-field it writes. *)
Lemma copy_other {B : Type} (proj : B -> Message) (o : option Message)
    (set : Message -> B -> B) (x : B) :
  (forall v y, proj (set v y) = proj y) ->
  proj (match o with Some v => set v x | None => x end) = proj x.
Proof. intros H. destruct o; [apply H | reflexivity]. Qed.

Lemma copy_same {B : Type} (proj : B -> Message) (o : option Message)
    (set : Message -> B -> B) (x : B) :
  (forall v y, proj (set v y) = v) ->
  proj (match o with Some v => set v x | None => x end)
  = match o with Some v => v | None => proj x end.
Proof. intros H. destruct o; [apply H | reflexivity]. Qed.

Ltac through_copies proj :=
  repeat first
    [ rewrite (copy_other proj) by reflexivity
    | rewrite (copy_same proj) by reflexivity ].

Lemma process_config_sub (self : MeshInterface) (c : config_pb2.Config) (f : config_field) :
  local_sub f (_connected_node_local_config (_process_connected_node_config self c))
  = match config_sub f c with
    | Some v => v
    | None => local_sub f (_connected_node_local_config self)
    end.
Proof.
  unfold _process_connected_node_config.
  destruct f; cbn [local_sub config_sub set_connected_node_local_config
                   _connected_node_local_config].
  - through_copies localonly_pb2.device. reflexivity.
  - through_copies localonly_pb2.position. reflexivity.
  - through_copies localonly_pb2.power. reflexivity.
  - through_copies localonly_pb2.network. reflexivity.
  - through_copies localonly_pb2.display. reflexivity.
  - through_copies localonly_pb2.lora. reflexivity.
  - through_copies localonly_pb2.bluetooth. reflexivity.
  - through_copies localonly_pb2.security. reflexivity.
Qed.

Lemma process_module_config_sub (self : MeshInterface)
    (mc : module_config_pb2.ModuleConfig) (f : module_field) :
  local_module_sub f
    (_connected_node_module_config (_process_connected_node_module_config self mc))
  = match module_sub f mc with
    | Some v => v
    | None => local_module_sub f (_connected_node_module_config self)
    end.
Proof.
  unfold _process_connected_node_module_config.
  destruct f; cbn [local_module_sub module_sub set_connected_node_module_config
                   _connected_node_module_config].
  - through_copies localonly_pb2.mqtt. reflexivity.
  - through_copies localonly_pb2.serial. reflexivity.
  - through_copies localonly_pb2.external_notification. reflexivity.
  - through_copies localonly_pb2.store_forward. reflexivity.
  - through_copies localonly_pb2.range_test. reflexivity.
  - through_copies localonly_pb2.telemetry. reflexivity.
  - through_copies localonly_pb2.canned_message. reflexivity.
  - through_copies localonly_pb2.audio. reflexivity.
  - through_copies localonly_pb2.remote_hardware. reflexivity.
  - through_copies localonly_pb2.neighbor_info. reflexivity.
  - through_copies localonly_pb2.detection_sensor. reflexivity.
  - through_copies localonly_pb2.ambient_lighting. reflexivity.
  - through_copies localonly_pb2.paxcounter. reflexivity.
Qed.

Lemma local_config_ext (a b : localonly_pb2.LocalConfig) :
  (forall f, local_sub f a = local_sub f b) -> a = b.
Proof.
  intros H. destruct a, b.
  pose proof (H cf_device). pose proof (H cf_position). pose proof (H cf_power).
  pose proof (H cf_network). pose proof (H cf_display). pose proof (H cf_lora).
  pose proof (H cf_bluetooth). pose proof (H cf_security).
  cbn in *. congruence.
Qed.

Lemma local_module_config_ext (a b : localonly_pb2.LocalModuleConfig) :
  (forall f, local_module_sub f a = local_module_sub f b) -> a = b.
Proof.
  intros H. destruct a, b.
  pose proof (H mf_mqtt). pose proof (H mf_serial). pose proof (H mf_external_notification).
  pose proof (H mf_store_forward). pose proof (H mf_range_test). pose proof (H mf_telemetry).
  pose proof (H mf_canned_message). pose proof (H mf_audio). pose proof (H mf_remote_hardware).
  pose proof (H mf_neighbor_info). pose proof (H mf_detection_sensor).
  pose proof (H mf_ambient_lighting). pose proof (H mf_paxcounter).
  cbn in *. congruence.
Qed.

Lemma process_frames_config (msgs : list config_message) :
  forall self,
    process_frames self (map frame_of msgs) = Return (fold_left merge_message msgs self).
Proof.
  induction msgs as [|m msgs IH]; intros self; [reflexivity |].
  destruct m as [c | mc]; cbn [map frame_of process_frames _process_connected_node_packets
                               bind fst fold_left merge_message]; apply IH.
Qed.

Lemma merge_message_sub (self : MeshInterface) (m : config_message) (f : config_field) :
  local_sub f (_connected_node_local_config (merge_message self m))
  = match seen_config f m with
    | Some v => v
    | None => local_sub f (_connected_node_local_config self)
    end.
Proof. destruct m as [c | mc]; [apply process_config_sub | reflexivity]. Qed.

Lemma merge_message_module_sub (self : MeshInterface) (m : config_message) (f : module_field) :
  local_module_sub f (_connected_node_module_config (merge_message self m))
  = match seen_module f m with
    | Some v => v
    | None => local_module_sub f (_connected_node_module_config self)
    end.
Proof. destruct m as [c | mc]; [reflexivity | apply process_module_config_sub]. Qed.

Lemma merge_message_shape (self : MeshInterface) (m : config_message) :
  merge_message self m
  = set_connected_node_module_config (_connected_node_module_config (merge_message self m))
      (set_connected_node_local_config (_connected_node_local_config (merge_message self m))
         self).
Proof. destruct self, m as [c | mc]; reflexivity. Qed.

Lemma merge_messages_sub (msgs : list config_message) (f : config_field) :
  forall self,
    local_sub f (_connected_node_local_config (fold_left merge_message msgs self))
    = last_seen (seen_config f) msgs (local_sub f (_connected_node_local_config self)).
Proof.
  induction msgs as [|m msgs IH]; intros self; [reflexivity |].
  cbn [fold_left]. rewrite IH, merge_message_sub. reflexivity.
Qed.

Lemma merge_messages_module_sub (msgs : list config_message) (f : module_field) :
  forall self,
    local_module_sub f (_connected_node_module_config (fold_left merge_message msgs self))
    = last_seen (seen_module f) msgs (local_module_sub f (_connected_node_module_config self)).
Proof.
  induction msgs as [|m msgs IH]; intros self; [reflexivity |].
  cbn [fold_left]. rewrite IH, merge_message_module_sub. reflexivity.
Qed.

(** Messages with no sub-field in common commute. *)
Lemma merge_message_swap (self : MeshInterface) (a b : config_message) :
  distinct_sub_fields a b ->
  merge_message (merge_message self a) b = merge_message (merge_message self b) a.
Proof.
  intros [Hc Hm].
  rewrite (merge_message_shape (merge_message self a) b).
  rewrite (merge_message_shape (merge_message self b) a).
  rewrite (merge_message_shape self a) at 3.
  rewrite (merge_message_shape self b) at 3.
  assert (HL : _connected_node_local_config (merge_message (merge_message self a) b)
               = _connected_node_local_config (merge_message (merge_message self b) a)).
  { apply local_config_ext. intros f. rewrite !merge_message_sub.
    destruct (Hc f) as [-> | ->]; [| reflexivity].
    now destruct (seen_config f b). }
  assert (HM : _connected_node_module_config (merge_message (merge_message self a) b)
               = _connected_node_module_config (merge_message (merge_message self b) a)).
  { apply local_module_config_ext. intros f. rewrite !merge_message_module_sub.
    destruct (Hm f) as [-> | ->]; [| reflexivity].
    now destruct (seen_module f b). }
  rewrite HL, HM. destruct self. reflexivity.
Qed.

(** C6. Any sequence of inbound config and module-config sub-messages is
    processed to the end; afterwards each sub-field of the local config
    snapshot and of the local module-config snapshot holds the value seen
    last for that sub-field, or its former value when no message carried it;
    and exchanging two neighbouring messages that carry no sub-field in
    common leaves the resulting session unchanged. *)
Theorem config_merge_last_seen (self : MeshInterface) (msgs : list config_message) :
  exists self',
    process_frames self (map frame_of msgs) = Return self'
    /\ (forall f,
          local_sub f (_connected_node_local_config self')
          = last_seen (seen_config f) msgs (local_sub f (_connected_node_local_config self)))
    /\ (forall f,
          local_module_sub f (_connected_node_module_config self')
          = last_seen (seen_module f) msgs
              (local_module_sub f (_connected_node_module_config self)))
    /\ (forall before a b after,
          msgs = (before ++ a :: b :: after)%list ->
          distinct_sub_fields a b ->
          process_frames self (map frame_of (before ++ b :: a :: after)%list) = Return self').
Proof.
  exists (fold_left merge_message msgs self).
  split; [apply process_frames_config |].
  split; [intros f; apply merge_messages_sub |].
  split; [intros f; apply merge_messages_module_sub |].
  intros before a b after -> Hdistinct.
  rewrite process_frames_config, !fold_left_app. cbn [fold_left].
  now rewrite (merge_message_swap _ a b Hdistinct).
Qed.

Lemma config_merge_last_seen_witness :
  exists self',
    process_frames sample_session
      (map frame_of
         [inl {| config_pb2.device := None; config_pb2.position := None;
                 config_pb2.power := None; config_pb2.network := None;
                 config_pb2.display := None; config_pb2.lora := Some {[ "region" := PyStr "EU_868" ]};
                 config_pb2.bluetooth := None; config_pb2.security := None |}])
    = Return self'
    /\ localonly_pb2.lora (_connected_node_local_config self') = {[ "region" := PyStr "EU_868" ]}.
Proof.
  destruct (config_merge_last_seen sample_session
      [inl {| config_pb2.device := None; config_pb2.position := None;
              config_pb2.power := None; config_pb2.network := None;
              config_pb2.display := None; config_pb2.lora := Some {[ "region" := PyStr "EU_868" ]};
              config_pb2.bluetooth := None; config_pb2.security := None |}])
    as (self' & Hrun & Hsub & _).
  exists self'. split; [exact Hrun |]. exact (Hsub cf_lora).
Defined.

(** ** The request/response correlator *)






Example correlator_unacknowledged_response_request :
  _send_message_await_response sample_session 0x11223344 "" ADMIN_APP None None true None []
  = ({| call_channel_index := None; call_to_node := 0x11223344; call_message := "";
        call_port_num := ADMIN_APP; call_priority := RELIABLE; call_want_response := true;
        call_ack := true; call_from_node := None |},
     60,
     Raise (MeshInterfaceRequestError "No acknowledgement received within" 60)).
Proof. reflexivity. Qed.

(** ** Supervised activities *)

Lemma await_answered (a : action) (st : costate) (r : resume) (rest : list resume) :
  script st = r :: rest ->
  await a st =
    (match woke r with Return v => Returned v | Raise e => Raised e end,
     resumed a r rest st).
Proof. intros H. unfold await. rewrite H. now destruct (woke r). Qed.

Lemma await_suspended (a : action) (st : costate) :
  script st = [] -> await a st = (Suspended, emit a st).
Proof. intros H. unfold await. now rewrite H. Qed.

(** The wrapper of a session that is not running ends at once. *)
Lemma process_while_running_stopped (fuel : nat) (f : co unit) (st : costate) :
  _is_running (self_ st) = false ->
  process_while_running (S fuel) f st = (Returned tt, st).
Proof.
  intros Hrun. cbn [process_while_running]. unfold co_bind, get_self. now rewrite Hrun.
Qed.

(** C5. In a running session, when the body of a supervised activity
    raises: a cancellation signal is re-raised and ends the activity; any
    other exception starts a cool-down sleep of 5, after which the loop goes
    on from its head (it re-runs the body if the session is still running
    and ends if it is not), while a cancellation during the cool-down ends
    the activity normally, without an exception. *)
Theorem supervised_activity_policy (fuel : nat) (f : co unit) (st st1 : costate) (e : pyexn) :
  _is_running (self_ st) = true ->
  f st = (Raised e, st1) ->
  (e = CancelledError ->
   process_while_running (S fuel) f st = (Raised CancelledError, st1))
  /\ (e <> CancelledError ->
      (script st1 = [] ->
       process_while_running (S fuel) f st = (Suspended, emit (Sleep 5) st1))
      /\ (forall r rest,
            script st1 = r :: rest ->
            let st2 := resumed (Sleep 5) r rest st1 in
            trace st2 = (trace st1 ++ [Sleep 5])%list
            /\ (forall v, woke r = Return v ->
                process_while_running (S fuel) f st = process_while_running fuel f st2)
            /\ (woke r = Raise CancelledError ->
                process_while_running (S fuel) f st = (Returned tt, st2))))
  /\ (forall fuel' st2,
        _is_running (self_ st2) = false ->
        process_while_running (S fuel') f st2 = (Returned tt, st2)).
Proof.
  intros Hrun Hf.
  assert (Hhead :
             process_while_running (S fuel) f st =
             match co_try (do _ <- f; co_ret (Continue false))
                     (fun e => match e with
                               | CancelledError => None
                               | _ =>
                                   Some (co_try
                                           (do _ <- await (Sleep 5); co_ret (Continue false))
                                           (fun e' => match e' with
                                                      | CancelledError => Some (co_ret Break)
                                                      | _ => None
                                                      end))
                               end) st with
             | (Returned next, st') =>
                 match next with
                 | Continue _ => process_while_running fuel f st'
                 | _ => (Returned tt, st')
                 end
             | (Raised e, st') => (Raised e, st')
             | (Suspended, st') => (Suspended, st')
             | (OutOfFuel, st') => (OutOfFuel, st')
             end).
  { cbn [process_while_running]. unfold co_bind at 1, get_self. rewrite Hrun.
    cbn [negb]. unfold co_bind at 1.
    destruct (co_try _ _ st) as [[next | e' | |] st']; try reflexivity.
    destruct next; reflexivity. }
  split; [| split].
  - intros ->. rewrite Hhead. unfold co_try, co_bind. rewrite Hf. reflexivity.
  - intros Hne. split.
    + intros Hempty. rewrite Hhead. unfold co_try at 1, co_bind at 1. rewrite Hf.
      destruct e; try contradiction;
        unfold co_try, co_bind; rewrite (await_suspended _ _ Hempty); reflexivity.
    + intros r rest Hscript st2. split; [reflexivity |]. split.
      * intros v Hv. rewrite Hhead. unfold co_try at 1, co_bind at 1. rewrite Hf.
        destruct e; try contradiction;
          unfold co_try, co_bind; rewrite (await_answered _ _ _ _ Hscript), Hv; reflexivity.
      * intros Hc. rewrite Hhead. unfold co_try at 1, co_bind at 1. rewrite Hf.
        destruct e; try contradiction;
          unfold co_try, co_bind; rewrite (await_answered _ _ _ _ Hscript), Hc; reflexivity.
  - intros fuel' st2. apply process_while_running_stopped.
Qed.

Lemma supervised_activity_policy_witness :
  process_while_running 1 (co_raise CancelledError) (fresh_costate reconnecting_session [])
  = (Raised CancelledError, fresh_costate reconnecting_session [])
  /\ process_while_running 1 (co_raise (OtherException "OSError"))
       (fresh_costate reconnecting_session [])
     = (Suspended, emit (Sleep 5) (fresh_costate reconnecting_session [])).
Proof.
  split.
  - exact (proj1 (supervised_activity_policy 0 (co_raise CancelledError)
                    (fresh_costate reconnecting_session []) _ CancelledError
                    eq_refl eq_refl) eq_refl).
  - refine (proj1 (proj1 (proj2 (supervised_activity_policy 0
                    (co_raise (OtherException "OSError"))
                    (fresh_costate reconnecting_session []) _ (OtherException "OSError")
                    eq_refl eq_refl)) _) eq_refl).
    discriminate.
Defined.

(** ** The reconnection loop *)


(** Every delay of 5..30 is drawn for some raw draw of the generator. *)
Lemma randint_5_30_onto (d : Z) (st : costate) :
  5 <= d <= 30 ->
  random_source st (draws st) = d - 5 ->
  fst (randint 5 30 st) = Returned d.
Proof.
  intros Hd Hraw. unfold randint. cbn [fst]. rewrite Hraw.
  rewrite Z.mod_small by lia. f_equal. lia.
Qed.

(** The loop of a running session makes one pass and goes by how it
    ends. *)
Lemma reconnect_loop_head (fuel : nat) (force : bool) (st : costate) :
  _is_running (self_ st) = true ->
  _reconnect_while_running (S fuel) force st =
    match reconnect_iteration force st with
    | (Returned (Continue force_reconnect), st') =>
        _reconnect_while_running fuel force_reconnect st'
    | (Returned _, st') => (Returned tt, st')
    | (Raised e, st') => (Raised e, st')
    | (Suspended, st') => (Suspended, st')
    | (OutOfFuel, st') => (OutOfFuel, st')
    end.
Proof.
  intros Hrun. cbn [_reconnect_while_running]. unfold co_bind at 1, get_self.
  rewrite Hrun. cbn [negb]. unfold co_bind at 1.
  destruct (reconnect_iteration force st) as [[next | e | |] st']; try reflexivity.
  destruct next; reflexivity.
Qed.

Lemma reconnect_loop_stopped (fuel : nat) (force : bool) (st : costate) :
  _is_running (self_ st) = false ->
  _reconnect_while_running (S fuel) force st = (Returned tt, st).
Proof.
  intros Hrun. cbn [_reconnect_while_running]. unfold co_bind, get_self. now rewrite Hrun.
Qed.

Ltac run_iteration :=
  unfold reconnect_iteration, reconnect_attempt, with_reconnect_lock,
    co_try, co_finally, co_bind, co_ret, get_self, set_ready, randint.







(** A run of the loop: a timed-out attempt, a failed attempt with its
    backoff, then an attempt and a handshake that succeed. *)
Example reconnect_run :
  let run :=
    _reconnect_while_running 5 false
      {| self_ := set_connected_node_ready false reconnecting_session;
         script :=
           [ {| woke := Return PyNone; running_now := true; ready_now := false |};
             {| woke := Raise TimeoutError; running_now := true; ready_now := false |};
             {| woke := Return PyNone; running_now := true; ready_now := false |};
             {| woke := Raise (OtherException "OSError"); running_now := true;
                ready_now := false |};
             {| woke := Return PyNone; running_now := true; ready_now := false |};
             {| woke := Return PyNone; running_now := true; ready_now := false |};
             {| woke := Return (PyBool true); running_now := true; ready_now := false |};
             {| woke := Return PyNone; running_now := true; ready_now := false |} ];
         random_source := fun _ => 33; draws := 0; trace := [] |} in
  fst run = Returned tt
  /\ trace (snd run) =
     [ AcquireReconnectLock; Reconnect false 30; ReleaseReconnectLock;
       AcquireReconnectLock; Reconnect false 30; ReleaseReconnectLock; Sleep 12;
       AcquireReconnectLock; Reconnect false 30; RequestConfig false 60; SetReady;
       ReleaseReconnectLock ]
  /\ _connected_node_ready (self_ (snd run)) = true.
Proof. vm_compute. repeat split. Qed.

(** ** Stopping the session *)

(** Stopping a session that is not running returns at once and changes
    nothing. *)
Lemma stop_not_running_noop (send_disconnect_result disconnect_result : outcome unit)
    (w : World) :
  _is_running (session w) = false ->
  stop send_disconnect_result disconnect_result w = StopEnded (Return tt) w.
Proof. intros Hrun. unfold stop. now rewrite Hrun. Qed.

(** Stopping twice: the second call finds the flag cleared. *)
Lemma stop_twice (sd1 d1 sd2 d2 : outcome unit) (w w' : World) (r : outcome unit) :
  _is_running (session w) = true ->
  stop sd1 d1 w = StopEnded r w' ->
  stop sd2 d2 w' = StopEnded (Return tt) w'.
Proof.
  intros Hrun Hstop. apply stop_not_running_noop.
  unfold stop in Hstop. rewrite Hrun in Hstop. cbn [negb] in Hstop.
  destruct (_cancel_processing_tasks _) as [w1 | w1] eqn:H1; [| discriminate].
  destruct (_cancel_background_tasks w1) as [w2 | w2] eqn:H2; [| discriminate].
  assert (Hw1 : _is_running (session w1) = false).
  { unfold _cancel_processing_tasks in H1.
    destruct (bool_decide _) in H1; [injection H1 as <- |].
    - unfold _close_packet_streams, with_session. cbn.
      now destruct (_packet_stream_listeners (session w)).
    - destruct (all_done _ _) in H1; [| discriminate]. injection H1 as <-.
      unfold _close_packet_streams, with_session. cbn.
      now destruct (_packet_stream_listeners (session w)). }
  assert (Hw2 : _is_running (session w2) = false).
  { unfold _cancel_background_tasks in H2.
    destruct (bool_decide _) in H2; [now injection H2 as <- |].
    destruct (all_done _ _) in H2; [| discriminate]. now injection H2 as <-. }
  destruct sd1 as [[] | e]; [injection Hstop as _ <-; exact Hw2 |].
  destruct e; injection Hstop as _ <-; exact Hw2.
Qed.

(** A started session whose activities are suspended where a cancellation
    propagates: [stop] clears both flags, closes the listener, leaves no
    tracked activity pending and closes the connection. *)
Example stop_idle_session :
  match stop (Return tt) (Return tt) idle_world with
  | StopEnded r w' =>
      r = Return tt
      /\ _is_running (session w') = false
      /\ _connected_node_ready (session w') = false
      /\ _packet_stream_listeners (session w') = []
      /\ listeners w' !! 0%nat = Some true
      /\ task_status <$> tasks w' !! 0%nat = Some (Raised CancelledError)
      /\ task_status <$> tasks w' !! 1%nat = Some (Raised CancelledError)
      /\ task_status <$> tasks w' !! 2%nat = Some (Raised CancelledError)
      /\ elements (_processing_tasks (session w')) = []
      /\ elements (_background_tasks (session w')) = []
      /\ connection_calls w' = [send_disconnect; disconnect]
  | StopBlocked _ => False
  end.
Proof. vm_compute. repeat split. Qed.

(** C8, where the code departs from it. The heartbeat of a running
    session has failed and the heartbeat task awaits [connection.reconnect]
    inside [_reconnect_while_running].  [stop] clears the flags and throws
    the cancellation into the task; the reconnection loop catches it and
    returns, the heartbeat loop goes on to its next interval sleep, and the
    task is still pending: [stop] stays blocked awaiting it, with the task
    still tracked and the connection not closed. *)
Theorem stop_blocked_by_reconnecting_heartbeat
    (send_disconnect_result disconnect_result : outcome unit) :
  _is_running (session reconnecting_world) = true
  /\ task_status <$> tasks reconnecting_world !! 0%nat = Some Suspended
  /\ task_trace <$> tasks reconnecting_world !! 0%nat =
     Some [Sleep 600; RequestConnectionStatus; AcquireReconnectLock; Reconnect true 30]
  /\ match stop send_disconnect_result disconnect_result reconnecting_world with
     | StopEnded _ _ => False
     | StopBlocked w' =>
         _is_running (session w') = false
         /\ _connected_node_ready (session w') = false
         /\ task_status <$> tasks w' !! 0%nat = Some Suspended
         /\ task_trace <$> tasks w' !! 0%nat =
            Some [Sleep 600; RequestConnectionStatus; AcquireReconnectLock;
                  Reconnect true 30; ReleaseReconnectLock; Sleep 600]
         /\ bool_decide (0%nat ∈ _processing_tasks (session w')) = true
         /\ connection_calls w' = []
     end.
Proof. vm_compute. repeat split. Qed.

(** *** Activities that end when they are cancelled *)

Lemma _cancel_task_done (self : MeshInterface) (t : Task) :
  task_done t = true -> _cancel_task self t = t.
Proof. intros H. unfold _cancel_task. now rewrite H. Qed.

(** Cancelling the tasks [ts] of a task map that is part of the way from
    [m0] to its cancellation: each task of [ts] ends up cancelled, and the
    others stay as they are. *)
Lemma cancel_all_cancels (self : MeshInterface) (m0 : gmap nat Task) (ts : list nat) :
  (forall t task, t ∈ ts -> m0 !! t = Some task ->
                  task_done (_cancel_task self task) = true) ->
  forall m,
    (forall t, m !! t = m0 !! t \/ m !! t = _cancel_task self <$> m0 !! t) ->
    (forall t, cancel_all self ts m !! t = m0 !! t
               \/ cancel_all self ts m !! t = _cancel_task self <$> m0 !! t)
    /\ (forall t, t ∈ ts -> cancel_all self ts m !! t = _cancel_task self <$> m0 !! t)
    /\ (forall t, m !! t = _cancel_task self <$> m0 !! t ->
                  cancel_all self ts m !! t = _cancel_task self <$> m0 !! t).
Proof.
  induction ts as [|a ts IH]; intros Hcoop m Hm.
  - split; [exact Hm |]. split; [intros t Ht; inversion Ht | auto].
  - assert (Ha : alter (_cancel_task self) a m !! a = _cancel_task self <$> m0 !! a).
    { rewrite lookup_alter_eq. destruct (Hm a) as [-> | ->]; [reflexivity |].
      destruct (m0 !! a) as [task|] eqn:Htask; [| reflexivity].
      cbn. f_equal. apply _cancel_task_done. apply (Hcoop a); [left | exact Htask]. }
    assert (Hm1 : forall t, alter (_cancel_task self) a m !! t = m0 !! t
                            \/ alter (_cancel_task self) a m !! t
                               = _cancel_task self <$> m0 !! t).
    { intros t. destruct (decide (a = t)) as [<- | Hne]; [now right |].
      rewrite lookup_alter_ne by exact Hne. apply Hm. }
    assert (Hkeep : forall t, m !! t = _cancel_task self <$> m0 !! t ->
                              alter (_cancel_task self) a m !! t
                              = _cancel_task self <$> m0 !! t).
    { intros t Ht. destruct (decide (a = t)) as [<- | Hne]; [exact Ha |].
      now rewrite lookup_alter_ne. }
    destruct (IH (fun t task Ht => Hcoop t task (list_elem_of_further _ _ _ Ht))
                (alter (_cancel_task self) a m) Hm1) as (Hinv & Hin & Hstay).
    cbn [cancel_all fold_left]. fold (cancel_all self ts (alter (_cancel_task self) a m)).
    split; [exact Hinv |]. split.
    + intros t Ht. apply elem_of_cons in Ht as [-> | Ht]; [now apply Hstay | now apply Hin].
    + intros t Ht. apply Hstay, Hkeep, Ht.
Qed.

Lemma task_pending_cancelled (self : MeshInterface) (m0 m : gmap nat Task) (t : nat) :
  (forall task, m0 !! t = Some task -> task_done (_cancel_task self task) = true) ->
  m !! t = _cancel_task self <$> m0 !! t ->
  task_pending m t = false.
Proof.
  intros Hcoop Hm. unfold task_pending. rewrite Hm.
  destruct (m0 !! t) as [task|]; [| reflexivity]. cbn. now rewrite (Hcoop task).
Qed.

Lemma all_done_true (ts : list nat) (m : gmap nat Task) :
  (forall t, t ∈ ts -> task_pending m t = false) -> all_done ts m = true.
Proof.
  intros H. unfold all_done. apply forallb_forall. intros t Ht.
  rewrite H; [reflexivity | now apply list_elem_of_In].
Qed.

Lemma discard_done_empty (m : gmap nat Task) (background : gset nat) :
  (forall t, t ∈ background -> task_pending m t = false) ->
  discard_done m background = ∅.
Proof.
  intros H. unfold discard_done. apply set_eq. intros t.
  rewrite elem_of_filter. split; [| set_solver].
  intros [Hp Ht]. rewrite (H t Ht) in Hp. discriminate.
Qed.

Lemma _cancel_task_flags (self self' : MeshInterface) (t : Task) :
  _is_running self = _is_running self' ->
  _connected_node_ready self = _connected_node_ready self' ->
  _cancel_task self t = _cancel_task self' t.
Proof. intros H1 H2. unfold _cancel_task. now rewrite H1, H2. Qed.

Lemma close_packet_streams_closes (w : World) :
  let w' := _close_packet_streams w in
  _packet_stream_listeners (session w') = []
  /\ (forall l, l ∈ _packet_stream_listeners (session w) -> listeners w' !! l = Some true)
  /\ _is_running (session w') = _is_running (session w)
  /\ _connected_node_ready (session w') = _connected_node_ready (session w)
  /\ _processing_tasks (session w') = _processing_tasks (session w)
  /\ _background_tasks (session w') = _background_tasks (session w)
  /\ tasks w' = tasks w
  /\ connection_calls w' = connection_calls w.
Proof.
  unfold _close_packet_streams.
  destruct (_packet_stream_listeners (session w)) as [|l0 ls] eqn:Hls.
  - rewrite Hls. repeat split. intros l Hl. inversion Hl.
  - cbn [session listeners tasks connection_calls]. repeat split.
    intros l Hl. generalize (listeners w). revert Hl. generalize (l0 :: ls).
    intros ls'. induction ls' as [|a ls' IH]; intros Hl m; [inversion Hl |].
    cbn [fold_left]. apply elem_of_cons in Hl as [-> | Hl]; [| now apply IH].
    clear IH. assert (Hin : <[a:=true]> m !! a = Some true) by apply lookup_insert_eq.
    revert Hin. generalize (<[a:=true]> m). induction ls' as [|b ls' IH]; intros m' Hm';
      [exact Hm' |].
    cbn [fold_left]. apply IH. destruct (decide (b = a)) as [-> | Hne].
    + apply lookup_insert_eq.
    + now rewrite lookup_insert_ne.
Qed.

Lemma cancel_background_cooperative (w : World) :
  cooperative w ->
  exists w',
    _cancel_background_tasks w = Completed w'
    /\ _is_running (session w') = _is_running (session w)
    /\ _connected_node_ready (session w') = _connected_node_ready (session w)
    /\ _packet_stream_listeners (session w') = _packet_stream_listeners (session w)
    /\ _processing_tasks (session w') = _processing_tasks (session w)
    /\ _background_tasks (session w') = ∅
    /\ listeners w' = listeners w
    /\ connection_calls w' = connection_calls w
    /\ (forall t, t ∈ _background_tasks (session w) -> task_pending (tasks w') t = false)
    /\ (forall t, task_pending (tasks w) t = false -> task_pending (tasks w') t = false).
Proof.
  intros Hcoop. unfold _cancel_background_tasks.
  destruct (bool_decide (_background_tasks (session w) = ∅)) eqn:Hempty.
  - apply bool_decide_eq_true in Hempty. exists w. rewrite Hempty. repeat split; auto.
    intros t Ht. set_solver.
  - destruct (cancel_all_cancels (session w) (tasks w)
                (elements (_background_tasks (session w)))) with (m := tasks w)
      as (Hinv & Hin & _).
    { intros t task Ht. apply Hcoop. apply elem_of_elements in Ht. set_solver. }
    { intros t. now left. }
    assert (Hdone : forall t, t ∈ _background_tasks (session w) ->
              task_pending (cancel_all (session w)
                              (elements (_background_tasks (session w))) (tasks w)) t = false).
    { intros t Ht. apply (task_pending_cancelled (session w) (tasks w)).
      - intros task. apply Hcoop. set_solver.
      - apply Hin. now apply elem_of_elements. }
    rewrite all_done_true by (intros t Ht; apply Hdone; now apply elem_of_elements).
    eexists. split; [reflexivity |]. cbn [session tasks listeners connection_calls].
    repeat split; auto.
    + now apply discard_done_empty.
    + intros t Ht. unfold task_pending in *. destruct (Hinv t) as [-> | ->]; [exact Ht |].
      destruct (tasks w !! t) as [task|]; [| reflexivity]. cbn.
      rewrite _cancel_task_done; [exact Ht |]. now destruct (task_done task).
Qed.

Lemma cancel_processing_cooperative (w : World) :
  cooperative w ->
  exists w',
    _cancel_processing_tasks w = Completed w'
    /\ _is_running (session w') = _is_running (session w)
    /\ _connected_node_ready (session w') = _connected_node_ready (session w)
    /\ _packet_stream_listeners (session w') = _packet_stream_listeners (session w)
    /\ listeners w' = listeners w
    /\ connection_calls w' = connection_calls w
    /\ (_processing_tasks (session w) = ∅ -> w' = w)
    /\ (_processing_tasks (session w) <> ∅ ->
        _processing_tasks (session w') = ∅
        /\ _background_tasks (session w') = ∅
        /\ forall t, t ∈ _processing_tasks (session w) ∪ _background_tasks (session w) ->
                     task_pending (tasks w') t = false).
Proof.
  intros Hcoop. unfold _cancel_processing_tasks.
  destruct (bool_decide (_processing_tasks (session w) = ∅)) eqn:Hempty.
  - apply bool_decide_eq_true in Hempty. exists w. repeat split; auto; contradiction.
  - apply bool_decide_eq_false in Hempty.
    set (ts := (elements (_processing_tasks (session w))
                ++ elements (_background_tasks (session w)))%list).
    assert (Hts : forall t, t ∈ ts <->
                            t ∈ _processing_tasks (session w) ∪ _background_tasks (session w)).
    { intros t. unfold ts. rewrite elem_of_app, !elem_of_elements. set_solver. }
    destruct (cancel_all_cancels (session w) (tasks w) ts) with (m := tasks w)
      as (_ & Hin & _).
    { intros t task Ht. apply Hcoop. now apply Hts. }
    { intros t. now left. }
    assert (Hdone : forall t, t ∈ ts ->
              task_pending (cancel_all (session w) ts (tasks w)) t = false).
    { intros t Ht. apply (task_pending_cancelled (session w) (tasks w)).
      - intros task. apply Hcoop. now apply Hts.
      - now apply Hin. }
    rewrite all_done_true by exact Hdone.
    eexists. split; [reflexivity |]. cbn [session tasks listeners connection_calls].
    repeat split; auto; try contradiction.
    + apply discard_done_empty. intros t Ht. apply Hdone, Hts. set_solver.
    + intros t Ht. apply Hdone, Hts, Ht.
Qed.

(** In a running session whose tracked activities all end when they are
    cancelled, [stop] comes to its end: both flags are cleared, every
    registered listener is closed, no tracked activity is pending, nothing
    is tracked any more, and the connection has been told to disconnect. *)
Lemma stop_cancels_cooperative (send_disconnect_result disconnect_result : outcome unit)
    (w : World) :
  _is_running (session w) = true ->
  cooperative
    (with_session (set_connected_node_ready false (set_is_running false (session w))) w) ->
  exists r w',
    stop send_disconnect_result disconnect_result w = StopEnded r w'
    /\ _is_running (session w') = false
    /\ _connected_node_ready (session w') = false
    /\ _packet_stream_listeners (session w') = []
    /\ (forall l, l ∈ _packet_stream_listeners (session w) -> listeners w' !! l = Some true)
    /\ (forall t, t ∈ _processing_tasks (session w) ∪ _background_tasks (session w) ->
                  task_pending (tasks w') t = false)
    /\ _processing_tasks (session w') = ∅
    /\ _background_tasks (session w') = ∅
    /\ exists calls, connection_calls w' = (connection_calls w ++ send_disconnect :: calls)%list.
Proof.
  intros Hrun Hcoop. unfold stop. rewrite Hrun. cbn [negb].
  set (w2 := with_session (set_connected_node_ready false _) _).
  assert (Hw2 : w2 = with_session
                  (set_connected_node_ready false (set_is_running false (session w))) w)
    by reflexivity.
  destruct (close_packet_streams_closes w2)
    as (Hlist & Hclosed & Hr3 & Hy3 & Hp3 & Hb3 & Ht3 & Hc3).
  set (w3 := _close_packet_streams w2) in *.
  assert (Hcoop3 : cooperative w3).
  { intros t task Ht Htask. rewrite Hp3, Hb3 in Ht. rewrite Ht3 in Htask.
    rewrite (_cancel_task_flags (session w3) (session w2)) by assumption.
    rewrite Hw2 in *. now apply (Hcoop t task). }
  destruct (cancel_processing_cooperative w3 Hcoop3)
    as (w4 & -> & Hr4 & Hy4 & Hl4 & Hs4 & Hc4 & Hsame & Hcleared).
  assert (Hcoop4 : cooperative w4).
  { destruct (decide (_processing_tasks (session w3) = ∅)) as [He | Hne].
    - now rewrite (Hsame He).
    - destruct (Hcleared Hne) as (Hp & Hb & _). intros t task Ht. rewrite Hp, Hb in Ht.
      set_solver. }
  destruct (cancel_background_cooperative w4 Hcoop4)
    as (w5 & -> & Hr5 & Hy5 & Hl5 & Hp5 & Hb5 & Hs5 & Hc5 & Hbg & Hkeep).
  assert (Hflags : _is_running (session w5) = false /\ _connected_node_ready (session w5) = false).
  { rewrite Hr5, Hr4, Hr3, Hy5, Hy4, Hy3. now split. }
  assert (Hstreams : _packet_stream_listeners (session w5) = []) by now rewrite Hl5, Hl4.
  assert (Hlisteners : forall l, l ∈ _packet_stream_listeners (session w) ->
                                 listeners w5 !! l = Some true).
  { intros l Hl. rewrite Hs5, Hs4. now apply Hclosed. }
  assert (Hpending : forall t,
            t ∈ _processing_tasks (session w) ∪ _background_tasks (session w) ->
            task_pending (tasks w5) t = false).
  { intros t Ht. destruct (decide (_processing_tasks (session w3) = ∅)) as [He | Hne].
    - apply Hbg. rewrite (Hsame He), Hb3. rewrite He in Hp3.
      change (_processing_tasks (session w2)) with (_processing_tasks (session w)) in Hp3.
      change (_background_tasks (session w2)) with (_background_tasks (session w)).
      set_solver.
    - apply Hkeep. apply (proj2 (proj2 (Hcleared Hne))). now rewrite Hp3, Hb3. }
  assert (Hproc : _processing_tasks (session w5) = ∅).
  { rewrite Hp5. destruct (decide (_processing_tasks (session w3) = ∅)) as [He | Hne].
    - now rewrite (Hsame He).
    - apply (Hcleared Hne). }
  assert (Hcalls : connection_calls w5 = connection_calls w) by now rewrite Hc5, Hc4, Hc3.
  destruct Hflags as [Hf1 Hf2].
  destruct send_disconnect_result as [[] | e]; [| destruct e];
    eexists; eexists; (split; [reflexivity |]);
    cbn [session tasks listeners connection_calls]; rewrite Hcalls;
    repeat split; auto;
    try (now exists [disconnect]; rewrite <- app_assoc);
    now exists [].
Qed.

(** *** The heartbeat after the cancellation *)

(** In a stopped session the heartbeat loop goes from beat to beat: a
    heartbeat that fails leads into a reconnection loop that returns at
    once.  Whatever the beats are answered with, short of a further
    cancellation, the loop is suspended in an await at the end of the
    script. *)
Lemma heartbeat_loop_stopped_pending (beats : list (outcome pyvalue)) :
  Forall (fun answer => answer <> Raise CancelledError) beats ->
  forall (fuel : nat) (st : costate),
    _is_running (self_ st) = false ->
    _connected_node_ready (self_ st) = false ->
    script st = flat_map (fun answer => [after_stop (Return PyNone); after_stop answer]) beats ->
    (2 * length beats < fuel)%nat ->
    fst (_heartbeat_loop fuel st) = Suspended.
Proof.
  induction 1 as [|answer beats Hanswer _ IH]; intros fuel st Hrun Hready Hscript Hfuel.
  - destruct fuel as [|fuel]; [lia |]. cbn [_heartbeat_loop].
    unfold co_bind at 1, get_self. unfold co_bind at 1.
    now rewrite (await_suspended _ _ Hscript).
  - destruct fuel as [|fuel]; [cbn in Hfuel; lia |]. cbn [flat_map app] in Hscript.
    cbn [_heartbeat_loop].
    unfold co_bind at 1, get_self. unfold co_bind at 1.
    rewrite (await_answered _ _ _ _ Hscript). cbn [woke after_stop].
    unfold co_bind at 1.
    set (st1 := resumed _ _ _ st).
    assert (Hloop : forall st2,
               _is_running (self_ st2) = false ->
               _connected_node_ready (self_ st2) = false ->
               script st2 =
                 flat_map (fun answer => [after_stop (Return PyNone); after_stop answer]) beats ->
               fst (_heartbeat_loop fuel st2) = Suspended).
    { intros st2 H1 H2 H3. apply IH; auto. cbn [length] in Hfuel. lia. }
    unfold co_try, co_bind, get_self.
    change (_connected_node_ready (self_ st1)) with false. cbn match.
    rewrite (await_answered SendHeartbeat st1 (after_stop answer) _ eq_refl).
    cbn [woke after_stop].
    destruct answer as [v | e].
    + unfold co_ret. apply Hloop; reflexivity.
    + assert (He : is_Exception e = true) by (destruct e; try reflexivity; now destruct Hanswer).
      rewrite He.
      destruct fuel as [|fuel']; [cbn [length] in Hfuel; lia |].
      rewrite reconnect_loop_stopped by reflexivity.
      apply Hloop; reflexivity.
Qed.

Lemma heartbeat_loop_step (fuel : nat) (st : costate) :
  _heartbeat_loop (S fuel) st =
    (do self <- get_self;
     do _ <- await (Sleep (_heartbeat_interval_s self));
     do _ <-
       co_try
         (do self <- get_self;
          do _ <- (if _connected_node_ready self then await RequestConnectionStatus
                   else await SendHeartbeat);
          co_ret tt)
         (fun e => if is_Exception e then Some (_reconnect_while_running fuel true)
                   else None);
     _heartbeat_loop fuel) st.
Proof. reflexivity. Qed.

(** The heartbeat task of [reconnecting_world] after [stop]: it never
    ends, whatever its later beats are answered with. *)
Lemma heartbeat_never_ends_after_stop (beats : list (outcome pyvalue)) :
  Forall (fun answer => answer <> Raise CancelledError) beats ->
  task_status {| get_name := "heartbeat"; coro := heartbeat_task;
                 started := fresh_costate reconnecting_session (script_after_stop beats) |}
  = Suspended.
Proof.
  intros Hbeats. unfold task_status, heartbeat_task.
  cbn [coro started script fresh_costate script_after_stop app length].
  set (ext := flat_map _ beats).
  set (st := fresh_costate _ _).
  assert (Hlen : (2 * length beats <= length ext)%nat).
  { unfold ext. clear. induction beats as [|a beats IH]; cbn [flat_map length app]; lia. }
  generalize dependent (length ext). intros n Hlen.
  cbn [process_while_running]. unfold co_bind at 1, get_self.
  change (_is_running (self_ st)) with true. cbn [negb].
  unfold co_bind at 1. unfold co_try at 1. unfold co_bind at 1.
  rewrite heartbeat_loop_step. unfold co_bind at 1, get_self. unfold co_bind at 1.
  rewrite (await_answered _ st _ _ eq_refl). cbn [woke while_up].
  unfold co_bind at 1. unfold co_try at 1. unfold co_bind at 1, get_self.
  unfold co_bind at 1.
  set (st1 := resumed _ _ _ st).
  change (_connected_node_ready (self_ st1)) with true. cbn match.
  rewrite (await_answered RequestConnectionStatus st1 _ _ eq_refl). cbn [woke while_up].
  cbn [is_Exception].
  set (st2 := resumed _ _ _ st1).
  rewrite (reconnect_loop_head _ true st2 eq_refl).
  unfold reconnect_iteration at 1, reconnect_attempt, with_reconnect_lock.
  unfold co_try at 1. unfold co_bind at 1.
  rewrite (await_answered AcquireReconnectLock st2 _ _ eq_refl). cbn [woke while_up].
  set (st3 := resumed _ _ _ st2).
  unfold co_finally, co_bind at 1, get_self, co_try at 1.
  unfold co_bind at 1. unfold co_bind at 1.
  rewrite (await_answered (Reconnect true 30) st3 _ _ eq_refl). cbn [woke after_stop].
  unfold co_ret.
  set (st4 := emit _ _).
  assert (Hfuel : (2 * length beats < S (S (S (S n))))%nat) by lia.
  pose proof (heartbeat_loop_stopped_pending beats Hbeats
                (S (S (S (S n)))) st4 eq_refl eq_refl eq_refl Hfuel) as Hp.
  destruct (_heartbeat_loop _ st4) as [s st5]. cbn [fst] in Hp. now subst s.
Qed.

(** The script the heartbeat task of [reconnecting_world] is left with by
    [stop] is the one the lemma above starts from. *)
Lemma stop_leaves_heartbeat_script (send_disconnect_result disconnect_result : outcome unit) :
  match stop send_disconnect_result disconnect_result reconnecting_world with
  | StopEnded _ _ => False
  | StopBlocked w' =>
      (fun t => (coro t (started t), script (started t))) <$> tasks w' !! 0%nat
      = Some (heartbeat_task (fresh_costate reconnecting_session (script_after_stop [])),
              script_after_stop [])
  end.
Proof. vm_compute. reflexivity. Qed.

(** * Further properties of the engine *)

(** ** The node database *)

(** X1. Getting or creating the entry of a node number other than the
    broadcast number always returns an entry, which is the one the database
    holds for the number afterwards; the entries of the other numbers are
    untouched; an entry that was there is returned as it is and the database
    is left as it was; and asking again returns the same entry without
    changing the database. *)
Theorem get_or_create_node_lookup (node_database : gmap Z (gmap string pyvalue))
    (node_num : Z) :
  node_num <> BROADCAST_NUM ->
  exists n node_database',
    _get_or_create_node node_database node_num = Return (n, node_database')
    /\ node_database' !! node_num = Some n
    /\ (forall other, other <> node_num -> node_database' !! other = node_database !! other)
    /\ (forall old, node_database !! node_num = Some old -> n = old /\ node_database' = node_database)
    /\ _get_or_create_node node_database' node_num = Return (n, node_database').
Proof.
  intros Hnb. unfold _get_or_create_node.
  rewrite (proj2 (Z.eqb_neq _ _) Hnb).
  destruct (node_database !! node_num) as [old|] eqn:Hold.
  - exists old, node_database. rewrite Hold.
    split; [reflexivity |]. split; [reflexivity |]. split; [reflexivity |].
    split; [| reflexivity]. intros old' [= <-]. now split.
  - eexists. eexists. split; [reflexivity |].
    rewrite lookup_insert_eq.
    split; [reflexivity |]. split; [| split; [discriminate | reflexivity]].
    intros other Hne. now rewrite lookup_insert_ne.
Qed.

Lemma get_or_create_node_lookup_witness :
  exists n node_database',
    _get_or_create_node ∅ 0x0a0b0c0d = Return (n, node_database')
    /\ node_database' !! 0x0a0b0c0d = Some n.
Proof.
  destruct (get_or_create_node_lookup ∅ 0x0a0b0c0d) as (n & db & H1 & H2 & _).
  - discriminate.
  - exists n, db. now split.
Defined.

(** The broadcast number is refused. *)
Lemma get_or_create_node_broadcast (node_database : gmap Z (gmap string pyvalue)) :
  _get_or_create_node node_database BROADCAST_NUM
  = Raise (ValueError "Broadcast Num is no valid node num").
Proof. reflexivity. Qed.

(** The entry created for a number reads back as the stub identity. *)
Lemma find_node_created (self : MeshInterface) (order : list Z) (node_num : Z)
    (user_id short_name long_name : option string)
    (n : gmap string pyvalue) (node_database' : gmap Z (gmap string pyvalue)) :
  _node_database self !! node_num = None ->
  _get_or_create_node (_node_database self) node_num = Return (n, node_database') ->
  find_node (set_node_database node_database' self) order (Some node_num)
    user_id short_name long_name
  = Return (Some (fields_of (stub_node node_num))).
Proof.
  intros Hnone. unfold _get_or_create_node.
  destruct (node_num =? BROADCAST_NUM); [discriminate |]. rewrite Hnone.
  intros [= <- <-]. unfold find_node. cbn [_node_database set_node_database].
  rewrite lookup_insert_eq.
  destruct user_id, short_name, long_name; reflexivity.
Qed.

(** X2. The identity handed to the application listeners for the sender of
    a packet is the stub identity both when the sender is unknown and when
    its entry has just been created by [_get_or_create_node]: creating the
    stub entry does not change what the listeners see. *)
Theorem listener_node_stub (self : MeshInterface) (node_num : Z)
    (n : gmap string pyvalue) (node_database' : gmap Z (gmap string pyvalue)) :
  _node_database self !! node_num = None ->
  _get_or_create_node (_node_database self) node_num = Return (n, node_database') ->
  listener_node self node_num = Return (fields_of (stub_node node_num))
  /\ listener_node (set_node_database node_database' self) node_num
     = Return (fields_of (stub_node node_num)).
Proof.
  intros Hnone Hcreate. split.
  - unfold listener_node, find_node. rewrite Hnone. reflexivity.
  - unfold listener_node.
    now rewrite (find_node_created self [] node_num None None None n node_database' Hnone Hcreate).
Qed.

Lemma listener_node_stub_witness :
  listener_node sample_session 0x11223344
  = Return (fields_of (stub_node 0x11223344)).
Proof.
  exact (proj1 (listener_node_stub sample_session 0x11223344 _ _ eq_refl eq_refl)).
Defined.

Lemma first_matching_spec (user_id short_name long_name : option string)
    (values : list (gmap string pyvalue)) :
  (forall node_info,
     first_matching user_id short_name long_name values = Return (Some node_info) ->
     exists before after,
       values = (before ++ node_info :: after)%list
       /\ Forall (fun v => matches user_id short_name long_name v = Return false) before
       /\ matches user_id short_name long_name node_info = Return true)
  /\ (first_matching user_id short_name long_name values = Return None ->
      Forall (fun v => matches user_id short_name long_name v = Return false) values).
Proof.
  induction values as [|v values [IHsome IHnone]]; cbn [first_matching].
  - split; [discriminate | constructor].
  - destruct (matches user_id short_name long_name v) as [[] | e] eqn:Hm; cbn [bind].
    + split; [| discriminate]. intros node_info [= <-]. exists [], values. auto.
    + split.
      * intros node_info Hfound. destruct (IHsome node_info Hfound) as (before & after & -> & Hb & Hn).
        exists (v :: before), after. auto.
      * intros Hnone. constructor; auto.
    + split; discriminate.
Qed.

(** X3. Looking a node up without any criterion raises [ValueError].  With
    a node number, the names given besides are not looked at and an unknown
    number gives [None].  Without a number, a node that is found is the
    first entry, in the order of insertion, that the criteria match: every
    entry before it was tested and did not match; and [None] means that no
    entry matched. *)
Theorem find_node_search (self : MeshInterface) (insertion_order : list Z)
    (user_id short_name long_name : option string) :
  find_node self insertion_order None None None None
  = Raise (ValueError "Most provide node_id, user_id, short_name or long_name")
  /\ (forall node_id,
        find_node self insertion_order (Some node_id) user_id short_name long_name
        = find_node self insertion_order (Some node_id) None None None)
  /\ (forall node_id,
        _node_database self !! node_id = None ->
        find_node self insertion_order (Some node_id) user_id short_name long_name
        = Return None)
  /\ (forall found,
        find_node self insertion_order None user_id short_name long_name = Return (Some found) ->
        exists before node_info after,
          values_in_order (_node_database self) insertion_order
          = (before ++ node_info :: after)%list
          /\ Forall (fun v => matches user_id short_name long_name v = Return false) before
          /\ matches user_id short_name long_name node_info = Return true
          /\ dict_item node_info "num" = Return (field_id found))
  /\ (find_node self insertion_order None user_id short_name long_name = Return None ->
      Forall (fun v => matches user_id short_name long_name v = Return false)
        (values_in_order (_node_database self) insertion_order)).
Proof.
  split; [reflexivity |].
  split; [intros node_id; unfold find_node;
          destruct user_id, short_name, long_name; reflexivity |].
  split; [intros node_id Hnone; unfold find_node; rewrite Hnone;
          destruct user_id, short_name, long_name; reflexivity |].
  destruct (first_matching_spec user_id short_name long_name
              (values_in_order (_node_database self) insertion_order)) as [Hsome Hnone].
  assert (Hsearch : forall r,
            find_node self insertion_order None user_id short_name long_name = Return r ->
            match first_matching user_id short_name long_name
                    (values_in_order (_node_database self) insertion_order) with
            | Return None => r = None
            | Return (Some node_info) =>
                exists found, r = Some found /\ dict_item node_info "num" = Return (field_id found)
            | Raise _ => False
            end).
  { intros r. unfold find_node.
    destruct (first_matching _ _ _ _) as [[node_info|] | e]; cbn [bind].
    - intros Hr.
      assert (Hbody :
        (let* num := dict_item node_info "num" in
         let* user := dict_item node_info "user" in
         let* uid := py_subscript user "id" in
         let* user := dict_item node_info "user" in
         let* short := py_subscript user "shortName" in
         let* user := dict_item node_info "user" in
         let* long := py_subscript user "longName" in
         Return (Some {| field_id := num; field_user_id := uid;
                         field_short_name := short; field_long_name := long |})) = Return r)
        by (destruct user_id, short_name, long_name; try discriminate; exact Hr).
      clear Hr. destruct (dict_item node_info "num") as [num|]; cbn [bind] in Hbody;
        [| discriminate].
      destruct (dict_item node_info "user") as [user|]; cbn [bind] in Hbody; [| discriminate].
      destruct (py_subscript user "id"); cbn [bind] in Hbody; [| discriminate].
      destruct (py_subscript user "shortName"); cbn [bind] in Hbody; [| discriminate].
      destruct (py_subscript user "longName"); cbn [bind] in Hbody; [| discriminate].
      injection Hbody as <-. eexists. split; reflexivity.
    - destruct user_id, short_name, long_name; try discriminate; now intros [= <-].
    - destruct user_id, short_name, long_name; discriminate. }
  split.
  - intros found Hfound. specialize (Hsearch _ Hfound).
    destruct (first_matching _ _ _ _) as [[node_info|] | e]; try contradiction; try discriminate.
    destruct Hsearch as (found' & [= <-] & Hnum).
    destruct (Hsome node_info eq_refl) as (before & after & Hv & Hb & Hm).
    exists before, node_info, after. auto.
  - intros Hnf. specialize (Hsearch _ Hnf).
    destruct (first_matching _ _ _ _) as [[node_info|] | e]; try contradiction.
    + destruct Hsearch as (found' & Hd & _). discriminate.
    + now apply Hnone.
Qed.

(** ** Channel look-up *)

(** X4. A channel found by index is never a disabled one: the index names
    a channel of the list whose role is not [DISABLED], the record carries
    that index and the name of that channel, and a name given besides is
    that name. *)
Theorem find_channel_by_index_enabled (self : MeshInterface) (i : Z) (name : option string)
    (found : MeshChannel) :
  find_channel self (Some i) name = Return (Some found) ->
  exists channel,
    py_getitem (_connected_node_channels self) i = Return channel
    /\ channel_pb2.role channel <> channel_pb2.DISABLED
    /\ found = {| index := Some i; name := channel_pb2.name (channel_pb2.settings channel) |}
    /\ (forall nm, name = Some nm -> channel_pb2.name (channel_pb2.settings channel) = nm).
Proof.
  unfold find_channel. destruct (_connected_node_info self); [| discriminate].
  destruct (py_len (_connected_node_channels self)) as [n|]; cbn [bind]; [| discriminate].
  destruct (n <? i); [discriminate |].
  destruct (py_getitem (_connected_node_channels self) i) as [channel|]; cbn [bind];
    [| discriminate].
  destruct (channel_pb2.role channel) eqn:Hrole; cbn [channel_pb2.Role_eqb]; try discriminate.
  all: destruct name as [nm|];
    [destruct (String.eqb_spec (channel_pb2.name (channel_pb2.settings channel)) nm) as [Hnm | Hnm];
     cbn [negb]; [| discriminate] |];
    intros [= <-]; exists channel;
    (split; [reflexivity |]); (split; [rewrite Hrole; discriminate |]);
    (split; [reflexivity |]); intros nm' Heq;
    first [discriminate Heq | injection Heq as <-; exact Hnm].
Qed.

Lemma find_channel_by_index_enabled_witness :
  exists channel,
    py_getitem (_connected_node_channels sample_session) 2 = Return channel
    /\ channel_pb2.role channel <> channel_pb2.DISABLED.
Proof.
  destruct (find_channel_by_index_enabled sample_session 2 (Some "Admin")
              {| index := Some 2; name := "Admin" |} eq_refl) as (channel & H1 & H2 & _).
  exists channel. now split.
Defined.

Lemma first_enabled_named_spec (nm : string) (channels : list channel_pb2.Channel) :
  match first_enabled_named nm channels with
  | Some channel =>
      exists before after,
        channels = (before ++ channel :: after)%list
        /\ channel_pb2.name (channel_pb2.settings channel) = nm
        /\ channel_pb2.role channel <> channel_pb2.DISABLED
        /\ Forall (fun c => channel_pb2.name (channel_pb2.settings c) = nm ->
                            channel_pb2.role c = channel_pb2.DISABLED) before
  | None =>
      Forall (fun c => channel_pb2.name (channel_pb2.settings c) = nm ->
                       channel_pb2.role c = channel_pb2.DISABLED) channels
  end.
Proof.
  induction channels as [|c channels IH]; cbn [first_enabled_named]; [constructor |].
  destruct (String.eqb_spec (channel_pb2.name (channel_pb2.settings c)) nm) as [Hnm | Hnm];
    cbn [andb].
  - destruct (channel_pb2.role c) eqn:Hrole; cbn [channel_pb2.Role_eqb negb].
    + destruct (first_enabled_named nm channels) as [channel|].
      * destruct IH as (before & after & -> & H1 & H2 & H3).
        exists (c :: before), after. repeat split; auto.
      * constructor; auto.
    + exists [], channels. rewrite Hrole. repeat split; auto.
    + exists [], channels. rewrite Hrole. repeat split; auto.
  - destruct (first_enabled_named nm channels) as [channel|].
    + destruct IH as (before & after & -> & H1 & H2 & H3).
      exists (c :: before), after. repeat split; auto. constructor; [contradiction | auto].
    + constructor; [contradiction | auto].
Qed.

(** X5. Looking a channel up by name alone, with the local device known
    and a channel list present, never raises.  A channel that is found is
    the first channel of the list that has the name and is not disabled; the
    record returned carries the name and no index ([None]).  The answer is
    [None] exactly when every channel of that name is disabled. *)
Theorem find_channel_by_name (self : MeshInterface) (info : mesh_pb2.MyNodeInfo)
    (channels : list channel_pb2.Channel) (nm : string) :
  _connected_node_info self = Some info ->
  _connected_node_channels self = Some channels ->
  (exists before channel after,
     channels = (before ++ channel :: after)%list
     /\ channel_pb2.name (channel_pb2.settings channel) = nm
     /\ channel_pb2.role channel <> channel_pb2.DISABLED
     /\ Forall (fun c => channel_pb2.name (channel_pb2.settings c) = nm ->
                         channel_pb2.role c = channel_pb2.DISABLED) before
     /\ find_channel self None (Some nm) = Return (Some {| index := None; name := nm |}))
  \/ (Forall (fun c => channel_pb2.name (channel_pb2.settings c) = nm ->
                       channel_pb2.role c = channel_pb2.DISABLED) channels
      /\ find_channel self None (Some nm) = Return None).
Proof.
  intros Hinfo Hch. unfold find_channel. rewrite Hinfo, Hch.
  pose proof (first_enabled_named_spec nm channels) as Hspec.
  destruct (first_enabled_named nm channels) as [channel|].
  - left. destruct Hspec as (before & after & -> & H1 & H2 & H3).
    exists before, channel, after. rewrite H1. auto.
  - right. auto.
Qed.

Lemma find_channel_by_name_witness :
  find_channel sample_session None (Some "LongFast")
  = Return (Some {| index := None; name := "LongFast" |}).
Proof.
  destruct (find_channel_by_name sample_session _ _ "LongFast" eq_refl eq_refl)
    as [(before & channel & after & _ & _ & _ & _ & H) | [_ H]]; [exact H |].
  discriminate H.
Defined.

(** Without the identity of the local device every look-up answers
    [None]. *)
Lemma find_channel_unknown_device (self : MeshInterface) (index : option Z)
    (name : option string) :
  _connected_node_info self = None ->
  (index <> None \/ name <> None) ->
  find_channel self index name = Return None.
Proof.
  intros Hinfo Hgiven. unfold find_channel. rewrite Hinfo.
  destruct index, name; try reflexivity. destruct Hgiven; contradiction.
Qed.

(** ** Text messages *)

(** X6. Every text message that is submitted goes to the text port, never
    asks for a response, asks for an acknowledgement exactly when
    [want_ack] is set, has the priority [RELIABLE] then and [DEFAULT]
    otherwise, and carries the text and no sender. *)
Theorem send_text_packet_shape (int_base16 : string -> outcome Z) (self : MeshInterface)
    (text : string) (dest : destination) (want_ack : bool) (channel_index : option Z)
    (call : send_mesh_packet_call) :
  send_text_message int_base16 self text dest want_ack channel_index = Return call ->
  call_port_num call = TEXT_MESSAGE_APP
  /\ call_want_response call = false
  /\ call_ack call = want_ack
  /\ call_priority call = (if want_ack then RELIABLE else DEFAULT)
  /\ call_message call = text
  /\ call_from_node call = None.
Proof.
  unfold send_text_message.
  destruct (resolve_destination int_base16 dest channel_index) as [[to_node ci]|];
    cbn [bind fst snd]; [| discriminate].
  match goal with |- (let* _ := ?check in _) = _ -> _ => destruct check end;
    cbn [bind]; [| discriminate].
  intros [= <-]. repeat split.
Qed.

Lemma send_text_packet_shape_witness :
  call_priority
    {| call_channel_index := Some 0; call_to_node := 0x11223344; call_message := "hello";
       call_port_num := TEXT_MESSAGE_APP; call_priority := RELIABLE;
       call_want_response := false; call_ack := true; call_from_node := None |}
  = RELIABLE.
Proof.
  exact (proj1 (proj2 (proj2 (proj2
    (send_text_packet_shape no_numeral sample_session "hello" (DestInt 0x11223344) true
       (Some 0) _ eq_refl))))).
Defined.

(** X7. Who a text message is addressed to, when no channel index is in
    force: a [MeshNode] destination gives its number, a [MeshChannel]
    destination with no index, the string ["^all"] and any destination that
    is neither a node, a channel, a string nor a number give the broadcast
    number, a number gives itself; a string that is not ["^all"] and does not
    start with ["!"] is refused with [ValueError] and nothing is
    submitted. *)
Theorem send_text_addressee (int_base16 : string -> outcome Z) (self : MeshInterface)
    (text : string) (want_ack : bool) :
  (forall n channel_index,
     exists call,
       send_text_message int_base16 self text (DestMeshNode n) want_ack channel_index
       = Return call
       /\ call_to_node call = id n /\ call_channel_index call = None)
  /\ (forall nm channel_index,
        exists call,
          send_text_message int_base16 self text
            (DestMeshChannel {| index := None; name := nm |}) want_ack channel_index
          = Return call
          /\ call_to_node call = BROADCAST_NUM /\ call_channel_index call = None)
  /\ (exists call,
        send_text_message int_base16 self text (DestStr "^all") want_ack None = Return call
        /\ call_to_node call = BROADCAST_NUM)
  /\ (exists call,
        send_text_message int_base16 self text DestOther want_ack None = Return call
        /\ call_to_node call = BROADCAST_NUM)
  /\ (forall i,
        exists call,
          send_text_message int_base16 self text (DestInt i) want_ack None = Return call
          /\ call_to_node call = i)
  /\ (forall s channel_index,
        s <> "^all" -> String.prefix "!" s = false ->
        send_text_message int_base16 self text (DestStr s) want_ack channel_index
        = Raise (ValueError "Not a valid user id")).
Proof.
  split; [intros n ci; eexists; split; [reflexivity | split; reflexivity] |].
  split; [intros nm ci; eexists; split; [reflexivity | split; reflexivity] |].
  split; [eexists; split; reflexivity |].
  split; [eexists; split; reflexivity |].
  split; [intros i; eexists; split; reflexivity |].
  intros s ci Hall Hbang. unfold send_text_message, resolve_destination.
  rewrite (proj2 (String.eqb_neq s BROADCAST_ADDR) Hall).
  destruct s as [|a rest]; [reflexivity |].
  destruct (Ascii.eqb_spec a "!"%char) as [-> | Hne].
  - cbn in Hbang. destruct rest; discriminate.
  - destruct a as [[] [] [] [] [] [] [] []]; try reflexivity. now destruct Hne.
Qed.

Lemma hex_value_from_append (s1 s2 : string) :
  forall acc v, hex_value_from acc s1 = Some v ->
                hex_value_from acc (s1 ++ s2) = hex_value_from v s2.
Proof.
  induction s1 as [|c s1 IH]; intros acc v.
  - now intros [= <-].
  - rewrite append_cons. cbn [hex_value_from].
    destruct (hex_digit_value c); [apply IH | discriminate].
Qed.

Lemma hex_digit_value_digit (d : Z) :
  0 <= d < 16 -> hex_digit_value (hex_digit d) = Some d.
Proof.
  intros Hd.
  assert (d = 0 \/ d = 1 \/ d = 2 \/ d = 3 \/ d = 4 \/ d = 5 \/ d = 6 \/ d = 7 \/ d = 8
          \/ d = 9 \/ d = 10 \/ d = 11 \/ d = 12 \/ d = 13 \/ d = 14 \/ d = 15) as H by lia.
  repeat (destruct H as [-> | H]; [reflexivity |]). now subst.
Qed.

(** Reading the [k]-digit numeral of a number gives the number back. *)
Lemma hex_value_fixed (k : nat) :
  forall n, 0 <= n < 16 ^ Z.of_nat k -> hex_value_from 0 (hex_fixed k n) = Some n.
Proof.
  induction k as [|k IH]; intros n Hn.
  - cbn in *. f_equal. lia.
  - cbn [hex_fixed].
    assert (Hq : 0 <= n / 16 < 16 ^ Z.of_nat k).
    { split; [apply Z.div_pos; lia |]. apply Z.div_lt_upper_bound; [lia |].
      rewrite Nat2Z.inj_succ, Z.pow_succ_r in Hn by lia. lia. }
    rewrite (hex_value_from_append _ _ 0 (n / 16) (IH _ Hq)).
    cbn [hex_value_from].
    rewrite hex_digit_value_digit by (apply Z.mod_pos_bound; lia).
    f_equal. pose proof (Z.div_mod n 16 ltac:(lia)). lia.
Qed.

(** The user id of a stub node, for a number of 32 bits. *)
Lemma stub_identity_deterministic_parts (n : Z) :
  0 <= n < 2 ^ 32 ->
  user_id (stub_node n) = String "!" (hex_fixed 8 n)
  /\ String.length (hex_fixed 8 n) = 8%nat.
Proof.
  intros Hn. split; [| apply length_hex_fixed].
  unfold stub_node. cbn [user_id]. now rewrite format_08x_fixed.
Qed.

(** X8. The user id of a stub node is an address of that node: with a
    parser that reads strings of lowercase hexadecimal digits the way
    [int(s, 16)] does, a text message sent to the string
    [stub_node(n).user_id], for a node number [n] of 32 bits, is submitted
    to the node [n]. *)
Theorem send_text_to_stub_user_id (int_base16 : string -> outcome Z) (self : MeshInterface)
    (text : string) (want_ack : bool) (n : Z) :
  (forall s v, s <> "" -> hex_value_from 0 s = Some v -> int_base16 s = Return v) ->
  0 <= n < 2 ^ 32 ->
  exists call,
    send_text_message int_base16 self text (DestStr (user_id (stub_node n))) want_ack None
    = Return call
    /\ call_to_node call = n.
Proof.
  intros Hparse Hn.
  destruct (stub_identity_deterministic_parts n Hn) as [Hid Hlen].
  unfold send_text_message, resolve_destination. rewrite Hid.
  cbn [String.eqb BROADCAST_ADDR Ascii.eqb Bool.eqb].
  rewrite (Hparse (hex_fixed 8 n) n).
  - eexists. split; reflexivity.
  - intros Hempty. rewrite Hempty in Hlen. discriminate.
  - apply (hex_value_fixed 8). exact Hn.
Qed.

Lemma send_text_to_stub_user_id_witness :
  exists call,
    send_text_message int_of_hex_digits sample_session "hello"
      (DestStr (user_id (stub_node 0x12ab34cd))) false None
    = Return call
    /\ call_to_node call = 0x12ab34cd.
Proof.
  apply (send_text_to_stub_user_id int_of_hex_digits sample_session "hello" false 0x12ab34cd).
  - intros s v Hne Hv. unfold int_of_hex_digits. rewrite Hv. destruct s; [contradiction | reflexivity].
  - lia.
Defined.

(** X9. The bounds of the channel index of a text message, for a
    destination given as a number: an index above the number of channels is
    refused with [ValueError]; the index equal to the number of channels
    passes the guard and raises [IndexError]; a negative index from
    [-len] to [-1] is checked against the channel counted from the end and,
    when that channel is not disabled, the message is submitted with the
    negative index as it was given. *)
Theorem send_text_index_bounds (int_base16 : string -> outcome Z) (self : MeshInterface)
    (text : string) (to_node : Z) (want_ack : bool) (channels : list channel_pb2.Channel) :
  _connected_node_channels self = Some channels ->
  let len := Z.of_nat (length channels) in
  (forall i, len < i ->
     send_text_message int_base16 self text (DestInt to_node) want_ack (Some i)
     = Raise (ValueError "Unavailable channel index"))
  /\ send_text_message int_base16 self text (DestInt to_node) want_ack (Some len)
     = Raise IndexError
  /\ (forall i channel,
        - len <= i < 0 ->
        channels !! Z.to_nat (len + i) = Some channel ->
        channel_pb2.role channel <> channel_pb2.DISABLED ->
        exists call,
          send_text_message int_base16 self text (DestInt to_node) want_ack (Some i)
          = Return call
          /\ call_channel_index call = Some i).
Proof.
  intros Hch len. unfold send_text_message. cbn [resolve_destination bind fst snd].
  rewrite Hch, py_len_some. cbn [bind]. fold len.
  split; [| split].
  - intros i Hi. now rewrite (proj2 (Z.ltb_lt _ _) Hi).
  - rewrite Z.ltb_irrefl. unfold len. now rewrite py_getitem_len.
  - intros i channel Hi Hlookup Hrole.
    rewrite (proj2 (Z.ltb_ge _ _)) by lia.
    unfold py_getitem. rewrite (proj2 (Z.ltb_lt i 0)) by lia.
    rewrite (proj2 (Z.ltb_ge _ _)) by (unfold len in Hi; lia).
    replace (i + Z.of_nat (length channels)) with (len + i) by (unfold len; lia).
    rewrite Hlookup. cbn [bind].
    destruct (channel_pb2.role channel); [contradiction | |];
      cbn; eexists; split; reflexivity.
Qed.

Lemma send_text_index_bounds_witness :
  send_text_message no_numeral sample_session "hello" (DestInt 0x11223344) false (Some 3)
  = Raise IndexError
  /\ exists call,
       send_text_message no_numeral sample_session "hello" (DestInt 0x11223344) false
         (Some (-1))
       = Return call
       /\ call_channel_index call = Some (-1).
Proof.
  destruct (send_text_index_bounds no_numeral sample_session "hello" 0x11223344 false _ eq_refl)
    as (_ & Hlen & Hneg).
  split; [exact Hlen |].
  apply (Hneg (-1) sample_admin); [cbn; lia | reflexivity | discriminate].
Defined.

(** ** The request/response correlator *)







(** ** Admin and telemetry requests *)

(** X12. An admin request with no node given, or with the number of the
    local device, is submitted to the local device on channel 0, on the
    admin port, reliably, with an acknowledgement asked and a response asked
    exactly when one is expected.  While the identity of the local device is
    not known, every admin request raises [AttributeError], whatever node
    it names, and nothing is submitted. *)
Theorem admin_request_to_local_device (self : MeshInterface) (message : string)
    (timeout : option Z) (expect_response : bool) (events : list (Z * connection_event)) :
  (forall info node,
     _connected_node_info self = Some info ->
     node = None \/ node = Some (mesh_pb2.my_node_num info) ->
     exists elapsed result,
       send_admin_message_await_response self node message timeout expect_response events
       = Return ({| call_channel_index := Some 0;
                    call_to_node := mesh_pb2.my_node_num info;
                    call_message := message;
                    call_port_num := ADMIN_APP;
                    call_priority := RELIABLE;
                    call_want_response := expect_response;
                    call_ack := true;
                    call_from_node := None |}, elapsed, result))
  /\ (forall node,
        _connected_node_info self = None ->
        send_admin_message_await_response self node message timeout expect_response events
        = Raise AttributeError
        /\ forall to_node ack, send_admin_message self to_node message ack = Raise AttributeError).
Proof.
  split.
  - intros info node Hinfo Hnode.
    assert (Hchan : _get_admin_channel_index self (mesh_pb2.my_node_num info) = Return 0).
    { unfold _get_admin_channel_index. now rewrite Hinfo, Z.eqb_refl. }
    unfold send_admin_message_await_response. rewrite Hinfo.
    destruct Hnode as [-> | ->]; cbn [bind]; rewrite Hchan; cbn [bind];
      eexists; eexists; reflexivity.
  - intros node Hinfo. split.
    + unfold send_admin_message_await_response. rewrite Hinfo.
      destruct node as [n|]; cbn [bind]; [| reflexivity].
      unfold _get_admin_channel_index. now rewrite Hinfo.
    + intros to_node ack. unfold send_admin_message, _get_admin_channel_index.
      now rewrite Hinfo.
Qed.




(** ** Frames about the connected device *)







(** ** Topology frames and telemetry *)

Lemma update_lookup (new old : gmap string pyvalue) (key : string) :
  (new ∪ old) !! key = match new !! key with Some v => Some v | None => old !! key end.
Proof.
  destruct (new !! key) as [v|] eqn:Hnew.
  - now apply lookup_union_Some_l.
  - now apply lookup_union_r.
Qed.

(** The part of the look-up property that other proofs use. *)
Lemma get_or_create_node_lookup_parts (node_database : gmap Z (gmap string pyvalue))
    (node_num : Z) :
  node_num <> BROADCAST_NUM ->
  exists n node_database',
    _get_or_create_node node_database node_num = Return (n, node_database')
    /\ (forall other, other <> node_num -> node_database' !! other = node_database !! other).
Proof.
  intros Hnb. unfold _get_or_create_node.
  rewrite (proj2 (Z.eqb_neq _ _) Hnb).
  destruct (node_database !! node_num) as [old|] eqn:Hold.
  - exists old, node_database. auto.
  - eexists. eexists. split; [reflexivity |].
    intros other Hne. now rewrite lookup_insert_ne.
Qed.

(** X18. A frame without node info, and a node-info frame for the
    broadcast number, leave the node database as it was.  A node-info frame
    for another number leaves the entries of the other numbers as they were
    and merges its fields into the entry of its number, or into the stub
    entry when there was none: apart from the position, each field of the
    frame overwrites the field of the entry and every other field of the
    entry is retained. *)
Theorem process_node_info_merge (degrees : Z -> pyvalue)
    (node_database : gmap Z (gmap string pyvalue)) (num : Z)
    (node_info_dict : gmap string pyvalue) :
  _process_node_info degrees node_database None = node_database
  /\ _process_node_info degrees node_database (Some (BROADCAST_NUM, node_info_dict))
     = node_database
  /\ (num <> BROADCAST_NUM ->
      let node_database' :=
        _process_node_info degrees node_database (Some (num, node_info_dict)) in
      (forall other, other <> num -> node_database' !! other = node_database !! other)
      /\ exists base created entry,
           _get_or_create_node node_database num = Return (base, created)
           /\ node_database' !! num = Some entry
           /\ forall key,
                key <> "position" ->
                entry !! key = match node_info_dict !! key with
                               | Some v => Some v
                               | None => base !! key
                               end).
Proof.
  split; [reflexivity |]. split; [reflexivity |].
  intros Hnb node_database'.
  destruct (get_or_create_node_lookup_parts node_database num Hnb)
    as (base & created & Hcreate & Hother).
  subst node_database'. unfold _process_node_info. rewrite Hcreate.
  destruct ((node_info_dict ∪ base) !! "position") as [position|] eqn:Hpos.
  - split.
    + intros other Hne. rewrite lookup_insert_ne by congruence. now apply Hother.
    + exists base, created. eexists. split; [reflexivity |].
      rewrite lookup_insert_eq. split; [reflexivity |].
      intros key Hkey. rewrite lookup_insert_ne by congruence. apply update_lookup.
  - split.
    + intros other Hne. rewrite lookup_insert_ne by congruence. now apply Hother.
    + exists base, created. eexists. split; [reflexivity |].
      rewrite lookup_insert_eq. split; [reflexivity |].
      intros key Hkey. apply update_lookup.
Qed.

Lemma process_node_info_merge_witness :
  exists entry,
    _process_node_info (fun n => PyInt n) ∅
      (Some (0x11223344, {[ "num" := PyInt 0x11223344; "snr" := PyInt 7 ]})) !! 0x11223344
    = Some entry
    /\ entry !! "snr" = Some (PyInt 7).
Proof.
  destruct (proj2 (proj2 (process_node_info_merge (fun n => PyInt n) ∅ 0x11223344
              {[ "num" := PyInt 0x11223344; "snr" := PyInt 7 ]})) ltac:(discriminate))
    as (_ & base & created & entry & _ & Hentry & Hkeys).
  exists entry. split; [exact Hentry |].
  rewrite (Hkeys "snr") by discriminate. reflexivity.
Defined.



(** ** Application listeners *)

Lemma list_remove_app_fresh (x : nat) (l : list nat) :
  x ∉ l -> list_remove x (l ++ [x]) = Some l.
Proof.
  induction l as [|y l IH]; intros Hfresh; cbn [app list_remove].
  - now rewrite Nat.eqb_refl.
  - apply not_elem_of_cons in Hfresh as [Hne Hfresh].
    rewrite (proj2 (Nat.eqb_neq y x)) by congruence. now rewrite IH.
Qed.

Lemma list_remove_absent (x : nat) (l : list nat) : x ∉ l -> list_remove x l = None.
Proof.
  induction l as [|y l IH]; intros Hfresh; cbn [list_remove]; [reflexivity |].
  apply not_elem_of_cons in Hfresh as [Hne Hfresh].
  rewrite (proj2 (Nat.eqb_neq y x)) by congruence. now rewrite IH.
Qed.

(** X21. Registering an application listener with both [as_dict] and
    [as_packet] raises [ValueError] and registers nothing.  Otherwise the
    new listener is put after the listeners already registered for its
    port, the other ports are left as they were, and calling the function
    that was returned takes it out again: every port then reads as before.
    Calling that function a second time raises [ValueError]. *)
Theorem app_listener_round_trip (app_listeners : gmap Z (list nat)) (packet_type : Z)
    (wrapper : nat) (as_dict as_packet : bool) :
  wrapper ∉ listeners_of app_listeners packet_type ->
  add_packet_app_listener app_listeners packet_type wrapper true true
  = Raise (ValueError "as_dict and as_packet are mutually exclusive")
  /\ (as_dict && as_packet = false ->
      exists registered,
        add_packet_app_listener app_listeners packet_type wrapper as_dict as_packet
        = Return registered
        /\ listeners_of registered packet_type
           = (listeners_of app_listeners packet_type ++ [wrapper])%list
        /\ (forall other, other <> packet_type ->
                          listeners_of registered other = listeners_of app_listeners other)
        /\ snd (remove_app_listener registered packet_type wrapper) = Return tt
        /\ (forall port,
              listeners_of (fst (remove_app_listener registered packet_type wrapper)) port
              = listeners_of app_listeners port)
        /\ exists msg,
             snd (remove_app_listener
                    (fst (remove_app_listener registered packet_type wrapper))
                    packet_type wrapper)
             = Raise (ValueError msg)).
Proof.
  intros Hfresh. split; [reflexivity |].
  intros Hflags. unfold add_packet_app_listener. rewrite Hflags.
  eexists. split; [reflexivity |].
  assert (Hreg : listeners_of
                   (<[packet_type := (listeners_of app_listeners packet_type ++ [wrapper])%list]>
                      app_listeners) packet_type
                 = (listeners_of app_listeners packet_type ++ [wrapper])%list).
  { unfold listeners_of at 1. now rewrite lookup_insert_eq. }
  split; [exact Hreg |].
  split.
  { intros other Hne. unfold listeners_of at 1. now rewrite lookup_insert_ne by congruence. }
  unfold remove_app_listener. rewrite Hreg, (list_remove_app_fresh _ _ Hfresh). cbn [fst snd].
  split; [reflexivity |].
  assert (Hback : forall port,
            listeners_of (<[packet_type := listeners_of app_listeners packet_type]>
                            (<[packet_type := (listeners_of app_listeners packet_type
                                               ++ [wrapper])%list]> app_listeners)) port
            = listeners_of app_listeners port).
  { intros port. unfold listeners_of at 1. destruct (decide (packet_type = port)) as [<- | Hne].
    - now rewrite lookup_insert_eq.
    - now rewrite !lookup_insert_ne by exact Hne. }
  split; [exact Hback |].
  rewrite Hback, (list_remove_absent _ _ Hfresh). cbn [snd]. eauto.
Qed.

Lemma app_listener_round_trip_witness :
  exists registered,
    add_packet_app_listener ∅ 67 0%nat false true = Return registered
    /\ listeners_of registered 67 = [0%nat].
Proof.
  destruct (proj2 (app_listener_round_trip ∅ 67 0%nat false true
                     ltac:(unfold listeners_of; rewrite lookup_empty; apply not_elem_of_nil)) eq_refl)
    as (registered & Hadd & Hreg & _).
  exists registered. split; [exact Hadd | exact Hreg].
Defined.

(** ** The reconnection loop, cancelled or successful *)

(** X22. A cancellation that reaches the reconnection loop of a running
    session while it waits for the lock, for the reconnect or for the config
    request ends the loop with a normal return, so the caller goes on
    uncancelled; the lock, if it was held, is released and the ready flag is
    not set.  A cancellation that reaches it during the backoff sleep is not
    caught and leaves the loop as [CancelledError]. *)
Theorem reconnect_cancellation (fuel : nat) (force : bool) (st : costate) :
  _is_running (self_ st) = true ->
  (forall lock rest,
     script st = lock :: rest -> woke lock = Raise CancelledError ->
     _reconnect_while_running (S fuel) force st
     = (Returned tt, resumed AcquireReconnectLock lock rest st))
  /\ (forall lock r1 rest v0,
        script st = lock :: r1 :: rest -> woke lock = Return v0 ->
        woke r1 = Raise CancelledError ->
        _reconnect_while_running (S fuel) force st
        = (Returned tt,
           emit ReleaseReconnectLock
             (resumed (Reconnect force 30) r1 rest
                (resumed AcquireReconnectLock lock (r1 :: rest) st))))
  /\ (forall lock r1 r2 rest v0 v1,
        script st = lock :: r1 :: r2 :: rest -> woke lock = Return v0 ->
        woke r1 = Return v1 -> truthy v1 = true ->
        woke r2 = Raise CancelledError ->
        exists st',
          _reconnect_while_running (S fuel) force st = (Returned tt, st')
          /\ _connected_node_ready (self_ st') = ready_now r2
          /\ trace st' =
             (trace st ++ [AcquireReconnectLock; Reconnect force 30;
                           RequestConfig (no_nodes (self_ st)) 60;
                           ReleaseReconnectLock])%list)
  /\ (forall lock r1 r2 rest v0 e,
        script st = lock :: r1 :: r2 :: rest -> woke lock = Return v0 ->
        woke r1 = Raise e -> other_failure e ->
        woke r2 = Raise CancelledError ->
        exists st',
          _reconnect_while_running (S fuel) force st = (Raised CancelledError, st')).
Proof.
  intros Hrun. split; [| split; [| split]].
  - intros lock rest Hs Hlock. rewrite (reconnect_loop_head fuel force st Hrun).
    run_iteration. now rewrite (await_answered _ _ _ _ Hs), Hlock.
  - intros lock r1 rest v0 Hs Hlock Hr1. rewrite (reconnect_loop_head fuel force st Hrun).
    run_iteration. rewrite (await_answered _ _ _ _ Hs), Hlock.
    now rewrite (await_answered _ (resumed _ lock _ st) r1 rest eq_refl), Hr1.
  - intros lock r1 r2 rest v0 v1 Hs Hlock Hr1 Htrue Hr2.
    rewrite (reconnect_loop_head fuel force st Hrun).
    run_iteration. rewrite (await_answered _ _ _ _ Hs), Hlock.
    rewrite (await_answered _ (resumed _ lock _ st) r1 (r2 :: rest) eq_refl), Hr1, Htrue.
    rewrite (await_answered _ (resumed _ r1 _ _) r2 rest eq_refl), Hr2.
    eexists. split; [reflexivity |]. split; [reflexivity |].
    cbn. now rewrite <- !app_assoc.
  - intros lock r1 r2 rest v0 e Hs Hlock Hr1 [Hnt Hnc] Hr2.
    rewrite (reconnect_loop_head fuel force st Hrun).
    run_iteration. rewrite (await_answered _ _ _ _ Hs), Hlock.
    rewrite (await_answered _ (resumed _ lock _ st) r1 (r2 :: rest) eq_refl), Hr1.
    destruct e; try contradiction;
      (erewrite await_answered by reflexivity); rewrite Hr2; eexists; reflexivity.
Qed.

Lemma reconnect_cancellation_witness :
  _reconnect_while_running 1 true
    (fresh_costate reconnecting_session [after_stop (Raise CancelledError)])
  = (Returned tt,
     resumed AcquireReconnectLock (after_stop (Raise CancelledError)) []
       (fresh_costate reconnecting_session [after_stop (Raise CancelledError)])).
Proof.
  exact (proj1 (reconnect_cancellation 0 true
                  (fresh_costate reconnecting_session [after_stop (Raise CancelledError)])
                  eq_refl) _ _ eq_refl eq_refl).
Defined.

(** X23. How the reconnection loop of a running session ends well.  When
    the reconnect reports a new connection and the config request returns,
    the loop returns with the ready flag set, and it is the loop that sets
    it exactly when it was not set before.  When the reconnect reports that
    no new connection was made, the loop returns at once: no config request
    is made and the ready flag is left as it was.  A session that is not
    running makes the loop return without doing anything. *)
Theorem reconnect_success (fuel : nat) (force : bool) (st : costate) :
  (_is_running (self_ st) = true ->
   (forall lock r1 r2 rest v0 v1 v2,
      script st = lock :: r1 :: r2 :: rest -> woke lock = Return v0 ->
      woke r1 = Return v1 -> truthy v1 = true -> woke r2 = Return v2 ->
      exists st',
        _reconnect_while_running (S fuel) force st = (Returned tt, st')
        /\ _connected_node_ready (self_ st') = true
        /\ script st' = rest
        /\ trace st' =
           (trace st ++ [AcquireReconnectLock; Reconnect force 30;
                         RequestConfig (no_nodes (self_ st)) 60]
            ++ (if ready_now r2 then [] else [SetReady])
            ++ [ReleaseReconnectLock])%list)
   /\ (forall lock r1 rest v0 v1,
         script st = lock :: r1 :: rest -> woke lock = Return v0 ->
         woke r1 = Return v1 -> truthy v1 = false ->
         exists st',
           _reconnect_while_running (S fuel) force st = (Returned tt, st')
           /\ _connected_node_ready (self_ st') = ready_now r1
           /\ script st' = rest
           /\ trace st' =
              (trace st ++ [AcquireReconnectLock; Reconnect force 30;
                            ReleaseReconnectLock])%list))
  /\ (_is_running (self_ st) = false ->
      _reconnect_while_running (S fuel) force st = (Returned tt, st)).
Proof.
  split; [| apply reconnect_loop_stopped].
  intros Hrun. split.
  - intros lock r1 r2 rest v0 v1 v2 Hs Hlock Hr1 Htrue Hr2.
    rewrite (reconnect_loop_head fuel force st Hrun).
    run_iteration. rewrite (await_answered _ _ _ _ Hs), Hlock.
    rewrite (await_answered _ (resumed _ lock _ st) r1 (r2 :: rest) eq_refl), Hr1, Htrue.
    rewrite (await_answered _ (resumed _ r1 _ _) r2 rest eq_refl), Hr2.
    cbn [resumed self_ _connected_node_ready set_connected_node_ready].
    destruct (ready_now r2) eqn:Hready; cbn [negb]; eexists; (split; [reflexivity |]);
      (split; [cbn; try rewrite Hready; reflexivity |]); (split; [reflexivity |]);
      cbn; now rewrite <- !app_assoc.
  - intros lock r1 rest v0 v1 Hs Hlock Hr1 Hfalse.
    rewrite (reconnect_loop_head fuel force st Hrun).
    run_iteration. rewrite (await_answered _ _ _ _ Hs), Hlock.
    rewrite (await_answered _ (resumed _ lock _ st) r1 rest eq_refl), Hr1, Hfalse.
    eexists. split; [reflexivity |]. split; [reflexivity |]. split; [reflexivity |].
    cbn. now rewrite <- !app_assoc.
Qed.

(** ** Supervised activities and the heartbeat *)

(** X24. A supervised body that returns is run again at once, without a
    cool-down, as long as the session is running; while the body is
    suspended the activity is suspended.  A body that returns without ever
    awaiting is therefore re-run without end: however many passes are
    allowed, the activity has neither returned nor been suspended, and it
    has started no operation. *)
Theorem supervised_body_returns (f : co unit) (st : costate) :
  _is_running (self_ st) = true ->
  (forall fuel st1,
     f st = (Returned tt, st1) ->
     process_while_running (S fuel) f st = process_while_running fuel f st1)
  /\ (forall fuel st1,
        f st = (Suspended, st1) ->
        process_while_running (S fuel) f st = (Suspended, st1))
  /\ (forall fuel, process_while_running fuel (co_ret tt) st = (OutOfFuel, st)).
Proof.
  intros Hrun. split; [| split].
  - intros fuel st1 Hf. cbn [process_while_running]. unfold co_bind at 1, get_self.
    rewrite Hrun. cbn [negb]. unfold co_bind at 1, co_try, co_bind. now rewrite Hf.
  - intros fuel st1 Hf. cbn [process_while_running]. unfold co_bind at 1, get_self.
    rewrite Hrun. cbn [negb]. unfold co_bind at 1, co_try, co_bind. now rewrite Hf.
  - intros fuel. induction fuel as [|fuel IH]; [reflexivity |].
    cbn [process_while_running]. unfold co_bind at 1, get_self.
    rewrite Hrun. cbn [negb]. unfold co_bind at 1, co_try, co_bind, co_ret. exact IH.
Qed.

Lemma supervised_body_returns_witness :
  process_while_running 3 (co_ret tt) (fresh_costate reconnecting_session [])
  = (OutOfFuel, fresh_costate reconnecting_session []).
Proof.
  exact (proj2 (proj2 (supervised_body_returns (co_ret tt)
                         (fresh_costate reconnecting_session []) eq_refl)) 3%nat).
Defined.

(** X25. One beat of the heartbeat loop.  After its interval sleep the
    loop asks for the connection status when the session is ready and sends
    a plain heartbeat when it is not.  A beat that is answered leads to the
    next interval sleep; a beat that fails with anything but a cancellation
    leads into the reconnection loop with [force] set and then to the next
    interval sleep; a cancellation during the beat leaves the loop.  The
    loop itself never looks at the running flag. *)
Theorem heartbeat_beat (fuel : nat) (st : costate) (r_sleep r_beat : resume)
    (rest : list resume) (v0 : pyvalue) :
  script st = r_sleep :: r_beat :: rest ->
  woke r_sleep = Return v0 ->
  let request := if ready_now r_sleep then RequestConnectionStatus else SendHeartbeat in
  let st2 :=
    resumed request r_beat rest
      (resumed (Sleep (_heartbeat_interval_s (self_ st))) r_sleep (r_beat :: rest) st) in
  trace st2 = (trace st ++ [Sleep (_heartbeat_interval_s (self_ st)); request])%list
  /\ (forall v, woke r_beat = Return v ->
                _heartbeat_loop (S fuel) st = _heartbeat_loop fuel st2)
  /\ (forall e, woke r_beat = Raise e -> e <> CancelledError ->
                _heartbeat_loop (S fuel) st
                = (do _ <- _reconnect_while_running fuel true; _heartbeat_loop fuel) st2)
  /\ (woke r_beat = Raise CancelledError ->
      _heartbeat_loop (S fuel) st = (Raised CancelledError, st2)).
Proof.
  intros Hs Hsleep request st2.
  assert (Hhead : _heartbeat_loop (S fuel) st =
    (do _ <-
       co_try
         (do self <- get_self;
          do _ <- (if _connected_node_ready self then await RequestConnectionStatus
                   else await SendHeartbeat);
          co_ret tt)
         (fun e => if is_Exception e then Some (_reconnect_while_running fuel true)
                   else None);
     _heartbeat_loop fuel)
      (resumed (Sleep (_heartbeat_interval_s (self_ st))) r_sleep (r_beat :: rest) st)).
  { rewrite heartbeat_loop_step. unfold co_bind at 1, get_self. unfold co_bind at 1.
    now rewrite (await_answered _ _ _ _ Hs), Hsleep. }
  assert (Hbeat : forall k : co unit,
    (do _ <-
       co_try
         (do self <- get_self;
          do _ <- (if _connected_node_ready self then await RequestConnectionStatus
                   else await SendHeartbeat);
          co_ret tt)
         (fun e => if is_Exception e then Some (_reconnect_while_running fuel true)
                   else None);
     k)
      (resumed (Sleep (_heartbeat_interval_s (self_ st))) r_sleep (r_beat :: rest) st)
    = match woke r_beat with
      | Return _ => k st2
      | Raise e => if is_Exception e
                   then (do _ <- _reconnect_while_running fuel true; k) st2
                   else (Raised e, st2)
      end).
  { intros k. subst st2 request.
    unfold co_bind, co_try, get_self, co_ret.
    set (st1 := resumed (Sleep _) r_sleep (r_beat :: rest) st).
    assert (Hs1 : script st1 = r_beat :: rest) by reflexivity.
    assert (Hr1 : _connected_node_ready (self_ st1) = ready_now r_sleep) by reflexivity.
    cbn beta. rewrite Hr1.
    destruct (ready_now r_sleep);
      rewrite (await_answered _ st1 r_beat rest Hs1);
      destruct (woke r_beat) as [v | e]; try reflexivity;
      destruct (is_Exception e); reflexivity. }
  split; [| split; [| split]].
  - subst st2. cbn. now rewrite <- app_assoc.
  - intros v Hv. now rewrite Hhead, Hbeat, Hv.
  - intros e He Hne. rewrite Hhead, Hbeat, He.
    destruct e; try reflexivity. contradiction.
  - intros He. now rewrite Hhead, Hbeat, He.
Qed.

Lemma heartbeat_beat_witness :
  trace (resumed SendHeartbeat (after_stop (Return PyNone)) []
           (resumed (Sleep 600) (after_stop (Return PyNone)) [after_stop (Return PyNone)]
              (fresh_costate reconnecting_session
                 [after_stop (Return PyNone); after_stop (Return PyNone)])))
  = [Sleep 600; SendHeartbeat].
Proof.
  exact (proj1 (heartbeat_beat 0
                  (fresh_costate reconnecting_session
                     [after_stop (Return PyNone); after_stop (Return PyNone)])
                  (after_stop (Return PyNone)) (after_stop (Return PyNone)) [] PyNone
                  eq_refl eq_refl)).
Defined.


(** ** Stopping, when every activity ends on cancellation *)

Lemma idle_world_cooperative :
  cooperative
    (with_session
       (set_connected_node_ready false (set_is_running false (session idle_world)))
       idle_world).
Proof.
  intros t task Ht Htask.
  assert (Hcases : t = 0%nat \/ t = 1%nat \/ t = 2%nat).
  { revert Ht. cbn. set_solver. }
  unfold with_session, idle_world, reconnecting_world in Htask. cbn [tasks] in Htask.
  destruct Hcases as [-> | [-> | ->]].
  - rewrite lookup_insert_eq in Htask. injection Htask as <-. vm_compute. reflexivity.
  - rewrite !(lookup_insert_ne _ 0%nat 1%nat) in Htask by discriminate.
    rewrite lookup_insert_eq in Htask. injection Htask as <-. vm_compute. reflexivity.
  - rewrite !(lookup_insert_ne _ 0%nat 2%nat) in Htask by discriminate.
    rewrite (lookup_insert_ne _ 1%nat 2%nat) in Htask by discriminate.
    rewrite lookup_insert_eq in Htask. injection Htask as <-. vm_compute. reflexivity.
Qed.

(** X26. In a running session whose tracked activities all end when they
    are cancelled, [stop] comes to its end, whatever the connection answers
    to the disconnect requests: both flags are cleared, every registered
    listener is closed, no tracked activity is pending, nothing is tracked
    any more and the connection has been told to disconnect; and a further
    [stop] then returns at once and changes nothing. *)
Theorem stop_cooperative_then_idempotent
    (send_disconnect_result disconnect_result again_send again_disconnect : outcome unit)
    (w : World) :
  _is_running (session w) = true ->
  cooperative
    (with_session (set_connected_node_ready false (set_is_running false (session w))) w) ->
  exists r w',
    stop send_disconnect_result disconnect_result w = StopEnded r w'
    /\ _is_running (session w') = false
    /\ _connected_node_ready (session w') = false
    /\ _packet_stream_listeners (session w') = []
    /\ (forall l, l ∈ _packet_stream_listeners (session w) -> listeners w' !! l = Some true)
    /\ (forall t, t ∈ _processing_tasks (session w) ∪ _background_tasks (session w) ->
                  task_pending (tasks w') t = false)
    /\ _processing_tasks (session w') = ∅
    /\ _background_tasks (session w') = ∅
    /\ (exists calls,
          connection_calls w' = (connection_calls w ++ send_disconnect :: calls)%list)
    /\ stop again_send again_disconnect w' = StopEnded (Return tt) w'.
Proof.
  intros Hrun Hcoop.
  destruct (stop_cancels_cooperative send_disconnect_result disconnect_result w Hrun Hcoop)
    as (r & w' & Hstop & Hflag & Hready & Hls & Hclosed & Hpending & Hp & Hb & Hcalls).
  exists r, w'.
  repeat (split; [assumption |]).
  exact (stop_twice _ _ again_send again_disconnect w w' r Hrun Hstop).
Qed.

Lemma stop_cooperative_then_idempotent_witness :
  exists r w',
    stop (Return tt) (Raise (OtherException "BleakError")) idle_world = StopEnded r w'
    /\ _is_running (session w') = false
    /\ _processing_tasks (session w') = ∅
    /\ _background_tasks (session w') = ∅
    /\ stop (Return tt) (Return tt) w' = StopEnded (Return tt) w'.
Proof.
  destruct (stop_cooperative_then_idempotent
              (Return tt) (Raise (OtherException "BleakError")) (Return tt) (Return tt)
              idle_world eq_refl idle_world_cooperative)
    as (r & w' & Hstop & Hflag & _ & _ & _ & _ & Hp & Hb & _ & Hagain).
  exists r, w'. auto.
Defined.
